(** * Zscaler connector: a shallow embedding of [zscaler_connector.py]

    The connector drives the administrative REST interface of a web-security
    gateway.  This development embeds the response classifier, the retrying
    request executor, the list-mutation engine, the endpoint normaliser, the
    lookup action and the key obfuscation of the login handshake, and states
    the behaviour the design document attributes to them.  It then embeds
    the login and the logout of the session and states what the code shows
    besides: the classification case by case, the retries, what the
    mutations read and write, what the lookup and the reports return, and
    what every action leaves alone.

    Conventions of the embedding:
    - Python text is [string]; a character is an [ascii] code point 0..255.
    - Python integers are [Z].
    - A Python value that crosses the JSON boundary is a [pyval].
    - An exception that leaves a function is [Raise]; the connector's
      methods run in the monad [M], which threads the connector object, the
      action result and the trace of network events.
    - The code is read as Python 3, where
      [_handle_py_ver_compat_for_input_str] returns its argument. *)

From Stdlib Require Import ZArith NArith String Ascii List Lia Bool ZifyN ZifyNat.
From stdpp Require Import gmap strings list fin_maps.

(** ** Exceptions and results *)

Inductive exn : Type :=
  | KeyError | IndexError | ValueError | TypeError | AttributeError.

Inductive result (A : Type) : Type :=
  | Ok (a : A)
  | Raise (e : exn).
Arguments Ok {A} a.
Arguments Raise {A} e.

Definition rbind {A B : Type} (r : result A) (k : A -> result B) : result B :=
  match r with
  | Ok a => k a
  | Raise e => Raise e
  end.

Notation "'let?' x ':=' r 'in' k" := (rbind r (fun x => k))
  (at level 10, x pattern, r at level 100, k at level 200).

(** ** Python text primitives *)

Module Py.

(** [str.isspace] on the code points below 256. *)
Definition isspace (c : ascii) : bool :=
  let n := nat_of_ascii c in
  (Nat.leb 9 n && Nat.leb n 13) || (Nat.leb 28 n && Nat.leb n 32)
  || Nat.eqb n 133 || Nat.eqb n 160.

Fixpoint lstrip (s : string) : string :=
  match s with
  | EmptyString => EmptyString
  | String c s' => if isspace c then lstrip s' else s
  end.

Fixpoint rstrip (s : string) : string :=
  match s with
  | EmptyString => EmptyString
  | String c s' =>
      match rstrip s' with
      | EmptyString => if isspace c then EmptyString else String c EmptyString
      | t => String c t
      end
  end.

(** [s.strip()] *)
Definition strip (s : string) : string := rstrip (lstrip s).

(** [s.split(sep)] for a one-character separator: empty fields are kept. *)
Fixpoint split_on (sep : ascii) (s : string) : list string :=
  match s with
  | EmptyString => [EmptyString]
  | String c s' =>
      if Ascii.eqb c sep then EmptyString :: split_on sep s'
      else match split_on sep s' with
           | w :: ws => String c w :: ws
           | [] => [String c EmptyString]
           end
  end.

(** [s.split()]: fields are the maximal runs of non-blank characters. *)
Fixpoint split (s : string) : list string :=
  match s with
  | EmptyString => []
  | String c s' =>
      if isspace c then split s'
      else match s' with
           | EmptyString => [String c EmptyString]
           | String c' _ =>
               if isspace c' then String c EmptyString :: split s'
               else match split s' with
                    | w :: ws => String c w :: ws
                    | [] => [String c EmptyString]
                    end
           end
  end.

Definition lower_char (c : ascii) : ascii :=
  let n := nat_of_ascii c in
  if (Nat.leb 65 n && Nat.leb n 90)
     || (Nat.leb 192 n && Nat.leb n 222 && negb (Nat.eqb n 215))
  then ascii_of_nat (n + 32) else c.

(** [s.lower()] *)
Fixpoint lower (s : string) : string :=
  match s with
  | EmptyString => EmptyString
  | String c s' => String (lower_char c) (lower s')
  end.

(** [s.startswith(p)] *)
Definition startswith (s p : string) : bool := String.prefix p s.

(** [s[n:]] for [n >= 0] *)
Fixpoint drop (n : nat) (s : string) : string :=
  match n, s with
  | O, _ => s
  | S n', String _ s' => drop n' s'
  | S _, EmptyString => EmptyString
  end.

(** [s[-k:]] for [k > 0] *)
Definition last_n (k : nat) (s : string) : string :=
  drop (String.length s - k) s.

(** [sub in s] *)
Fixpoint contains (sub s : string) : bool :=
  String.prefix sub s
  || match s with
     | EmptyString => false
     | String _ s' => contains sub s'
     end.

(** [s.replace(c, rep)] for a one-character pattern. *)
Fixpoint replace_char (c : ascii) (rep : string) (s : string) : string :=
  match s with
  | EmptyString => EmptyString
  | String a s' =>
      if Ascii.eqb a c then rep +:+ replace_char c rep s'
      else String a (replace_char c rep s')
  end.

(** [sep.join(l)] *)
Definition join (sep : string) (l : list string) : string := String.concat sep l.

(** [s[i]], with Python's negative indices. *)
Definition index (s : string) (i : Z) : result ascii :=
  let len := Z.of_nat (String.length s) in
  let j := (if i <? 0 then len + i else i)%Z in
  if (j <? 0)%Z then Raise IndexError
  else match String.get (Z.to_nat j) s with
       | Some c => Ok c
       | None => Raise IndexError
       end.

(** *** Integers and text *)

Definition digit_char (d : N) : ascii := ascii_of_N (48 + d).

Definition digit_val (c : ascii) : option Z :=
  let n := N_of_ascii c in
  if (48 <=? n)%N && (n <=? 57)%N then Some (Z.of_N (n - 48)) else None.

Fixpoint digits_go (fuel : nat) (n : N) (acc : string) : string :=
  match fuel with
  | O => acc
  | S fuel' =>
      let acc' := String (digit_char (n mod 10)) acc in
      if (n <? 10)%N then acc' else digits_go fuel' (n / 10) acc'
  end.

(** Decimal numeral of a natural number; the number of binary digits
    bounds the number of decimal ones. *)
Definition str_N (n : N) : string :=
  digits_go (S (N.to_nat (N.log2 n))) n EmptyString.

(** [str(z)] for an [int] *)
Definition str (z : Z) : string :=
  if (z <? 0)%Z then String "-" (str_N (Z.abs_N z)) else str_N (Z.abs_N z).

(** The digits of [int(s)] after the sign: decimal digits, single
    underscores allowed between two digits. *)
Fixpoint parse_digits (acc : Z) (after_digit : bool) (s : string) : option Z :=
  match s with
  | EmptyString => if after_digit then Some acc else None
  | String c s' =>
      if Ascii.eqb c "_" then
        if after_digit then parse_digits acc false s' else None
      else match digit_val c with
           | Some d => parse_digits (10 * acc + d) true s'
           | None => None
           end
  end.

(** [int(s)] for text [s]: surrounding blanks are dropped, one sign is
    allowed; anything else is a [ValueError]. *)
Definition int (s : string) : result Z :=
  let parsed :=
    match strip s with
    | String c t =>
        if Ascii.eqb c "-" then Z.opp <$> parse_digits 0 false t
        else if Ascii.eqb c "+" then parse_digits 0 false t
        else parse_digits 0 false (String c t)
    | EmptyString => None
    end in
  match parsed with
  | Some z => Ok z
  | None => Raise ValueError
  end.

Fixpoint zeros (k : nat) : string :=
  match k with
  | O => EmptyString
  | S k' => String "0" (zeros k')
  end.

(** [s.zfill(width)]: zeros go after a leading sign. *)
Definition zfill (width : nat) (s : string) : string :=
  let pad := zeros (width - String.length s) in
  match s with
  | String c t =>
      if Ascii.eqb c "-" || Ascii.eqb c "+" then String c (pad +:+ t)
      else pad +:+ s
  | EmptyString => pad
  end.

End Py.

(** ** Session manager: key obfuscation

    [now = str(int(time.time() * 1000))]: the clock enters as the integer
    [clock_ms], the value of [int(time.time() * 1000)]. *)

(** [api_key[int(src[i]) + shift]] *)
Definition key_char (api_key src : string) (shift : Z) (i : Z) : result ascii :=
  let? c := Py.index src i in
  let? d := Py.int (String c EmptyString) in
  Py.index api_key (d + shift).

(** One pass of [for i in range(0, len(src), 1): key += api_key[int(src[i]) + shift]]. *)
Definition select_chars (api_key src : string) (shift : Z) (key : string) : result string :=
  foldl (fun acc i =>
           let? key := acc in
           let? ch := key_char api_key src shift (Z.of_nat i) in
           Ok (key +:+ String ch EmptyString))
        (Ok key) (seq 0 (String.length src)).

Definition _obfuscate_api_key (clock_ms : Z) (api_key : string) : result (string * string) :=
  let now := Py.str clock_ms in
  let n := Py.last_n 6 now in
  let? v := Py.int n in
  let r := Py.zfill 6 (Py.str (Z.shiftr v 1)) in
  let key := EmptyString in
  let? key := select_chars api_key n 0 key in
  let? key := select_chars api_key r 2 key in
  Ok (now, key).


(** ** Python values

    What [r.json()] yields and what the connector passes around untyped:
    JSON objects keep their insertion order, JSON numbers are integers. *)

#[warnings="-register-all"]
Inductive pyval : Type :=
  | VNone
  | VBool (b : bool)
  | VInt (z : Z)
  | VStr (s : string)
  | VList (l : list pyval)
  | VDict (d : list (string * pyval)).

Definition str_list (l : list string) : pyval := VList (VStr <$> l).

Fixpoint dict_get {V : Type} (d : list (string * V)) (k : string) : option V :=
  match d with
  | [] => None
  | (k', v) :: d' => if String.eqb k' k then Some v else dict_get d' k
  end.

(** [d[k] = v]: an existing key keeps its place, a new one goes last. *)
Fixpoint dict_set {V : Type} (d : list (string * V)) (k : string) (v : V)
  : list (string * V) :=
  match d with
  | [] => [(k, v)]
  | (k', v') :: d' =>
      if String.eqb k' k then (k', v) :: d' else (k', v') :: dict_set d' k v
  end.

(** [d.update(d')] *)
Definition dict_update {V : Type} (d d' : list (string * V)) : list (string * V) :=
  foldl (fun acc kv => dict_set acc kv.1 kv.2) d d'.

(** [v.get(k, default)] *)
Definition py_get (v : pyval) (k : string) (default : pyval) : result pyval :=
  match v with
  | VDict d => Ok (from_option id default (dict_get d k))
  | _ => Raise AttributeError
  end.

(** [v[k]] for a text key [k] *)
Definition py_subscript (v : pyval) (k : string) : result pyval :=
  match v with
  | VDict d => match dict_get d k with
               | Some x => Ok x
               | None => Raise KeyError
               end
  | _ => Raise TypeError
  end.

(** [v == s] for text [s] *)
Definition py_eq_str (v : pyval) (s : string) : bool :=
  match v with
  | VStr t => String.eqb t s
  | _ => false
  end.

Fixpoint chars (s : string) : list string :=
  match s with
  | EmptyString => []
  | String c s' => String c EmptyString :: chars s'
  end.

(** [for x in v] *)
Definition py_iter (v : pyval) : result (list pyval) :=
  match v with
  | VList l => Ok l
  | VDict d => Ok (VStr <$> d.*1)
  | VStr s => Ok (VStr <$> chars s)
  | _ => Raise TypeError
  end.

Definition hashable (v : pyval) : bool :=
  match v with
  | VList _ | VDict _ => false
  | _ => true
  end.

Definition strings_of (l : list pyval) : list string :=
  omap (fun v => match v with VStr s => Some s | _ => None end) l.

(** [set(v)], kept to its text members: the requested endpoints are text,
    so members of another type never meet them in a difference or an
    intersection.  A list or dict among the members is unhashable. *)
Definition py_set (v : pyval) : result (gset string) :=
  let? items := py_iter v in
  if forallb hashable items then Ok (list_to_set (strings_of items))
  else Raise TypeError.

(** [s in v] for text [s] *)
Definition py_contains (s : string) (v : pyval) : result bool :=
  match v with
  | VList l => Ok (existsb (fun x => py_eq_str x s) l)
  | VDict d => Ok (bool_decide (is_Some (dict_get d s)))
  | VStr t => Ok (Py.contains s t)
  | _ => Raise TypeError
  end.

Definition truthy (v : pyval) : bool :=
  match v with
  | VNone => false
  | VBool b => b
  | VInt z => negb (z =? 0)%Z
  | VStr s => negb (String.eqb s EmptyString)
  | VList l => match l with [] => false | _ => true end
  | VDict d => match d with [] => false | _ => true end
  end.

(** ["{}".format(v)]; the text of a list or a dict is not modelled. *)
Definition py_format (v : pyval) : string :=
  match v with
  | VNone => "None"
  | VBool true => "True"
  | VBool false => "False"
  | VInt z => Py.str z
  | VStr s => s
  | VList _ => "[...]"
  | VDict _ => "{...}"
  end.

(** ** The platform interface ([phantom])

    [APP_SUCCESS] is [True], [APP_ERROR] is [False]; [is_fail(v)] is
    [v == APP_ERROR]. *)

Definition APP_SUCCESS : pyval := VBool true.
Definition APP_ERROR : pyval := VBool false.

Definition is_fail (v : pyval) : bool :=
  match v with
  | VBool b => negb b
  | VInt z => (z =? 0)%Z
  | _ => false
  end.

(** The action result records the arguments of the last [set_status] and
    the summary, data and debug entries handed to it. *)
Record ActionResult : Type := {
  status : bool;
  message : pyval;
  summary : gmap string pyval;
  data : list pyval;
  debug_data : list (string * pyval)
}.

Definition new_action_result : ActionResult :=
  {| status := false; message := VNone; summary := ∅; data := []; debug_data := [] |}.

(** ** The network *)

Record response : Type := {
  status_code : Z;
  headers : list (string * string);
  text : string;
  (** [r.json()]: the parsed body, or the arguments of the exception raised *)
  json : list string + pyval;
  (** [BeautifulSoup(r.text, "html.parser").text], [None] if that raises *)
  soup_text : option string
}.

(** Header names are matched without regard to case. *)
Fixpoint header_get (h : list (string * string)) (name default : string) : string :=
  match h with
  | [] => default
  | (k, v) :: h' =>
      if String.eqb (Py.lower k) (Py.lower name) then v else header_get h' name default
  end.

Record request : Type := {
  method : string;
  url : string;
  req_headers : list (string * string);
  params : list (string * string);
  body : pyval
}.

Inductive http_outcome : Type :=
  | Responded (r : response)
  | Failed (args : list string).

Inductive event : Type :=
  | Call (rq : request)
  | Sleep (seconds : Z).

(** Constants of [zscaler_consts], which the connector imports. *)
Record zscaler_consts : Type := {
  ZSCALER_ERROR_MESSAGE : string;
  ZSCALER_ERROR_CODE_MESSAGE : string;
  ZSCALER_JSON_FULL_DETAILS : string;
  ZSCLAER_ERR_MD5_UNKNOWN_MSG : string;
  ZSCALER_SANDBOX_GET_REPORT_MSG : string
}.

(** ** The connector

    The state holds the connector's fields, the action result of the
    running action, the gateway and the trace of network events, most recent
    first.  The gateway answers a request in view of everything that
    happened before it. *)

Record state : Type := {
  consts : zscaler_consts;
  _base_url : string;
  _headers : list (string * string);
  _response : option response;
  _allowlist : pyval;
  _category : pyval;
  action_identifier : string;
  action_result : ActionResult;
  gateway : list event -> request -> http_outcome;
  trace : list event
}.

Inductive outcome (A : Type) : Type :=
  | Return (a : A)
  | Throw (e : exn)
  | NoFuel.
Arguments Return {A} a.
Arguments Throw {A} e.
Arguments NoFuel {A}.

Definition M (A : Type) : Type := state -> outcome A * state.

Definition ret {A : Type} (a : A) : M A := fun st => (Return a, st).

Definition bind {A B : Type} (m : M A) (k : A -> M B) : M B :=
  fun st =>
    match m st with
    | (Return a, st') => k a st'
    | (Throw e, st') => (Throw e, st')
    | (NoFuel, st') => (NoFuel, st')
    end.

Notation "'let*' x ':=' c1 'in' c2" := (bind c1 (fun x => c2))
  (at level 10, x pattern, c1 at level 100, c2 at level 200).

Definition raise {A : Type} (e : exn) : M A := fun st => (Throw e, st).
Definition out_of_fuel {A : Type} : M A := fun st => (NoFuel, st).
Definition gets {A : Type} (f : state -> A) : M A := fun st => (Return (f st), st).
Definition modify (f : state -> state) : M unit := fun st => (Return tt, f st).

Definition lift {A : Type} (r : result A) : M A :=
  match r with
  | Ok a => ret a
  | Raise e => raise e
  end.

Definition with_action_result (f : ActionResult -> ActionResult) (st : state) : state :=
  {| consts := consts st; _base_url := _base_url st; _headers := _headers st;
     _response := _response st; _allowlist := _allowlist st;
     _category := _category st; action_identifier := action_identifier st;
     action_result := f (action_result st);
     gateway := gateway st; trace := trace st |}.

Definition set_response (r : response) (st : state) : state :=
  {| consts := consts st; _base_url := _base_url st; _headers := _headers st;
     _response := Some r; _allowlist := _allowlist st;
     _category := _category st; action_identifier := action_identifier st;
     action_result := action_result st;
     gateway := gateway st; trace := trace st |}.

Definition set_allowlist (v : pyval) (st : state) : state :=
  {| consts := consts st; _base_url := _base_url st; _headers := _headers st;
     _response := _response st; _allowlist := v;
     _category := _category st; action_identifier := action_identifier st;
     action_result := action_result st;
     gateway := gateway st; trace := trace st |}.

Definition set_category (v : pyval) (st : state) : state :=
  {| consts := consts st; _base_url := _base_url st; _headers := _headers st;
     _response := _response st; _allowlist := _allowlist st;
     _category := v; action_identifier := action_identifier st;
     action_result := action_result st;
     gateway := gateway st; trace := trace st |}.

Definition log_event (e : event) (st : state) : state :=
  {| consts := consts st; _base_url := _base_url st; _headers := _headers st;
     _response := _response st; _allowlist := _allowlist st;
     _category := _category st; action_identifier := action_identifier st;
     action_result := action_result st;
     gateway := gateway st; trace := e :: trace st |}.

(** *** [ActionResult] methods *)

(** [action_result.set_status(status, message)] returns the status. *)
Definition set_status (b : bool) (msg : pyval) : M pyval :=
  let* _ := modify (with_action_result (fun ar =>
    {| status := b; message := msg; summary := summary ar;
       data := data ar; debug_data := debug_data ar |})) in
  ret (VBool b).

Definition get_status : M pyval := gets (fun st => VBool (status (action_result st))).

(** [action_result.set_summary({})] *)
Definition set_summary_empty : M unit :=
  modify (with_action_result (fun ar =>
    {| status := status ar; message := message ar; summary := ∅;
       data := data ar; debug_data := debug_data ar |})).

(** [summary[k] = v] *)
Definition summary_set (k : string) (v : pyval) : M unit :=
  modify (with_action_result (fun ar =>
    {| status := status ar; message := message ar; summary := <[k := v]> (summary ar);
       data := data ar; debug_data := debug_data ar |})).

(** [action_result.add_data(v)] *)
Definition add_data (v : pyval) : M unit :=
  modify (with_action_result (fun ar =>
    {| status := status ar; message := message ar; summary := summary ar;
       data := data ar ++ [v]; debug_data := debug_data ar |})).

(** [action_result.update_data(l)] extends the data with the items of [l]. *)
Definition update_data (l : list pyval) : M unit :=
  modify (with_action_result (fun ar =>
    {| status := status ar; message := message ar; summary := summary ar;
       data := data ar ++ l; debug_data := debug_data ar |})).

Definition add_debug_data (k : string) (v : pyval) : M unit :=
  modify (with_action_result (fun ar =>
    {| status := status ar; message := message ar; summary := summary ar;
       data := data ar; debug_data := debug_data ar ++ [(k, v)] |})).

(** [self.add_action_result(ActionResult(dict(param)))] *)
Definition add_action_result : M unit :=
  modify (with_action_result (fun _ => new_action_result)).

(** ** Shared helpers *)

(** Under Python 3 the input text is returned as it is. *)
Definition _handle_py_ver_compat_for_input_str (input_str : string) : string :=
  input_str.

(** The exception enters through its [args], taken as text. *)
Definition _get_error_message_from_exception (c : zscaler_consts) (args : list string)
  : string :=
  let '(error_code, error_msg) :=
    match args with
    | code :: msg :: _ => (code, msg)
    | [msg] => (ZSCALER_ERROR_CODE_MESSAGE c, msg)
    | [] => (ZSCALER_ERROR_CODE_MESSAGE c, ZSCALER_ERROR_MESSAGE c)
    end in
  let error_msg := _handle_py_ver_compat_for_input_str error_msg in
  if Py.contains error_code (ZSCALER_ERROR_CODE_MESSAGE c)
  then "Error Message: " +:+ error_msg
  else "Error Code: " +:+ error_code +:+ ". Error Message: " +:+ error_msg.

Definition newline : string := String "010" EmptyString.

Definition escape_braces (s : string) : string :=
  Py.replace_char "}" "}}" (Py.replace_char "{" "{{" s).

(** ** Response classifier *)

Definition _process_empty_reponse (r : response) : M (pyval * pyval) :=
  if (status_code r =? 200)%Z || (status_code r =? 204)%Z
  then ret (APP_SUCCESS, VDict [])
  else let* v := set_status false
                   (VStr "Empty response and no information in the header") in
       ret (v, VNone).

Definition base_url_hint : string :=
  "Please check the asset configuration parameters (the base_url should not end with /api/v1 e.g. https://admin.zscaler_instance.net).".

Definition _process_html_response (r : response) : M (pyval * pyval) :=
  let status_code := status_code r in
  let error_text :=
    match soup_text r with
    | Some error_text =>
        let split_lines := Py.split_on "010" error_text in
        let split_lines :=
          Py.strip <$> filter (fun x => Py.strip x <> EmptyString) split_lines in
        Py.join newline split_lines
    | None => "Cannot parse error details"
    end in
  let error_text := _handle_py_ver_compat_for_input_str error_text in
  let message := base_url_hint in
  let message :=
    if (String.length error_text <=? 500)%nat
    then message +:+ "Status Code: " +:+ Py.str status_code
         +:+ ". Data from server:" +:+ newline +:+ error_text +:+ newline
    else message in
  let message := escape_braces message in
  let* v := set_status false (VStr message) in
  ret (v, VNone).

Definition _process_json_response (r : response) : M (pyval * pyval) :=
  match json r with
  | inl args =>
      let* c := gets consts in
      let* v := set_status false
                  (VStr ("Unable to parse JSON response. Error: "
                         +:+ _get_error_message_from_exception c args)) in
      ret (v, VNone)
  | inr resp_json =>
      if (200 <=? status_code r)%Z && (status_code r <? 399)%Z
      then ret (APP_SUCCESS, resp_json)
      else
        let message :=
          match py_subscript resp_json "message" with
          | Ok m => m
          | Raise _ =>
              VStr ("Error from server. Status Code: " +:+ Py.str (status_code r)
                    +:+ " Data from server: " +:+ escape_braces (text r))
          end in
        let* v := set_status false message in
        ret (v, VNone)
  end.

Definition content_type (r : response) : string :=
  header_get (headers r) "Content-Type" EmptyString.

Definition _process_response (r : response) : M (pyval * pyval) :=
  let* _ := add_debug_data "r_status_code" (VInt (status_code r)) in
  let* _ := add_debug_data "r_text" (VStr (text r)) in
  let* _ := add_debug_data "r_headers"
              (VDict ((fun kv => (kv.1, VStr kv.2)) <$> headers r)) in
  if Py.contains "json" (content_type r) then _process_json_response r
  else if Py.contains "html" (content_type r) then _process_html_response r
  else if String.eqb (text r) EmptyString then _process_empty_reponse r
  else
    let message :=
      "Can't process response from server. Status Code: " +:+ Py.str (status_code r)
      +:+ " Data from server: " +:+ escape_braces (text r) in
    let* v := set_status false (VStr message) in
    ret (v, VNone).

(** ** Resilient request executor *)

(** The request functions of the [requests] module. *)
Definition request_functions : list string :=
  ["get"; "post"; "put"; "delete"; "head"; "patch"; "options"].

(** [request_func(url, json=data, headers=headers, params=params)] *)
Definition send (rq : request) : M http_outcome :=
  fun st => (Return (gateway st (trace st) rq), log_event (Call rq) st).

(** [time.sleep(seconds)] *)
Definition sleep (seconds : Z) : M unit := modify (log_event (Sleep seconds)).

Definition _make_rest_call (endpoint : string) (headers : list (string * string))
    (params : list (string * string)) (data : pyval) (method : string)
  : M (pyval * pyval) :=
  let resp_json := VNone in
  let* self_headers := gets _headers in
  let headers := dict_update headers self_headers in
  if bool_decide (method ∈ request_functions) then
    let* base_url := gets _base_url in
    let url := _handle_py_ver_compat_for_input_str base_url +:+ endpoint in
    let* outcome :=
      send {| method := method; url := url; req_headers := headers;
              params := params; body := data |} in
    match outcome with
    | Failed args =>
        let* c := gets consts in
        let* v := set_status false
                    (VStr ("Error Connecting to Zscaler server. "
                           +:+ _get_error_message_from_exception c args)) in
        ret (v, resp_json)
    | Responded r =>
        let* _ := modify (set_response r) in
        _process_response r
    end
  else
    let* v := set_status false (VStr ("Invalid method: " +:+ method)) in
    ret (v, resp_json).

(** [retry_time.split()] needs text; [parts[1]] and [int(parts[0])] may raise. *)
Definition _parse_retry_time (retry_time : pyval) : result (option Z) :=
  match retry_time with
  | VStr retry_time =>
      let parts := Py.split retry_time in
      match parts !! 1%nat with
      | None => Raise IndexError
      | Some unit_ =>
          if String.eqb (Py.lower unit_) "seconds" then
            let? n := Py.int (default EmptyString (parts !! 0%nat)) in Ok (Some n)
          else if String.eqb (Py.lower unit_) "minutes" then
            let? n := Py.int (default EmptyString (parts !! 0%nat)) in Ok (Some (n * 60)%Z)
          else Ok None
      end
  | _ => Raise AttributeError
  end.

(** The retry of the source is a recursive call; [fuel] bounds the number of
    attempts, and [NoFuel] is the outcome of a run that needs more. *)
Fixpoint _make_rest_call_helper (fuel : nat) (endpoint : string)
    (headers : list (string * string)) (params : list (string * string))
    (data : pyval) (method : string) : M (pyval * pyval) :=
  match fuel with
  | O => out_of_fuel
  | S fuel' =>
      let* (ret_val, response) := _make_rest_call endpoint headers params data method in
      if is_fail ret_val then
        let* last := gets _response in
        match last with
        | None => ret (ret_val, response)
        | Some r =>
            if (status_code r =? 409)%Z then
              let* _ := sleep 1 in
              _make_rest_call_helper fuel' endpoint headers params data method
            else if (status_code r =? 429)%Z then
              match json r with
              | inl _ => raise ValueError
              | inr body =>
                  match py_subscript body "Retry-After" with
                  | Raise KeyError => ret (ret_val, response)
                  | Raise e => raise e
                  | Ok retry_time =>
                      let* seconds_to_wait := lift (_parse_retry_time retry_time) in
                      match seconds_to_wait with
                      | None => ret (retry_time, response)
                      | Some n =>
                          if (n <? 0)%Z then ret (retry_time, response)
                          else
                            let* _ := sleep n in
                            _make_rest_call_helper fuel' endpoint headers params data method
                      end
                  end
              end
            else ret (ret_val, response)
        end
      else ret (ret_val, response)
  end.

(** ** List mutation engine

    [list(set(...))] enumerates a set in an order Python does not fix;
    [elements] stands for that enumeration. *)

Definition _filter_endpoints (to_add : list string) (existing : pyval)
    (action name : string) : M (pyval * option (list string)) :=
  let* (msg, endpoints) :=
    lift (if String.eqb action "REMOVE_FROM_LIST" then
            let msg := name +:+ " contains none of these endpoints" in
            let? e := py_set existing in
            Ok (msg, elements (e ∖ (e ∖ list_to_set to_add)))
          else
            let msg := name +:+ " contains all of these endpoints" in
            let? e := py_set existing in
            Ok (msg, elements (list_to_set to_add ∖ e))) in
  match endpoints with
  | [] =>
      let* _ := set_summary_empty in
      let* _ := summary_set "updated" (str_list []) in
      let* _ := summary_set "ignored" (str_list to_add) in
      let* v := set_status true (VStr msg) in
      ret (v, None)
  | _ => ret (APP_SUCCESS, Some endpoints)
  end.

(** The summary of a write that went through. *)
Definition report_summary (endpoints filtered_endpoints : list string) : M unit :=
  let* _ := set_summary_empty in
  let* _ := summary_set "updated" (str_list filtered_endpoints) in
  let* _ := summary_set "ignored"
              (str_list (elements (list_to_set endpoints
                                   ∖ list_to_set (C := gset string) filtered_endpoints))) in
  let* _ := summary_set "updated"
              (str_list (_handle_py_ver_compat_for_input_str <$> filtered_endpoints)) in
  summary_set "ignored"
    (str_list (_handle_py_ver_compat_for_input_str
               <$> elements (list_to_set endpoints
                             ∖ list_to_set (C := gset string) filtered_endpoints))).

Definition _get_blocklist (fuel : nat) : M (pyval * pyval) :=
  _make_rest_call_helper fuel "/api/v1/security/advanced" [] [] VNone "get".

Definition _check_blocklist (fuel : nat) (endpoints : list string) (action : string)
  : M (pyval * option (list string)) :=
  let* (ret_val, response) := _get_blocklist fuel in
  if is_fail ret_val then ret (ret_val, None)
  else
    let* blocklist := lift (py_get response "blacklistUrls" (VList [])) in
    _filter_endpoints endpoints blocklist action "Blocklist".

Definition _amend_blocklist (fuel : nat) (endpoints : list string) (action : string)
  : M pyval :=
  let* (ret_val, filtered_endpoints) := _check_blocklist fuel endpoints action in
  match (if is_fail ret_val then None else filtered_endpoints) with
  | None => ret ret_val
  | Some filtered_endpoints =>
      let params := [("action", action)] in
      let data := VDict [("blacklistUrls", str_list filtered_endpoints)] in
      let* (ret_val, response) :=
        _make_rest_call_helper fuel "/api/v1/security/advanced/blacklistUrls"
          [] params data "post" in
      let* surfaced :=
        if is_fail ret_val then
          let* last := gets _response in
          match last with
          | Some r => ret (negb (status_code r =? 204)%Z)
          | None => raise AttributeError
          end
        else ret false in
      if surfaced then ret ret_val
      else
        let* _ := report_summary endpoints filtered_endpoints in
        set_status true VNone
  end.

Definition _get_allowlist (fuel : nat) : M (pyval * pyval) :=
  _make_rest_call_helper fuel "/api/v1/security" [] [] VNone "get".

Definition _check_allowlist (fuel : nat) (endpoints : list string) (action : string)
  : M (pyval * option (list string)) :=
  let* (ret_val, response) := _get_allowlist fuel in
  if is_fail ret_val then ret (ret_val, None)
  else
    let* allowlist := lift (py_get response "whitelistUrls" (VList [])) in
    let* _ := modify (set_allowlist allowlist) in
    _filter_endpoints endpoints allowlist action "Allowlist".

(** [list(set(current + filtered))] for ADD_TO_LIST, [list(set(current) -
    set(filtered))] otherwise; [+] needs a list on its left. *)
Definition merged_list (current : pyval) (filtered_endpoints : list string)
    (action : string) : result (list string) :=
  if String.eqb action "ADD_TO_LIST" then
    match current with
    | VList l =>
        let? all := py_set (VList (l ++ (VStr <$> filtered_endpoints))) in
        Ok (elements all)
    | _ => Raise TypeError
    end
  else
    let? cur := py_set current in
    Ok (elements (cur ∖ list_to_set filtered_endpoints)).

Definition _amend_allowlist (fuel : nat) (endpoints : list string) (action : string)
  : M pyval :=
  let* (ret_val, filtered_endpoints) := _check_allowlist fuel endpoints action in
  match (if is_fail ret_val then None else filtered_endpoints) with
  | None => ret ret_val
  | Some filtered_endpoints =>
      let* allowlist := gets _allowlist in
      let* to_add_endpoints := lift (merged_list allowlist filtered_endpoints action) in
      let data := VDict [("whitelistUrls", str_list to_add_endpoints)] in
      let* (ret_val, response) :=
        _make_rest_call_helper fuel "/api/v1/security" [] [] data "put" in
      if is_fail ret_val then ret ret_val
      else
        let* _ := add_data response in
        let* _ := report_summary endpoints filtered_endpoints in
        set_status true VNone
  end.

(** *** Categories *)

Fixpoint find_configured_name (category : string) (cats : list pyval)
  : result (option pyval) :=
  match cats with
  | [] => Ok None
  | cat :: rest =>
      let? name := py_get cat "configuredName" VNone in
      if py_eq_str name category then Ok (Some cat)
      else find_configured_name category rest
  end.

Fixpoint find_id (category : string) (cats : list pyval) : result (option pyval) :=
  match cats with
  | [] => Ok None
  | cat :: rest =>
      let? id := py_subscript cat "id" in
      if py_eq_str id category then Ok (Some cat)
      else find_id category rest
  end.

Definition _get_category (fuel : nat) (category : string) : M (pyval * pyval) :=
  let* (ret_val, response) :=
    _make_rest_call_helper fuel "/api/v1/urlCategories" [] [] VNone "get" in
  if is_fail ret_val then ret (ret_val, response)
  else
    let* cats := lift (py_iter response) in
    let* by_name := lift (find_configured_name category cats) in
    match by_name with
    | Some cat => ret (APP_SUCCESS, cat)
    | None =>
        let* by_id := lift (find_id category cats) in
        match by_id with
        | Some cat => ret (APP_SUCCESS, cat)
        | None =>
            let* v := set_status false (VStr "Unable to find category") in
            ret (v, VNone)
        end
    end.

(** On a failed lookup the second component is never read by the caller. *)
Definition _check_category (fuel : nat) (endpoints : list string)
    (category action : string) : M (pyval * option (list string)) :=
  let* (ret_val, response) := _get_category fuel category in
  if is_fail ret_val then ret (ret_val, None)
  else
    let* _ := modify (set_category response) in
    let* urls := lift (py_get response "dbCategorizedUrls" (VList [])) in
    _filter_endpoints endpoints urls action "Category".

Definition _amend_category (fuel : nat) (endpoints : list string)
    (category action : string) : M pyval :=
  let* (ret_val, filtered_endpoints) := _check_category fuel endpoints category action in
  match (if is_fail ret_val then None else filtered_endpoints) with
  | None => ret ret_val
  | Some filtered_endpoints =>
      let* data := gets _category in
      let* current := lift (py_get data "dbCategorizedUrls" (VList [])) in
      let* to_add_endpoints := lift (merged_list current filtered_endpoints action) in
      let* data :=
        match data with
        | VDict d => ret (VDict (dict_set d "dbCategorizedUrls" (str_list to_add_endpoints)))
        | _ => raise TypeError
        end in
      let* _ := modify (set_category data) in
      let* id := lift (py_subscript data "id") in
      let* (ret_val, response) :=
        _make_rest_call_helper fuel ("/api/v1/urlCategories/" +:+ py_format id)
          [] [] data "put" in
      if is_fail ret_val then ret ret_val
      else
        let* _ := add_data response in
        let* _ := report_summary endpoints filtered_endpoints in
        set_status true VNone
  end.

(** ** Endpoint normaliser *)

(** The loop [for i in range(len(endpoints))] rewrites the list in place. *)
Definition _truncate_protocol (endpoints : list string) : list string :=
  foldl (fun endpoints i =>
           match endpoints !! i with
           | Some e =>
               if Py.startswith e "http://"
               then <[i := Py.drop (String.length "http://") e]> endpoints
               else if Py.startswith e "https://"
               then <[i := Py.drop (String.length "https://") e]> endpoints
               else endpoints
           | None => endpoints
           end)
        endpoints (seq 0 (length endpoints)).

Definition overlength_message : string :=
  "Please provide valid comma-separated values in the action parameter. Max allowed length for each value is 1024.".

Fixpoint _check_for_overlength (endpoints : list string) : M pyval :=
  match endpoints with
  | [] => ret APP_SUCCESS
  | url :: rest =>
      if (1024 <? String.length url)%nat
      then set_status false (VStr overlength_message)
      else _check_for_overlength rest
  end.

(** [[x.strip() for x in endpoints.split(',')]] followed by
    [list(filter(None, list_endpoints))]. *)
Definition split_endpoints (endpoints : string) : list string :=
  let list_endpoints :=
    (fun x => _handle_py_ver_compat_for_input_str (Py.strip x))
    <$> Py.split_on "," endpoints in
  filter (fun x => x <> EmptyString) list_endpoints.

(** ** Action handlers *)

Definition get_action_identifier : M string := gets action_identifier.

Definition _block_endpoint (fuel : nat) (endpoints : string) (category : option string)
  : M pyval :=
  let endpoints := split_endpoints endpoints in
  let endpoints := _truncate_protocol endpoints in
  let* action_id := get_action_identifier in
  let* ret_val :=
    if bool_decide (action_id ∈ ["block_url"])
    then _check_for_overlength endpoints else ret APP_SUCCESS in
  if is_fail ret_val then ret ret_val
  else
    match category with
    | None => _amend_blocklist fuel endpoints "ADD_TO_LIST"
    | Some category => _amend_category fuel endpoints category "ADD_TO_LIST"
    end.

Definition _unblock_endpoint (fuel : nat) (endpoints : string) (category : option string)
  : M pyval :=
  let endpoints := split_endpoints endpoints in
  let endpoints := _truncate_protocol endpoints in
  let* action_id := get_action_identifier in
  let* ret_val :=
    if bool_decide (action_id ∈ ["unblock_url"])
    then _check_for_overlength endpoints else ret APP_SUCCESS in
  if is_fail ret_val then ret ret_val
  else
    match category with
    | None => _amend_blocklist fuel endpoints "REMOVE_FROM_LIST"
    | Some category => _amend_category fuel endpoints category "REMOVE_FROM_LIST"
    end.

Definition _allowlist_endpoint (fuel : nat) (endpoints : string) (category : option string)
  : M pyval :=
  let endpoints := split_endpoints endpoints in
  let endpoints := _truncate_protocol endpoints in
  let* action_id := get_action_identifier in
  let* ret_val :=
    if bool_decide (action_id ∈ ["allow_url"])
    then _check_for_overlength endpoints else ret APP_SUCCESS in
  if is_fail ret_val then ret ret_val
  else
    match category with
    | None => _amend_allowlist fuel endpoints "ADD_TO_LIST"
    | Some category => _amend_category fuel endpoints category "ADD_TO_LIST"
    end.

Definition _unallow_endpoint (fuel : nat) (endpoints : string) (category : option string)
  : M pyval :=
  let endpoints := split_endpoints endpoints in
  let endpoints := _truncate_protocol endpoints in
  let* action_id := get_action_identifier in
  let* ret_val :=
    if bool_decide (action_id ∈ ["unallow_url"])
    then _check_for_overlength endpoints else ret APP_SUCCESS in
  if is_fail ret_val then ret ret_val
  else
    match category with
    | None => _amend_allowlist fuel endpoints "REMOVE_FROM_LIST"
    | Some category => _amend_category fuel endpoints category "REMOVE_FROM_LIST"
    end.

(** [param[k]] *)
Definition param_item (param : gmap string string) (k : string) : M string :=
  match param !! k with
  | Some v => ret v
  | None => raise KeyError
  end.

Definition _handle_block_ip (fuel : nat) (param : gmap string string) : M pyval :=
  let* _ := add_action_result in
  let* ip := param_item param "ip" in
  _block_endpoint fuel ip (param !! "url_category").

Definition _handle_block_url (fuel : nat) (param : gmap string string) : M pyval :=
  let* _ := add_action_result in
  let* url := param_item param "url" in
  _block_endpoint fuel url (param !! "url_category").

Definition _handle_unblock_ip (fuel : nat) (param : gmap string string) : M pyval :=
  let* _ := add_action_result in
  let* ip := param_item param "ip" in
  _unblock_endpoint fuel ip (param !! "url_category").

Definition _handle_unblock_url (fuel : nat) (param : gmap string string) : M pyval :=
  let* _ := add_action_result in
  let* url := param_item param "url" in
  _unblock_endpoint fuel url (param !! "url_category").

Definition _handle_allow_ip (fuel : nat) (param : gmap string string) : M pyval :=
  let* _ := add_action_result in
  let* ip := param_item param "ip" in
  _allowlist_endpoint fuel ip (param !! "url_category").

Definition _handle_allow_url (fuel : nat) (param : gmap string string) : M pyval :=
  let* _ := add_action_result in
  let* url := param_item param "url" in
  _allowlist_endpoint fuel url (param !! "url_category").

Definition _handle_unallow_ip (fuel : nat) (param : gmap string string) : M pyval :=
  let* _ := add_action_result in
  let* ip := param_item param "ip" in
  _unallow_endpoint fuel ip (param !! "url_category").

Definition _handle_unallow_url (fuel : nat) (param : gmap string string) : M pyval :=
  let* _ := add_action_result in
  let* url := param_item param "url" in
  _unallow_endpoint fuel url (param !! "url_category").

(** *** Lookup *)

(** [[response[i].update({"blocklisted": b}) for i, item in enumerate(response)
     if item['url'] == e]] *)
Fixpoint mark_items (items : list pyval) (e : string) (b : bool)
  : result (list pyval) :=
  match items with
  | [] => Ok []
  | item :: rest =>
      let? u := py_subscript item "url" in
      let item' :=
        if py_eq_str u e then
          match item with
          | VDict d => VDict (dict_set d "blocklisted" (VBool b))
          | _ => item
          end
        else item in
      let? rest' := mark_items rest e b in
      Ok (item' :: rest')
  end.

Definition mark_blocklisted (response : pyval) (e : string) (b : bool) : result pyval :=
  match response with
  | VList items => let? items' := mark_items items e b in Ok (VList items')
  | VDict [] => Ok response
  | VStr EmptyString => Ok response
  | _ => Raise TypeError
  end.

Fixpoint mark_endpoints (endpoints : list string) (blocklist_response response : pyval)
  : result pyval :=
  match endpoints with
  | [] => Ok response
  | e :: rest =>
      let? blocklist := py_get blocklist_response "blacklistUrls" (VList []) in
      let? listed := py_contains e blocklist in
      let? response := mark_blocklisted response e listed in
      mark_endpoints rest blocklist_response response
  end.

Definition _lookup_endpoint (fuel : nat) (endpoints : list string) : M pyval :=
  let* _ :=
    match endpoints with
    | [] => let* _ := set_status false (VStr "Please provide valid list of URL(s)") in
            ret tt
    | _ => ret tt
    end in
  let* (ret_val, response) :=
    _make_rest_call_helper fuel "/api/v1/urlLookup" [] [] (str_list endpoints) "post" in
  if is_fail ret_val then ret ret_val
  else
    let* (ret_val, blocklist_response) :=
      _make_rest_call_helper fuel "/api/v1/security/advanced" [] []
        (str_list endpoints) "get" in
    if is_fail ret_val then ret ret_val
    else
      let* response := lift (mark_endpoints endpoints blocklist_response response) in
      let* items := lift (py_iter response) in
      let* _ := update_data items in
      set_status true (VStr "Successfully completed lookup").

Definition _handle_lookup_ip (fuel : nat) (param : gmap string string) : M pyval :=
  let* _ := add_action_result in
  let* ip := param_item param "ip" in
  let endpoints := split_endpoints ip in
  _lookup_endpoint fuel endpoints.

Definition _handle_lookup_url (fuel : nat) (param : gmap string string) : M pyval :=
  let* _ := add_action_result in
  let* url := param_item param "url" in
  let endpoints := split_endpoints url in
  let endpoints := _truncate_protocol endpoints in
  let* ret_val := _check_for_overlength endpoints in
  if is_fail ret_val then ret ret_val
  else _lookup_endpoint fuel endpoints.

(** *** Reports, categories and dispatch *)

Definition _handle_test_connectivity : M pyval := ret APP_SUCCESS.

Definition _handle_get_report (fuel : nat) (param : gmap string string) : M pyval :=
  let* _ := add_action_result in
  let* file_hash := param_item param "file_hash" in
  let* (ret_val, sandbox_report) :=
    _make_rest_call_helper fuel
      ("/api/v1/sandbox/report/" +:+ file_hash +:+ "?details=full") [] [] VNone "get" in
  if is_fail ret_val then get_status
  else
    let* c := gets consts in
    let* details := lift (py_get sandbox_report (ZSCALER_JSON_FULL_DETAILS c) VNone) in
    let* unknown :=
      if truthy details
      then lift (py_contains (ZSCLAER_ERR_MD5_UNKNOWN_MSG c) details)
      else ret false in
    if unknown then set_status false details
    else
      let* _ := add_data sandbox_report in
      set_status true (VStr (ZSCALER_SANDBOX_GET_REPORT_MSG c)).

Definition _handle_list_url_categories (fuel : nat) : M pyval :=
  let* _ := add_action_result in
  let* (ret_val, list_url_categories) :=
    _make_rest_call_helper fuel "/api/v1/urlCategories" [] [] VNone "get" in
  if is_fail ret_val then get_status
  else
    let* cats := lift (py_iter list_url_categories) in
    let* _ := update_data cats in
    let* size := gets (fun st => length (data (action_result st))) in
    let* _ := summary_set "total_url_categories" (VInt (Z.of_nat size)) in
    set_status true VNone.

Definition handle_action (fuel : nat) (param : gmap string string) : M pyval :=
  let* action_id := get_action_identifier in
  if String.eqb action_id "test_connectivity" then _handle_test_connectivity
  else if String.eqb action_id "list_url_categories" then _handle_list_url_categories fuel
  else if String.eqb action_id "get_report" then _handle_get_report fuel param
  else if String.eqb action_id "block_ip" then _handle_block_ip fuel param
  else if String.eqb action_id "block_url" then _handle_block_url fuel param
  else if String.eqb action_id "unblock_ip" then _handle_unblock_ip fuel param
  else if String.eqb action_id "unblock_url" then _handle_unblock_url fuel param
  else if String.eqb action_id "allow_ip" then _handle_allow_ip fuel param
  else if String.eqb action_id "allow_url" then _handle_allow_url fuel param
  else if String.eqb action_id "unallow_ip" then _handle_unallow_ip fuel param
  else if String.eqb action_id "unallow_url" then _handle_unallow_url fuel param
  else if String.eqb action_id "lookup_ip" then _handle_lookup_ip fuel param
  else if String.eqb action_id "lookup_url" then _handle_lookup_url fuel param
  else ret APP_SUCCESS.

(** ** Session manager: login and logout

    [initialize] and [_init_session] also use the asset configuration and
    the status of the connector itself, which [self.set_status] records;
    they are kept beside the state.  [action_result.get_message()] is the
    message the last [set_status] on that action result was given. *)

(** [s.rstrip(c)] for a one-character set. *)
Fixpoint rstrip_char (c : ascii) (s : string) : string :=
  match s with
  | EmptyString => EmptyString
  | String a s' =>
      match rstrip_char c s' with
      | EmptyString => if Ascii.eqb a c then EmptyString else String a EmptyString
      | t => String a t
      end
  end.

Definition set_base_url (u : string) (st : state) : state :=
  {| consts := consts st; _base_url := u; _headers := _headers st;
     _response := _response st; _allowlist := _allowlist st;
     _category := _category st; action_identifier := action_identifier st;
     action_result := action_result st;
     gateway := gateway st; trace := trace st |}.

Definition set_headers (h : list (string * string)) (st : state) : state :=
  {| consts := consts st; _base_url := _base_url st; _headers := h;
     _response := _response st; _allowlist := _allowlist st;
     _category := _category st; action_identifier := action_identifier st;
     action_result := action_result st;
     gateway := gateway st; trace := trace st |}.

(** [r.headers[name]]: header names are matched without regard to case. *)
Fixpoint header_subscript (h : list (string * string)) (name : string) : result string :=
  match h with
  | [] => Raise KeyError
  | (k, v) :: h' =>
      if String.eqb (Py.lower k) (Py.lower name) then Ok v else header_subscript h' name
  end.

(** A method that works on an [ActionResult()] of its own: the action
    result of the running action is set aside and put back, and the local
    one is handed to the caller. *)
Definition with_local_action_result {A : Type} (m : M A) : M (A * ActionResult) :=
  fun st =>
    let run := m (with_action_result (fun _ => new_action_result) st) in
    let st' := with_action_result (fun _ => action_result st) run.2 in
    match run.1 with
    | Return a => (Return (a, action_result run.2), st')
    | Throw e => (Throw e, st')
    | NoFuel => (NoFuel, st')
    end.

Record connector : Type := {
  self_state : state;
  config : gmap string string;
  (** the arguments of the last [self.set_status] *)
  connector_status : bool;
  connector_message : string
}.

Definition C (A : Type) : Type := connector -> outcome A * connector.

Definition cret {A : Type} (a : A) : C A := fun c => (Return a, c).

Definition cbind {A B : Type} (m : C A) (k : A -> C B) : C B :=
  fun c =>
    match m c with
    | (Return a, c') => k a c'
    | (Throw e, c') => (Throw e, c')
    | (NoFuel, c') => (NoFuel, c')
    end.

Notation "'let+' x ':=' c1 'in' c2" := (cbind c1 (fun x => c2))
  (at level 10, x pattern, c1 at level 100, c2 at level 200).

(** A method of the connector that needs its state only. *)
Definition on_state {A : Type} (m : M A) : C A :=
  fun c =>
    let run := m (self_state c) in
    (run.1, {| self_state := run.2; config := config c;
               connector_status := connector_status c;
               connector_message := connector_message c |}).

(** [config[k]] *)
Definition config_item (k : string) : C string :=
  fun c =>
    match config c !! k with
    | Some v => (Return v, c)
    | None => (Throw KeyError, c)
    end.

(** [self.set_status(status, message)] returns the status. *)
Definition connector_set_status (b : bool) (msg : string) : C pyval :=
  fun c =>
    (Return (VBool b),
     {| self_state := self_state c; config := config c;
        connector_status := b; connector_message := msg |}).

Definition login_body (username password timestamp obf_api_key : string) : pyval :=
  VDict [("apiKey", VStr obf_api_key); ("username", VStr username);
         ("password", VStr password); ("timestamp", VStr timestamp)].

(** [set_cookie.split(';')[0].strip()] *)
Definition first_cookie (set_cookie : string) : string :=
  Py.strip (default EmptyString (head (Py.split_on ";" set_cookie))).

(** The clock enters as in [_obfuscate_api_key]. *)
Definition _init_session (fuel : nat) (clock_ms : Z) : C pyval :=
  let+ username := config_item "username" in
  let+ password := config_item "password" in
  let+ api_key := config_item "api_key" in
  match _obfuscate_api_key clock_ms api_key with
  | Raise _ => connector_set_status false "Error obfuscating API key"
  | Ok (timestamp, obf_api_key) =>
      let body := login_body username password timestamp obf_api_key in
      let+ ((ret_val, response), local_result) :=
        on_state (with_local_action_result
                    (_make_rest_call_helper fuel "/api/v1/authenticatedSession"
                       [] [] body "post")) in
      if is_fail ret_val then
        connector_set_status false
          ("Error starting Zscaler session: " +:+ py_format (message local_result))
      else
        let+ last := on_state (gets _response) in
        match last with
        | None => on_state (raise AttributeError)
        | Some r =>
            let+ set_cookie :=
              on_state (lift (header_subscript (headers r) "Set-Cookie")) in
            let+ _ := on_state (modify (set_headers
                                          [("cookie", first_cookie set_cookie)])) in
            cret APP_SUCCESS
        end
  end.

Definition _deinit_session (fuel : nat) : M pyval :=
  let* _ := with_local_action_result
              (_make_rest_call_helper fuel "/api/v1/authenticatedSession"
                 [] [] VNone "delete") in
  ret APP_SUCCESS.

(** [self._username] and [self._password] are fields nothing reads, but
    their keys must be in the configuration.  Reading the Python version,
    [load_state] and [set_validator] leave the state modelled here alone. *)
Definition initialize (fuel : nat) (clock_ms : Z) : C pyval :=
  let+ base_url := config_item "base_url" in
  let+ _ := on_state (modify (set_base_url (rstrip_char "/" base_url))) in
  let+ _username := config_item "username" in
  let+ _password := config_item "password" in
  let+ _ := on_state (modify (set_headers [])) in
  _init_session fuel clock_ms.

(** [save_state] leaves the state modelled here alone. *)
Definition finalize (fuel : nat) : M pyval := _deinit_session fuel.

(** ** Sample gateways and states

    Concrete environments on which the statements below are exercised. *)

Definition sample_consts : zscaler_consts :=
  {| ZSCALER_ERROR_MESSAGE := "Unknown error occurred. Please check the asset configuration and|or action parameters.";
     ZSCALER_ERROR_CODE_MESSAGE := "Error code unavailable";
     ZSCALER_JSON_FULL_DETAILS := "Full Details";
     ZSCLAER_ERR_MD5_UNKNOWN_MSG := "md5 is unknown or analysis has yet not been completed";
     ZSCALER_SANDBOX_GET_REPORT_MSG := "Sandbox report successfully fetched for the provided md5 hash" |}.

Definition start (action_id : string) (gw : list event -> request -> http_outcome)
  : state :=
  {| consts := sample_consts;
     _base_url := "https://admin.zscaler.example";
     _headers := [("cookie", "JSESSIONID=0")];
     _response := None; _allowlist := VNone; _category := VNone;
     action_identifier := action_id;
     action_result := new_action_result;
     gateway := gw; trace := [] |}.

Definition json_response (code : Z) (v : pyval) : response :=
  {| status_code := code; headers := [("Content-Type", "application/json")];
     text := "{...}"; json := inr v; soup_text := Some "{...}" |}.

(** 204 No Content under a JSON content type: [r.json()] raises. *)
Definition no_content : response :=
  {| status_code := 204; headers := [("Content-Type", "application/json")];
     text := ""; json := inl ["Expecting value: line 1 column 1 (char 0)"];
     soup_text := Some "" |}.

Definition html_response (code : Z) (page : string) : response :=
  {| status_code := code; headers := [("Content-Type", "text/html")];
     text := page; json := inl ["Expecting value: line 1 column 1 (char 0)"];
     soup_text := Some page |}.

(** The block list a gateway that applies every write holds after [events]. *)
Fixpoint blocklist_after (initial : list string) (events : list event) : list string :=
  match events with
  | [] => initial
  | ev :: older =>
      let current := blocklist_after initial older in
      match ev with
      | Call rq =>
          if String.eqb (method rq) "post" then
            let sent :=
              match body rq with
              | VDict d => match dict_get d "blacklistUrls" with
                           | Some (VList l) => strings_of l
                           | _ => []
                           end
              | _ => []
              end in
            if bool_decide (dict_get (params rq) "action" = Some "REMOVE_FROM_LIST")
            then filter (fun e => e ∉ sent) current
            else current ++ sent
          else current
      | Sleep _ => current
      end
  end.

(** A gateway that serves the block list and applies every write to it,
    answering a write with 204 No Content. *)
Definition blocklist_gateway (initial : list string) (events : list event) (rq : request)
  : http_outcome :=
  if String.eqb (method rq) "get"
  then Responded (json_response 200
         (VDict [("blacklistUrls", str_list (blocklist_after initial events))]))
  else Responded no_content.

(** A gateway that answers every request with the same outcome. *)
Definition constant_gateway (o : http_outcome) (events : list event) (rq : request)
  : http_outcome := o.

(** A gateway that answers reads with [first] and writes with [second]. *)
Definition read_write_gateway (read write : http_outcome) (events : list event)
    (rq : request) : http_outcome :=
  if String.eqb (method rq) "get" then read else write.

(** A 429 answer announcing when to come back. *)
Definition rate_limited (retry_after : string) : response :=
  json_response 429
    (VDict [("message", VStr "Rate Limit (1/SECOND) exceeded");
            ("Retry-After", VStr retry_after)]).

(** A gateway with three URL categories. *)
Definition sample_categories : list pyval :=
  [VDict [("id", VStr "OTHER_ADULT_MATERIAL"); ("dbCategorizedUrls", str_list [])];
   VDict [("id", VStr "CUSTOM_01"); ("configuredName", VStr "Phishing");
          ("dbCategorizedUrls", str_list ["bad.example"])];
   VDict [("id", VStr "CUSTOM_02"); ("configuredName", VStr "CUSTOM_01");
          ("dbCategorizedUrls", str_list [])]].

Definition category_gateway : list event -> request -> http_outcome :=
  read_write_gateway (Responded (json_response 200 (VList sample_categories)))
                     (Responded (json_response 200 (VDict []))).

(** A gateway that serves an empty allow list and answers the write with
    204 No Content. *)
Definition allowlist_gateway : list event -> request -> http_outcome :=
  read_write_gateway
    (Responded (json_response 200 (VDict [("whitelistUrls", str_list [])])))
    (Responded no_content).

(** The category gateway, answering the write with 204 No Content. *)
Definition category_gateway_204 : list event -> request -> http_outcome :=
  read_write_gateway (Responded (json_response 200 (VList sample_categories)))
                     (Responded no_content).

(** A gateway that serves an allow list of one entry and accepts the write. *)
Definition allowlist_gateway_ok : list event -> request -> http_outcome :=
  read_write_gateway
    (Responded (json_response 200 (VDict [("whitelistUrls", str_list ["a.com"])])))
    (Responded (json_response 200 (VDict []))).

(** Events that are requests. *)
Definition is_call (ev : event) : bool :=
  match ev with
  | Call _ => true
  | Sleep _ => false
  end.

Definition count_calls (events : list event) : nat :=
  length (List.filter is_call events).

(** A gateway that answers [busy] until it has received [k] requests, and
    [ready] from then on. *)
Definition busy_gateway (k : nat) (busy ready : response) (events : list event)
    (rq : request) : http_outcome :=
  if (count_calls events <? k)%nat then Responded busy else Responded ready.

(** 409: the lock is held by another session. *)
Definition lock_not_available : response :=
  json_response 409 (VDict [("message", VStr "Failed during enter Org barrier")]).

(** The answer to a login. *)
Definition logged_in (set_cookie : string) : response :=
  {| status_code := 200;
     headers := [("Content-Type", "application/json"); ("Set-Cookie", set_cookie)];
     text := "{...}";
     json := inr (VDict [("authType", VStr "ADMIN_LOGIN")]);
     soup_text := Some "{...}" |}.

Definition sample_config : gmap string string :=
  {[ "base_url" := "https://admin.zscaler.example//";
     "username" := "admin@example.com";
     "password" := "secret";
     "api_key" := "abcdefghijklmnop" ]}.

Definition sample_connector (action_id : string)
    (gw : list event -> request -> http_outcome) : connector :=
  {| self_state := start action_id gw;
     config := sample_config;
     connector_status := true;
     connector_message := EmptyString |}.

(** ** Reference notions used in the statements *)

(** The [k] low decimal digits of [n], most significant first. *)
Fixpoint pad_digits (k : nat) (n : N) : string :=
  match k with
  | O => EmptyString
  | S k' => pad_digits k' (n / 10)%N +:+ String (Py.digit_char (n mod 10)%N) EmptyString
  end.

(** Text made of decimal digits only. *)
Fixpoint is_numeral (s : string) : Prop :=
  match s with
  | EmptyString => True
  | String c s' => (exists d, (d < 10)%N /\ c = Py.digit_char d) /\ is_numeral s'
  end.

(** The server text of an HTML page as the classifier reports it: tags
    stripped, every line trimmed, blank lines dropped. *)
Definition collapse_lines (page_text : string) : string :=
  Py.join newline
    (Py.strip <$> filter (fun x => Py.strip x <> EmptyString) (Py.split_on "010" page_text)).

Definition server_text (r : response) : string :=
  match soup_text r with
  | Some t => collapse_lines t
  | None => "Cannot parse error details"
  end.

(** The detail that follows the hint: present only for a server text of at
    most 500 characters. *)
Definition html_detail (r : response) : string :=
  if (String.length (server_text r) <=? 500)%nat
  then "Status Code: " +:+ Py.str (status_code r) +:+ ". Data from server:"
       +:+ newline +:+ server_text r +:+ newline
  else EmptyString.

(** What an operation leaves alone: everything but the action result. *)
Definition same_connector (st st' : state) : Prop :=
  consts st' = consts st /\ _base_url st' = _base_url st /\ _headers st' = _headers st
  /\ _response st' = _response st /\ _allowlist st' = _allowlist st
  /\ _category st' = _category st /\ action_identifier st' = action_identifier st
  /\ gateway st' = gateway st /\ trace st' = trace st.

(** The request [_make_rest_call] sends from state [st]. *)
Definition request_of (st : state) (endpoint : string) (headers : list (string * string))
    (params : list (string * string)) (data : pyval) (method : string) : request :=
  {| method := method; url := _base_url st +:+ endpoint;
     req_headers := dict_update headers (_headers st);
     params := params; body := data |}.

(** The state once [rq] was answered by [r] and classified, the action
    result having become [ar]. *)
Definition answered (rq : request) (r : response) (ar : ActionResult) (st : state)
  : state :=
  with_action_result (fun _ => ar) (set_response r (log_event (Call rq) st)).

(** Text that [int()] reads as a base-10 integer. *)
Definition decimal_integer (t : string) : Prop := exists z, Py.int t = Ok z.

(** [emits P m]: whatever the state, [m] only adds events to the trace, and
    every event it adds satisfies [P]. *)
Definition emits {A : Type} (P : event -> Prop) (m : M A) : Prop :=
  forall st, exists evs, trace (m st).2 = evs ++ trace st /\ Forall P evs.

(** *** Category lookup, as the design states it *)

Definition has_configured_name (category : string) (cat : pyval) : bool :=
  match cat with
  | VDict d => match dict_get d "configuredName" with
               | Some v => py_eq_str v category
               | None => false
               end
  | _ => false
  end.

Definition has_id (category : string) (cat : pyval) : bool :=
  match cat with
  | VDict d => match dict_get d "id" with
               | Some v => py_eq_str v category
               | None => false
               end
  | _ => false
  end.

(** A category record is an object that carries an [id]. *)
Definition category_record (cat : pyval) : bool :=
  match cat with
  | VDict d => match dict_get d "id" with Some _ => true | None => false end
  | _ => false
  end.

(** The first category with the configured name, else the first with the id. *)
Definition lookup_category (category : string) (cats : list pyval) : option pyval :=
  match List.find (has_configured_name category) cats with
  | Some cat => Some cat
  | None => List.find (has_id category) cats
  end.

(** *** Endpoint normalisation, as the design states it *)

(** One leading "http://" or "https://" is dropped, matched exactly. *)
Definition strip_scheme (e : string) : string :=
  if Py.startswith e "http://" then Py.drop 7 e
  else if Py.startswith e "https://" then Py.drop 8 e
  else e.

(** Split on commas, trim, drop the empty entries, strip the scheme. *)
Definition normalize (raw : string) : list string :=
  strip_scheme
  <$> filter (fun x => x <> EmptyString) (Py.strip <$> Py.split_on "," raw).

Definition overlength (endpoints : list string) : bool :=
  existsb (fun e => (1024 <? String.length e)%nat) endpoints.

Definition endpoint_actions : list string :=
  ["block_ip"; "block_url"; "unblock_ip"; "unblock_url"; "allow_ip"; "allow_url";
   "unallow_ip"; "unallow_url"; "lookup_ip"; "lookup_url"].

Definition url_variant (action_id : string) : bool :=
  bool_decide (action_id ∈ ["block_url"; "unblock_url"; "allow_url"; "unallow_url";
                            "lookup_url"]).

(** The parameter that carries the raw endpoint text. *)
Definition endpoint_key (action_id : string) : string :=
  if url_variant action_id then "url" else "ip".

(** What an endpoint action runs once its endpoint list is settled. *)
Definition runs_on (fuel : nat) (action_id : string) (category : option string)
    (endpoints : list string) : M pyval :=
  if bool_decide (action_id ∈ ["block_ip"; "block_url"]) then
    match category with
    | None => _amend_blocklist fuel endpoints "ADD_TO_LIST"
    | Some category => _amend_category fuel endpoints category "ADD_TO_LIST"
    end
  else if bool_decide (action_id ∈ ["unblock_ip"; "unblock_url"]) then
    match category with
    | None => _amend_blocklist fuel endpoints "REMOVE_FROM_LIST"
    | Some category => _amend_category fuel endpoints category "REMOVE_FROM_LIST"
    end
  else if bool_decide (action_id ∈ ["allow_ip"; "allow_url"]) then
    match category with
    | None => _amend_allowlist fuel endpoints "ADD_TO_LIST"
    | Some category => _amend_category fuel endpoints category "ADD_TO_LIST"
    end
  else if bool_decide (action_id ∈ ["unallow_ip"; "unallow_url"]) then
    match category with
    | None => _amend_allowlist fuel endpoints "REMOVE_FROM_LIST"
    | Some category => _amend_category fuel endpoints category "REMOVE_FROM_LIST"
    end
  else _lookup_endpoint fuel endpoints.

(** The state in which an action fails on an overlong endpoint. *)
Definition rejected_overlength (st : state) : state :=
  with_action_result (fun _ =>
    {| status := false; message := VStr overlength_message;
       summary := ∅; data := []; debug_data := [] |}) st.

(** *** List mutation, as the design states it *)

(** The summary reports [updated] and [ignored] lists that together make up
    the requested endpoints. *)
Definition good_summary (requested : list string) (st : state) : Prop :=
  exists updated ignored : list string,
    summary (action_result st) !! "updated" = Some (str_list updated)
    /\ summary (action_result st) !! "ignored" = Some (str_list ignored)
    /\ list_to_set updated ∪ list_to_set ignored
       = (list_to_set requested : gset string).

(** The endpoints to write, as a set; nothing when the filter short-circuits. *)
Definition to_write (filtered : option (list string)) : gset string :=
  match filtered with
  | Some l => list_to_set l
  | None => ∅
  end.

Definition filter_message (name action : string) : string :=
  if String.eqb action "REMOVE_FROM_LIST"
  then name +:+ " contains none of these endpoints"
  else name +:+ " contains all of these endpoints".

(** The delta of a mutation: what is requested and present for a removal,
    what is requested and absent otherwise. *)
Definition delta (action : string) (requested existing : gset string) : gset string :=
  if String.eqb action "REMOVE_FROM_LIST" then requested ∩ existing
  else requested ∖ existing.

(** The state of a mutation that short-circuits: success, nothing updated,
    every requested endpoint ignored. *)
Definition short_circuited (name action : string) (requested : list string)
    (st : state) : state :=
  with_action_result (fun ar =>
    {| status := true; message := VStr (filter_message name action);
       summary := <["ignored" := str_list requested]>
                    (<["updated" := str_list []]> ∅);
       data := data ar; debug_data := debug_data ar |}) st.

(** The state of a mutation whose write went through. *)
Definition reported (requested filtered : list string) (st : state) : state :=
  with_action_result (fun ar =>
    {| status := true; message := VNone;
       summary :=
         <["ignored" := str_list (elements (list_to_set requested
                                   ∖ list_to_set (C := gset string) filtered))]>
           (<["updated" := str_list filtered]> ∅);
       data := data ar; debug_data := debug_data ar |}) st.

(** The three checks share their outcome: a failure without endpoints, a
    short-circuit with its summary, or endpoints taken from the request. *)
Definition check_outcome (requested : list string) (rv : pyval)
    (w : option (list string)) (st1 : state) : Prop :=
  is_fail rv = true /\ w = None
  \/ is_fail rv = false /\ w = None /\ good_summary requested st1
  \/ is_fail rv = false
     /\ exists f, w = Some f /\ list_to_set f ⊆ (list_to_set requested : gset string).

(** The computed delta is empty: everything requested is already there for
    an addition, nothing requested is there for a removal. *)
Definition nothing_to_write (action : string) (requested : list string)
    (existing : gset string) : Prop :=
  action = "ADD_TO_LIST" /\ list_to_set requested ⊆ existing
  \/ action = "REMOVE_FROM_LIST" /\ list_to_set requested ∩ existing = ∅.

Definition read_or_sleep (ev : event) : Prop :=
  match ev with
  | Call rq => method rq = "get"
  | Sleep _ => True
  end.

(** A mutation started in [st] short-circuits: it returns success, reports
    nothing updated and every requested endpoint ignored, and all it did on
    the network was to read. *)
Definition short_circuits (requested : list string) (st : state)
    (run : outcome pyval * state) : Prop :=
  run.1 = Return APP_SUCCESS
  /\ status (action_result run.2) = true
  /\ summary (action_result run.2) !! "updated" = Some (str_list [])
  /\ summary (action_result run.2) !! "ignored" = Some (str_list requested)
  /\ exists evs, trace run.2 = evs ++ trace st /\ Forall read_or_sleep evs.

(** *** The executor's retries *)

(** The events of [k] attempts answered 409 followed by one more attempt,
    most recent first. *)
Fixpoint attempts (k : nat) (rq : request) : list event :=
  match k with
  | O => [Call rq]
  | S k' => Call rq :: Sleep 1 :: attempts k' rq
  end.

(** Text without a blank character. *)
Fixpoint no_blank (s : string) : bool :=
  match s with
  | EmptyString => true
  | String c s' => negb (Py.isspace c) && no_blank s'
  end.

(** The Retry-After text for a wait of [n] seconds or minutes. *)
Definition retry_after_text (n : Z) (minutes : bool) : string :=
  Py.str n +:+ (if minutes then " minutes" else " seconds").

(** *** The session *)

(** What identifies the session: the state but for the action result, the
    last response, the fetched lists and the trace. *)
Definition session_kept (st st' : state) : Prop :=
  consts st' = consts st /\ _base_url st' = _base_url st
  /\ _headers st' = _headers st /\ action_identifier st' = action_identifier st
  /\ gateway st' = gateway st.

(** A request under the base URL that carries the session headers. *)
Definition carries (base : string) (h : list (string * string)) (ev : event) : Prop :=
  match ev with
  | Call rq => Py.startswith (url rq) base = true /\ req_headers rq = dict_update [] h
  | Sleep _ => True
  end.

(** Run from a state with base URL [base] and session headers [h], [m]
    keeps the session, only adds events to the trace, and every event it
    adds satisfies [P]. *)
Definition within (base : string) (h : list (string * string)) (P : event -> Prop)
    {A : Type} (m : M A) : Prop :=
  forall st,
    _base_url st = base -> _headers st = h ->
    session_kept st (m st).2
    /\ exists evs, trace (m st).2 = evs ++ trace st /\ Forall P evs.

(** Nothing but repetitions of the request [rq], and pauses. *)
Definition repeats (rq : request) (ev : event) : Prop :=
  match ev with
  | Call rq' => rq' = rq
  | Sleep _ => True
  end.

Fixpoint slashes (k : nat) : string :=
  match k with
  | O => EmptyString
  | S k' => String "/" (slashes k')
  end.

(** [s.endswith(c)] for a character [c] *)
Fixpoint ends_with (c : ascii) (s : string) : bool :=
  match s with
  | EmptyString => false
  | String a EmptyString => Ascii.eqb a c
  | String _ s' => ends_with c s'
  end.

(** *** The lookup *)

(** An item of the lookup answer that can be matched: an object with a
    [url]. *)
Definition has_url (item : pyval) : Prop :=
  match item with
  | VDict d => is_Some (dict_get d "url")
  | _ => False
  end.

(** One pass of the marking loop: the items whose [url] is [e] get
    [blocklisted] set to [b]. *)
Definition mark_one (e : string) (b : bool) (item : pyval) : pyval :=
  match item with
  | VDict d =>
      match dict_get d "url" with
      | Some u => if py_eq_str u e then VDict (dict_set d "blocklisted" (VBool b))
                  else item
      | None => item
      end
  | _ => item
  end.

(** An item as the lookup reports it: when its [url] is one of the
    endpoints looked up, it says whether that URL is in the block list. *)
Definition mark_item (endpoints blocklist : list string) (item : pyval) : pyval :=
  match item with
  | VDict d =>
      match dict_get d "url" with
      | Some (VStr u) =>
          if bool_decide (u ∈ endpoints)
          then VDict (dict_set d "blocklisted" (VBool (bool_decide (u ∈ blocklist))))
          else item
      | _ => item
      end
  | _ => item
  end.

(** *** Endpoints *)

(** [c in s] for a character [c] *)
Fixpoint occurs (c : ascii) (s : string) : bool :=
  match s with
  | EmptyString => false
  | String a s' => Ascii.eqb a c || occurs c s'
  end.

(** *** Where the mutations go *)

(** A request to the base URL followed by a path that satisfies [Q]. *)
Definition sent_to (base : string) (Q : string -> Prop) (ev : event) : Prop :=
  match ev with
  | Call rq => exists path, url rq = base +:+ path /\ Q path
  | Sleep _ => True
  end.

Definition blocklist_path (path : string) : Prop :=
  path = "/api/v1/security/advanced"
  \/ path = "/api/v1/security/advanced/blacklistUrls".

Definition allowlist_path (path : string) : Prop := path = "/api/v1/security".

Definition category_path (path : string) : Prop :=
  path = "/api/v1/urlCategories" \/ exists id, path = "/api/v1/urlCategories/" +:+ id.

(** The paths of a mutation: those of the category when one is named,
    those of the list otherwise. *)
Definition paths_for (category : option string) (list_path : string -> Prop)
  : string -> Prop :=
  match category with
  | Some _ => category_path
  | None => list_path
  end.

Definition mutation_actions : list string :=
  ["block_ip"; "block_url"; "unblock_ip"; "unblock_url";
   "allow_ip"; "allow_url"; "unallow_ip"; "unallow_url"].

(** *** The category id *)

(** A value of which [py_format] gives the text that [str.format] gives:
    nothing, a boolean, a text or an integer of 64 bits, but not a list
    and not an object. *)
Definition plain (v : pyval) : Prop :=
  match v with
  | VNone | VBool _ | VStr _ => True
  | VInt z => (- 2 ^ 63 <= z < 2 ^ 63)%Z
  | VList _ | VDict _ => False
  end.

(** *** Dispatch *)

Definition known_actions : list string :=
  ["test_connectivity"; "list_url_categories"; "get_report";
   "block_ip"; "block_url"; "unblock_ip"; "unblock_url";
   "allow_ip"; "allow_url"; "unallow_ip"; "unallow_url";
   "lookup_ip"; "lookup_url"].

(** The parameter an action cannot do without. *)
Definition required_parameter (action_id : string) : string :=
  if String.eqb action_id "get_report" then "file_hash" else endpoint_key action_id.

(** A JSON answer with a status code from 200 to 398 and the body [v]. *)
Definition json_success (r : response) (v : pyval) : Prop :=
  Py.contains "json" (content_type r) = true /\ json r = inr v
  /\ (200 <= status_code r < 399)%Z.

(** * Properties *)

(** ** Decimal numerals *)

Section Numerals.
Local Open Scope N_scope.

Lemma append_cons x (a b : string) : String x a +:+ b = String x (a +:+ b).
Proof. reflexivity. Qed.

Lemma append_nil_l (a : string) : EmptyString +:+ a = a.
Proof. reflexivity. Qed.

Lemma append_assoc (a b c : string) : (a +:+ b) +:+ c = a +:+ (b +:+ c).
Proof. induction a as [|x a IH]; [done|]. by rewrite !append_cons, IH. Qed.

Lemma append_nil_r (a : string) : a +:+ EmptyString = a.
Proof. induction a as [|x a IH]; [done|]. by rewrite append_cons, IH. Qed.

Lemma length_append (a b : string) :
  String.length (a +:+ b) = (String.length a + String.length b)%nat.
Proof. induction a as [|x a IH]; [done|]. rewrite append_cons. simpl. by rewrite IH. Qed.

Lemma length_pad_digits k n : String.length (pad_digits k n) = k.
Proof.
  revert n. induction k as [|k IH]; intros n; simpl; [done|].
  rewrite length_append, IH. simpl. lia.
Qed.

Lemma digits_go_spec fuel n acc :
  n < 2 ^ N.of_nat fuel -> (0 < fuel)%nat ->
  exists k, (1 <= k)%nat /\ Py.digits_go fuel n acc = pad_digits k n +:+ acc
            /\ n < 10 ^ N.of_nat k /\ (k = 1%nat \/ 10 ^ N.of_nat (k - 1) <= n).
Proof.
  revert n acc. induction fuel as [|fuel IH]; intros n acc Hn Hf; [lia|].
  simpl Py.digits_go. destruct (N.ltb_spec n 10) as [Hlt|Hge].
  - exists 1%nat. simpl. split; [lia|]. split; [done|]. split; [lia|by left].
  - assert (Hq : n / 10 < 2 ^ N.of_nat fuel).
    { rewrite Nat2N.inj_succ, N.pow_succ_r' in Hn.
      apply N.Div0.div_lt_upper_bound. lia. }
    assert (Hfuel : (0 < fuel)%nat).
    { destruct fuel; [|lia]. simpl in Hq.
      assert (1 <= n / 10) by (apply N.div_le_lower_bound; lia). lia. }
    destruct (IH (n / 10) (String (Py.digit_char (n mod 10)) acc) Hq Hfuel)
      as (k & Hk & Heq & Hub & Hlb).
    exists (S k). split; [lia|]. split.
    { rewrite Heq. simpl. by rewrite append_assoc. }
    split.
    { rewrite Nat2N.inj_succ, N.pow_succ_r'.
      pose proof (N.div_mod n 10 ltac:(lia)).
      pose proof (N.mod_lt n 10 ltac:(lia)).
      clear -Hub H H0. generalize dependent (10 ^ N.of_nat k). intros; lia. }
    right. replace (S k - 1)%nat with (S (k - 1)) by lia.
    rewrite Nat2N.inj_succ, N.pow_succ_r'.
    pose proof (N.div_mod n 10 ltac:(lia)).
    destruct Hlb as [->|Hlb].
    + change (N.of_nat (1 - 1)) with 0. rewrite N.pow_0_r. lia.
    + clear -Hlb H. generalize dependent (10 ^ N.of_nat (k - 1)). intros; lia.
Qed.

Lemma str_N_spec n :
  exists k, (1 <= k)%nat /\ Py.str_N n = pad_digits k n
            /\ n < 10 ^ N.of_nat k /\ (k = 1%nat \/ 10 ^ N.of_nat (k - 1) <= n).
Proof.
  unfold Py.str_N.
  destruct (digits_go_spec (S (N.to_nat (N.log2 n))) n EmptyString)
    as (k & ? & Heq & ? & ?); [| lia |].
  - rewrite Nat2N.inj_succ, N2Nat.id.
    destruct (N.eq_dec n 0) as [->|Hn]; [done|].
    apply N.log2_spec. lia.
  - exists k. rewrite Heq, append_nil_r. done.
Qed.

Lemma pad_digits_split a b n :
  pad_digits (a + b) n = pad_digits b (n / 10 ^ N.of_nat a) +:+ pad_digits a n.
Proof.
  revert n. induction a as [|a IH]; intros n.
  - simpl. by rewrite N.div_1_r, append_nil_r.
  - change (S a + b)%nat with (S (a + b)). simpl pad_digits.
    rewrite IH, append_assoc. do 2 f_equal.
    rewrite Nat2N.inj_succ, N.pow_succ_r', N.Div0.div_div. done.
Qed.

Lemma pad_digits_cons k n :
  pad_digits (S k) n
  = String (Py.digit_char ((n / 10 ^ N.of_nat k) mod 10)) (pad_digits k n).
Proof. replace (S k) with (k + 1)%nat by lia. by rewrite pad_digits_split. Qed.

Lemma pad_digits_zero k : pad_digits k 0 = Py.zeros k.
Proof.
  induction k as [|k IH]; [done|].
  rewrite pad_digits_cons, IH. by rewrite N.Div0.div_0_l.
Qed.

Lemma drop_append (a b : string) : Py.drop (String.length a) (a +:+ b) = b.
Proof. induction a as [|x a IH]; [by destruct b|]. by rewrite append_cons. Qed.

(** The last six characters of a numeral with at least six digits. *)
Lemma last_6_str_N n :
  100000 <= n -> Py.last_n 6 (Py.str_N n) = pad_digits 6 n.
Proof.
  intros Hn. destruct (str_N_spec n) as (k & Hk & -> & Hub & _).
  assert (6 <= k)%nat as Hk6.
  { destruct (decide (6 <= k)%nat) as [|Hlt]; [done|].
    assert (10 ^ N.of_nat k <= 10 ^ 5); [|lia].
    apply N.pow_le_mono_r; lia. }
  unfold Py.last_n. rewrite length_pad_digits.
  replace k with (6 + (k - 6))%nat at 2 by lia.
  rewrite pad_digits_split.
  replace (k - 6)%nat
    with (String.length (pad_digits (k - 6) (n / 10 ^ N.of_nat 6))) at 1
    by apply length_pad_digits.
  apply drop_append.
Qed.

Lemma digit_val_digit_char d :
  d < 10 -> Py.digit_val (Py.digit_char d) = Some (Z.of_N d).
Proof.
  intros Hd.
  assert (d = 0 \/ d = 1 \/ d = 2 \/ d = 3 \/ d = 4 \/ d = 5 \/ d = 6
          \/ d = 7 \/ d = 8 \/ d = 9) as Hcases by lia.
  repeat destruct Hcases as [->|Hcases]; try subst d; reflexivity.
Qed.

(** A property of the ten digit characters holds of [digit_char d]. *)
Lemma digit_char_ind (P : ascii -> Prop) d :
  d < 10 ->
  P "0"%char -> P "1"%char -> P "2"%char -> P "3"%char -> P "4"%char ->
  P "5"%char -> P "6"%char -> P "7"%char -> P "8"%char -> P "9"%char ->
  P (Py.digit_char d).
Proof.
  intros Hd ??????????.
  assert (d = 0 \/ d = 1 \/ d = 2 \/ d = 3 \/ d = 4 \/ d = 5 \/ d = 6
          \/ d = 7 \/ d = 8 \/ d = 9) as Hcases by lia.
  repeat destruct Hcases as [->|Hcases]; try subst d; assumption.
Qed.

Lemma is_numeral_pad_digits k n : is_numeral (pad_digits k n).
Proof.
  induction k as [|k IH]; [done|]. rewrite pad_digits_cons. split; [|done].
  eexists. split; [|done]. apply N.mod_lt. lia.
Qed.

Lemma isspace_digit_char d : d < 10 -> Py.isspace (Py.digit_char d) = false.
Proof. intros Hd. by apply (digit_char_ind (fun c => Py.isspace c = false)). Qed.

Lemma not_sign_digit_char d :
  d < 10 ->
  Ascii.eqb (Py.digit_char d) "-" = false /\ Ascii.eqb (Py.digit_char d) "+" = false
  /\ Ascii.eqb (Py.digit_char d) "_" = false.
Proof.
  intros Hd.
  by apply (digit_char_ind (fun c => Ascii.eqb c "-" = false
    /\ Ascii.eqb c "+" = false /\ Ascii.eqb c "_" = false)).
Qed.

Lemma rstrip_numeral s : is_numeral s -> Py.rstrip s = s.
Proof.
  induction s as [|c s IH]; [done|]. intros [(d & Hd & ->) Hs].
  simpl. rewrite (IH Hs), (isspace_digit_char d Hd). by destruct s.
Qed.

Lemma strip_numeral s : is_numeral s -> Py.strip s = s.
Proof.
  intros Hs. unfold Py.strip.
  destruct s as [|c s]; [done|]. destruct Hs as [(d & Hd & ->) Hs].
  simpl Py.lstrip. rewrite (isspace_digit_char d Hd).
  apply rstrip_numeral. split; [eauto|done].
Qed.

Lemma parse_pad_digits k n acc b :
  b = true \/ (1 <= k)%nat ->
  Py.parse_digits acc b (pad_digits k n)
  = Some (acc * 10 ^ Z.of_nat k + Z.of_N (n mod 10 ^ N.of_nat k))%Z.
Proof.
  revert acc b. induction k as [|k IH]; intros acc b Hb.
  - destruct Hb as [->|]; [|lia]. simpl. rewrite N.mod_1_r. f_equal. lia.
  - rewrite pad_digits_cons. simpl Py.parse_digits.
    assert ((n / 10 ^ N.of_nat k) mod 10 < 10) as Hd by (apply N.mod_lt; lia).
    destruct (not_sign_digit_char _ Hd) as (_ & _ & ->).
    rewrite (digit_val_digit_char _ Hd), IH by (by left). f_equal.
    rewrite (Nat2N.inj_succ k), N.pow_succ_r', (N.mul_comm 10).
    rewrite N.Div0.mod_mul_r.
    rewrite Nat2Z.inj_succ, Z.pow_succ_r by lia.
    rewrite N2Z.inj_add, N2Z.inj_mul, N2Z.inj_pow, nat_N_Z. simpl Z.of_N. lia.
Qed.

Lemma int_pad_digits k n :
  (1 <= k)%nat -> Py.int (pad_digits k n) = Ok (Z.of_N (n mod 10 ^ N.of_nat k)).
Proof.
  intros Hk. unfold Py.int.
  rewrite strip_numeral by apply is_numeral_pad_digits.
  destruct k as [|k]; [lia|].
  pose proof (parse_pad_digits (S k) n 0 false (or_intror Hk)) as Hp.
  rewrite pad_digits_cons in Hp |- *.
  assert ((n / 10 ^ N.of_nat k) mod 10 < 10) as Hd by (apply N.mod_lt; lia).
  destruct (not_sign_digit_char _ Hd) as (-> & -> & _).
  rewrite Hp. f_equal.
Qed.

Lemma zfill_str_N n :
  n < 10 ^ 6 -> Py.zfill 6 (Py.str_N n) = pad_digits 6 n.
Proof.
  intros Hn. destruct (str_N_spec n) as (k & Hk & -> & Hub & Hlb).
  assert (k <= 6)%nat as Hk6.
  { destruct Hlb as [->|Hlb]; [lia|].
    destruct (decide (k <= 6)%nat) as [|Hgt]; [done|].
    assert (10 ^ 6 <= 10 ^ N.of_nat (k - 1)); [|lia].
    apply N.pow_le_mono_r; lia. }
  assert (pad_digits 6 n = Py.zeros (6 - k) +:+ pad_digits k n) as ->.
  { replace 6%nat with (k + (6 - k))%nat at 1 by lia.
    by rewrite pad_digits_split, N.div_small, pad_digits_zero. }
  unfold Py.zfill. rewrite length_pad_digits.
  destruct k as [|k]; [lia|]. rewrite pad_digits_cons.
  assert ((n / 10 ^ N.of_nat k) mod 10 < 10) as Hd by (apply N.mod_lt; lia).
  destruct (not_sign_digit_char _ Hd) as (-> & -> & _). done.
Qed.

End Numerals.

(** ** Key obfuscation *)

Section Obfuscation.
Local Open Scope Z_scope.

Lemma get_lt s n : (n < String.length s)%nat -> exists c, String.get n s = Some c.
Proof.
  revert n. induction s as [|c s IH]; intros n Hn; simpl in *; [lia|].
  destruct n as [|n]; [eauto|]. apply IH. lia.
Qed.

Lemma get_numeral s n c :
  is_numeral s -> String.get n s = Some c ->
  exists d, (d < 10)%N /\ c = Py.digit_char d.
Proof.
  revert n. induction s as [|x s IH]; intros n Hs Hget; simpl in *; [done|].
  destruct Hs as [Hx Hs]. destruct n as [|n]; [by simplify_eq|]. eauto.
Qed.

Lemma index_of_nat s i c :
  String.get i s = Some c -> Py.index s (Z.of_nat i) = Ok c.
Proof.
  intros Hget. unfold Py.index.
  destruct (Z.ltb_spec (Z.of_nat i) 0) as [|_]; [lia|].
  destruct (Z.ltb_spec (Z.of_nat i) 0) as [|_]; [lia|].
  by rewrite Nat2Z.id, Hget.
Qed.

Lemma int_digit d : (d < 10)%N -> Py.int (String (Py.digit_char d) "") = Ok (Z.of_N d).
Proof.
  intros Hd.
  assert (Py.int (String (Py.digit_char d) "")
          = match Py.digit_val (Py.digit_char d) with
            | Some z => Ok z
            | None => Raise ValueError
            end) as ->.
  { by apply (digit_char_ind (fun c => Py.int (String c "")
      = match Py.digit_val c with Some z => Ok z | None => Raise ValueError end)). }
  by rewrite (digit_val_digit_char d Hd).
Qed.

Lemma key_char_numeral api_key src shift i :
  is_numeral src -> (i < String.length src)%nat ->
  0 <= shift -> 10 + shift <= Z.of_nat (String.length api_key) ->
  exists c, key_char api_key src shift (Z.of_nat i) = Ok c.
Proof.
  intros Hsrc Hi Hshift Hlen. unfold key_char.
  destruct (get_lt src i Hi) as [c Hc].
  destruct (get_numeral src i c Hsrc Hc) as (d & Hd & ->).
  rewrite (index_of_nat _ _ _ Hc). simpl. rewrite (int_digit d Hd). simpl.
  destruct (get_lt api_key (Z.to_nat (Z.of_N d + shift))) as [c' Hc']; [lia|].
  exists c'. rewrite <- (index_of_nat _ _ _ Hc'). f_equal. lia.
Qed.

Lemma select_chars_go api_key src shift b :
  is_numeral src -> 0 <= shift -> 10 + shift <= Z.of_nat (String.length api_key) ->
  forall a key, (a + b <= String.length src)%nat ->
  exists out,
    foldl (fun acc i =>
             let? key := acc in
             let? ch := key_char api_key src shift (Z.of_nat i) in
             Ok (key +:+ String ch EmptyString)) (Ok key) (seq a b)
    = Ok (key +:+ out)
    /\ String.length out = b
    /\ forall j, (j < b)%nat ->
         exists c, String.get j out = Some c
                   /\ key_char api_key src shift (Z.of_nat (a + j)) = Ok c.
Proof.
  intros Hsrc Hshift Hlen. induction b as [|b IH]; intros a key Hab.
  - exists "". simpl. rewrite append_nil_r. split; [done|]. split; [done|]. intros; lia.
  - destruct (key_char_numeral api_key src shift a Hsrc ltac:(lia) Hshift Hlen)
      as [ca Hca].
    destruct (IH (S a) (key +:+ String ca "") ltac:(lia)) as (out & Hout & Hl & Hget).
    exists (String ca out). simpl foldl. rewrite Hca. simpl rbind.
    rewrite Hout, append_assoc. split; [done|]. split; [simpl; lia|].
    intros [|j] Hj.
    + exists ca. split; [done|]. by rewrite Nat.add_0_r.
    + destruct (Hget j ltac:(lia)) as (c & ? & ?). exists c. split; [done|].
      by replace (a + S j)%nat with (S a + j)%nat by lia.
Qed.

Lemma select_chars_numeral api_key src shift key :
  is_numeral src -> 0 <= shift -> 10 + shift <= Z.of_nat (String.length api_key) ->
  exists out,
    select_chars api_key src shift key = Ok (key +:+ out)
    /\ String.length out = String.length src
    /\ forall j, (j < String.length src)%nat ->
         exists c, String.get j out = Some c
                   /\ key_char api_key src shift (Z.of_nat j) = Ok c.
Proof.
  intros Hsrc Hshift Hlen.
  apply (select_chars_go api_key src shift (String.length src) Hsrc Hshift Hlen 0%nat key).
  lia.
Qed.

Lemma str_nonneg z : 0 <= z -> Py.str z = Py.str_N (Z.abs_N z).
Proof. intros Hz. unfold Py.str. destruct (Z.ltb_spec z 0); [lia|done]. Qed.

(** The numerals the key is drawn from, in arithmetic terms: [n] holds the
    six low digits of the timestamp and [r] the six digits of half their
    value. *)
Lemma obfuscation_numerals clock_ms :
  100000 <= clock_ms ->
  let n := Py.last_n 6 (Py.str clock_ms) in
  let v := clock_ms mod 1000000 in
  n = pad_digits 6 (Z.to_N clock_ms)
  /\ Py.int n = Ok v
  /\ Py.zfill 6 (Py.str (Z.shiftr v 1)) = pad_digits 6 (Z.to_N (v / 2)).
Proof.
  intros Hms n v. subst n.
  rewrite str_nonneg by lia.
  rewrite last_6_str_N by lia.
  replace (Z.abs_N clock_ms) with (Z.to_N clock_ms) by lia.
  split; [done|]. split.
  - rewrite int_pad_digits by lia. f_equal. subst v.
    change (10 ^ N.of_nat 6)%N with 1000000%N. lia.
  - rewrite Z.shiftr_div_pow2 by lia. change (2 ^ 1) with 2.
    assert (0 <= v < 1000000) by (subst v; apply Z.mod_pos_bound; lia).
    rewrite str_nonneg by (apply Z.div_pos; lia).
    replace (Z.abs_N (v / 2)) with (Z.to_N (v / 2)) by lia.
    apply zfill_str_N. change (10 ^ 6)%N with 1000000%N. lia.
Qed.

(** C1 (amended).  For every [api_key] of at least 12 characters and every
    clock value whose millisecond timestamp is at least 100000 (six or more
    digits), [_obfuscate_api_key] returns the timestamp text together with
    a key of exactly 12 characters: with [n] the last six characters of the
    timestamp, [v = int(n)] (the timestamp modulo 10^6) and
    [r = str(v >> 1).zfill(6)], character [i] of the key is
    [api_key[int(n[i])]] and character [6 + j] is [api_key[int(r[j]) + 2]],
    for [i], [j] in 0..5.  The result is a function of the timestamp and
    the key alone. *)
Theorem obfuscate_api_key_spec (api_key : string) (clock_ms : Z) :
  (12 <= String.length api_key)%nat -> 100000 <= clock_ms ->
  let now := Py.str clock_ms in
  let n := Py.last_n 6 now in
  exists v key,
    Py.int n = Ok v /\ v = clock_ms mod 1000000 /\
    String.length n = 6%nat /\
    let r := Py.zfill 6 (Py.str (Z.shiftr v 1)) in
    String.length r = 6%nat /\
    _obfuscate_api_key clock_ms api_key = Ok (now, key) /\
    String.length key = 12%nat /\
    (forall i, 0 <= i < 6 ->
       exists c, Py.index key i = Ok c /\ key_char api_key n 0 i = Ok c) /\
    (forall j, 0 <= j < 6 ->
       exists c, Py.index key (6 + j) = Ok c /\ key_char api_key r 2 j = Ok c).
Proof.
  intros Hlen Hms now n.
  destruct (obfuscation_numerals clock_ms Hms) as (Hn & Hv & Hr).
  fold now in Hn, Hv. fold n in Hn, Hv.
  set (v := clock_ms mod 1000000) in *.
  set (r := Py.zfill 6 (Py.str (Z.shiftr v 1))) in *.
  assert (is_numeral n) as Hnum_n by (rewrite Hn; apply is_numeral_pad_digits).
  assert (is_numeral r) as Hnum_r by (rewrite Hr; apply is_numeral_pad_digits).
  assert (String.length n = 6%nat) as Hlen_n by (rewrite Hn; apply length_pad_digits).
  assert (String.length r = 6%nat) as Hlen_r by (rewrite Hr; apply length_pad_digits).
  destruct (select_chars_numeral api_key n 0 "" Hnum_n ltac:(lia) ltac:(lia))
    as (out1 & Hsel1 & Hl1 & Hget1).
  destruct (select_chars_numeral api_key r 2 out1 Hnum_r ltac:(lia) ltac:(lia))
    as (out2 & Hsel2 & Hl2 & Hget2).
  rewrite append_nil_l in Hsel1.
  exists v, (out1 +:+ out2). split; [done|]. split; [done|]. split; [done|].
  intros r'. subst r'. split; [done|]. split.
  { unfold _obfuscate_api_key. fold now. fold n. rewrite Hv. simpl rbind.
    fold v. fold r. rewrite Hsel1. simpl rbind. by rewrite Hsel2. }
  split; [rewrite length_append; lia|]. split.
  - intros i Hi. destruct (Hget1 (Z.to_nat i) ltac:(lia)) as (c & Hc & Hk).
    exists c. rewrite Z2Nat.id in Hk by lia. split; [|done].
    rewrite <- (Z2Nat.id i) by lia. apply index_of_nat.
    rewrite <- append_correct1 by lia. done.
  - intros j Hj. destruct (Hget2 (Z.to_nat j) ltac:(lia)) as (c & Hc & Hk).
    exists c. rewrite Z2Nat.id in Hk by lia. split; [|done].
    replace (6 + j) with (Z.of_nat (Z.to_nat j + String.length out1)) by lia.
    apply index_of_nat. by rewrite <- append_correct2.
Qed.

Lemma obfuscate_api_key_witness :
  exists v key,
    Py.int (Py.last_n 6 (Py.str 1700000123456)) = Ok v /\
    v = 1700000123456 mod 1000000 /\
    String.length (Py.last_n 6 (Py.str 1700000123456)) = 6%nat /\
    let r := Py.zfill 6 (Py.str (Z.shiftr v 1)) in
    String.length r = 6%nat /\
    _obfuscate_api_key 1700000123456 "abcdefghijklmnop"
    = Ok (Py.str 1700000123456, key) /\
    String.length key = 12%nat /\
    (forall i, 0 <= i < 6 ->
       exists c, Py.index key i = Ok c
                 /\ key_char "abcdefghijklmnop"
                      (Py.last_n 6 (Py.str 1700000123456)) 0 i = Ok c) /\
    (forall j, 0 <= j < 6 ->
       exists c, Py.index key (6 + j) = Ok c
                 /\ key_char "abcdefghijklmnop" r 2 j = Ok c).
Proof.
  apply (obfuscate_api_key_spec "abcdefghijklmnop" 1700000123456).
  - simpl. lia.
  - lia.
Defined.

(** C1 as first stated fails for a clock within the first 100 seconds of
    the epoch: at 5 ms the timestamp has one digit and the key 7 characters. *)
Lemma obfuscate_api_key_short_clock :
  ~ (forall (api_key : string) (clock_ms : Z),
       (12 <= String.length api_key)%nat ->
       exists key, _obfuscate_api_key clock_ms api_key = Ok (Py.str clock_ms, key)
                   /\ String.length key = 12%nat).
Proof.
  intros Hclaim.
  destruct (Hclaim "abcdefghijklmnop" 5 ltac:(simpl; lia)) as (key & Hrun & Hlen).
  vm_compute in Hrun. injection Hrun as <-. vm_compute in Hlen. discriminate.
Qed.

Example obfuscate_api_key_run :
  _obfuscate_api_key 1700000123456 "abcdefghijklmnop"
  = Ok ("1700000123456", "bcdefgcidjek").
Proof. reflexivity. Qed.

Example obfuscate_api_key_5ms :
  _obfuscate_api_key 5 "abcdefghijklmnop" = Ok ("5", "fccccce").
Proof. reflexivity. Qed.

Example obfuscate_api_key_negative_clock :
  _obfuscate_api_key (-12345) "abcdefghijklmnop" = Raise ValueError.
Proof. reflexivity. Qed.

End Obfuscation.


(** ** The monad *)

Ltac eval_closed :=
  repeat match goal with
    | |- context [String.eqb ?a ?b] =>
        let v := eval vm_compute in (String.eqb a b) in
        change (String.eqb a b) with v
    | |- context [url_variant ?a] =>
        let v := eval vm_compute in (url_variant a) in
        change (url_variant a) with v
    | |- context [bool_decide (?a ∈ ?l)] =>
        let v := eval vm_compute in (bool_decide (a ∈ l)) in
        change (bool_decide (a ∈ l)) with v
    end.

Ltac msimpl :=
  cbn [bind ret gets modify lift raise out_of_fuel rbind fst snd
       with_action_result set_response set_allowlist set_category log_event
       consts _base_url _headers _response _allowlist _category
       action_identifier action_result gateway trace
       status message summary data debug_data
       set_status get_status set_summary_empty summary_set add_data update_data
       add_debug_data add_action_result send sleep get_action_identifier].

Lemma same_connector_refl st : same_connector st st.
Proof. by repeat split. Qed.

Lemma same_connector_with_action_result f st :
  same_connector st (with_action_result f st).
Proof. by repeat split. Qed.

(** *** Events added to the trace *)

Section Emits.
Context {P : event -> Prop}.

Lemma emits_ret {A} (a : A) : emits P (ret a).
Proof. intros st. by exists []. Qed.

Lemma emits_raise {A} e : emits P (raise (A := A) e).
Proof. intros st. by exists []. Qed.

Lemma emits_out_of_fuel {A} : emits P (out_of_fuel (A := A)).
Proof. intros st. by exists []. Qed.

Lemma emits_gets {A} (f : state -> A) : emits P (gets f).
Proof. intros st. by exists []. Qed.

Lemma emits_lift {A} (r : result A) : emits P (lift r).
Proof. destruct r; [apply emits_ret|apply emits_raise]. Qed.

Lemma emits_modify f : (forall st, trace (f st) = trace st) -> emits P (modify f).
Proof. intros Hf st. exists []. by rewrite <- (Hf st). Qed.

Lemma emits_bind {A B} (m : M A) (k : A -> M B) :
  emits P m -> (forall a, emits P (k a)) -> emits P (bind m k).
Proof.
  intros Hm Hk st. unfold bind. destruct (Hm st) as (evs & Htr & Hevs).
  destruct (m st) as [[a|e|] st1]; simpl in *; [|by exists evs..].
  destruct (Hk a st1) as (evs' & Htr' & Hevs').
  exists (evs' ++ evs). rewrite Htr', Htr, app_assoc. split; [done|].
  by apply Forall_app.
Qed.

Lemma emits_send rq : P (Call rq) -> emits P (send rq).
Proof. intros HP st. exists [Call rq]. split; [done|]. by constructor. Qed.

Lemma emits_sleep n : P (Sleep n) -> emits P (sleep n).
Proof. intros HP st. exists [Sleep n]. split; [done|]. by constructor. Qed.

Lemma emits_set_status b msg : emits P (set_status b msg).
Proof. apply emits_bind; [by apply emits_modify|intros; apply emits_ret]. Qed.

Lemma emits_summary_set k v : emits P (summary_set k v).
Proof. by apply emits_modify. Qed.

End Emits.

Ltac emits_step :=
  first
    [ apply emits_ret | apply emits_raise | apply emits_out_of_fuel
    | apply emits_gets | apply emits_lift | apply emits_set_status
    | apply emits_summary_set
    | apply emits_modify; intros; reflexivity
    | apply emits_bind; [|intros] ].

Create HintDb emits_db.

Ltac emits_auto :=
  repeat first
    [ solve [eauto with emits_db]
    | emits_step
    | match goal with
      | |- emits _ (match ?x with _ => _ end) => destruct x
      | |- emits _ (if ?b then _ else _) => destruct b
      end ].

(** ** Response classifier *)

Section Classifier.

Lemma replace_char_append c rep a b :
  Py.replace_char c rep (a +:+ b)
  = Py.replace_char c rep a +:+ Py.replace_char c rep b.
Proof.
  induction a as [|x a IH]; [done|]. rewrite append_cons. simpl.
  destruct (Ascii.eqb x c); rewrite IH; [by rewrite append_assoc|done].
Qed.

Lemma escape_braces_append a b :
  escape_braces (a +:+ b) = escape_braces a +:+ escape_braces b.
Proof. unfold escape_braces. by rewrite !replace_char_append. Qed.

Lemma escape_braces_hint : escape_braces base_url_hint = base_url_hint.
Proof. reflexivity. Qed.

Lemma process_html_response r st :
  _process_html_response r st
  = (Return (APP_ERROR, VNone),
     with_action_result (fun ar =>
       {| status := false;
          message := VStr (base_url_hint +:+ escape_braces (html_detail r));
          summary := summary ar; data := data ar; debug_data := debug_data ar |}) st).
Proof.
  unfold _process_html_response, html_detail, server_text, collapse_lines,
    _handle_py_ver_compat_for_input_str.
  msimpl. do 4 f_equal.
  destruct (_ <=? _)%nat.
  - by rewrite escape_braces_append, escape_braces_hint.
  - by rewrite escape_braces_hint, append_nil_r.
Qed.

(** C8 (amended).  A response whose Content-Type contains "html" and not
    "json" is an error whatever its status code.  The message is the
    base-URL hint followed by the detail with braces doubled; the detail
    carries the status code and the server text (tags stripped, lines
    trimmed, blank lines dropped) when that text has at most 500
    characters, and is empty otherwise: a longer text is left out, not
    cut. *)
Theorem html_response_is_error (r : response) (st : state) :
  Py.contains "html" (content_type r) = true ->
  Py.contains "json" (content_type r) = false ->
  exists st',
    _process_response r st = (Return (APP_ERROR, VNone), st')
    /\ status (action_result st') = false
    /\ message (action_result st')
       = VStr (base_url_hint +:+ escape_braces (html_detail r))
    /\ ((500 < String.length (server_text r))%nat -> html_detail r = EmptyString)
    /\ same_connector st st'.
Proof.
  intros Hhtml Hjson. unfold _process_response. msimpl.
  rewrite Hjson, Hhtml, process_html_response. eexists. split; [done|].
  msimpl. split; [done|]. split; [done|]. split; [|by repeat split].
  intros Hlen. unfold html_detail.
  destruct (Nat.leb_spec (String.length (server_text r)) 500); [lia|done].
Qed.

Lemma html_response_is_error_witness :
  exists st',
    _process_response (html_response 502 "<h1>Bad Gateway</h1>")
      (start "block_url" (constant_gateway (Failed [])))
    = (Return (APP_ERROR, VNone), st')
    /\ status (action_result st') = false
    /\ message (action_result st')
       = VStr (base_url_hint
               +:+ escape_braces (html_detail (html_response 502 "<h1>Bad Gateway</h1>")))
    /\ ((500 < String.length (server_text (html_response 502 "<h1>Bad Gateway</h1>")))%nat
        -> html_detail (html_response 502 "<h1>Bad Gateway</h1>") = EmptyString)
    /\ same_connector (start "block_url" (constant_gateway (Failed []))) st'.
Proof.
  apply (html_response_is_error (html_response 502 "<h1>Bad Gateway</h1>")
           (start "block_url" (constant_gateway (Failed [])))); reflexivity.
Defined.

(** C8 as first stated fails twice over: a Content-Type that also contains
    "json" is classified as JSON and can succeed, and a server text of more
    than 500 characters is dropped from the message instead of being cut
    to 500. *)
Lemma html_response_counterexample :
  let st := start "block_url" (constant_gateway (Failed [])) in
  let both :=
    {| status_code := 200; headers := [("Content-Type", "text/html; profile=json")];
       text := "{}"; json := inr (VDict []); soup_text := Some "{}" |} in
  let long := html_response 502 (Py.zeros 501) in
  (Py.contains "html" (content_type both) = true
   /\ (_process_response both st).1 = Return (APP_SUCCESS, VDict []))
  /\ (Py.contains "html" (content_type long) = true
      /\ String.length (server_text long) = 501%nat
      /\ message (action_result (_process_response long st).2) = VStr base_url_hint
      /\ Py.contains (Py.zeros 500) base_url_hint = false).
Proof. vm_compute. repeat split. Qed.

End Classifier.

(** ** Resilient request executor *)

Section Executor.
Local Open Scope Z_scope.

(** A response is always classified, as a success or as a failure that
    carries no payload and is recorded in the action result; outside
    200..398 it is a failure. *)
Lemma process_response_cases r st :
  exists v p ar,
    _process_response r st = (Return (v, p), with_action_result (fun _ => ar) st)
    /\ (v = APP_SUCCESS \/ v = APP_ERROR /\ p = VNone /\ status ar = false)
    /\ (status_code r < 200 \/ 399 <= status_code r -> v = APP_ERROR).
Proof.
  unfold _process_response. msimpl.
  destruct (Py.contains "json" (content_type r)).
  { unfold _process_json_response. destruct (json r) as [args|resp_json].
    - msimpl. eexists _, _, _. split; [reflexivity|]. split; [by right|done].
    - destruct (Z.leb_spec 200 (status_code r)), (Z.ltb_spec (status_code r) 399);
        msimpl; eexists _, _, _; (split; [reflexivity|]);
        (split; [by (left + right)|]); intros; try lia; done. }
  destruct (Py.contains "html" (content_type r)).
  { rewrite process_html_response. msimpl. eexists _, _, _.
    split; [reflexivity|]. split; [by right|done]. }
  destruct (String.eqb (text r) "").
  { unfold _process_empty_reponse.
    destruct (Z.eqb_spec (status_code r) 200), (Z.eqb_spec (status_code r) 204);
      msimpl; eexists _, _, _; (split; [reflexivity|]);
      (split; [by (left + right)|]); intros; try lia; done. }
  msimpl. eexists _, _, _. split; [reflexivity|]. split; [by right|done].
Qed.

Lemma make_rest_call_responded endpoint headers params data method st r :
  method ∈ request_functions ->
  gateway st (trace st) (request_of st endpoint headers params data method)
  = Responded r ->
  exists v p ar,
    _make_rest_call endpoint headers params data method st
    = (Return (v, p),
       answered (request_of st endpoint headers params data method) r ar st)
    /\ (v = APP_SUCCESS \/ v = APP_ERROR /\ p = VNone /\ status ar = false)
    /\ (status_code r < 200 \/ 399 <= status_code r -> v = APP_ERROR).
Proof.
  intros Hm Hgw.
  set (rq := request_of st endpoint headers params data method) in *.
  destruct (process_response_cases r (set_response r (log_event (Call rq) st)))
    as (v & p & ar & Heq & Hfail).
  exists v, p, ar. split; [|done].
  unfold _make_rest_call. msimpl.
  rewrite bool_decide_eq_true_2 by done.
  unfold _handle_py_ver_compat_for_input_str. msimpl.
  fold (request_of st endpoint headers params data method). fold rq.
  rewrite Hgw. exact Heq.
Qed.

Lemma emits_process_response P r : emits P (_process_response r).
Proof.
  intros st. destruct (process_response_cases r st) as (v & p & ar & -> & _).
  by exists [].
Qed.

#[local] Hint Resolve emits_process_response : emits_db.

Lemma emits_make_rest_call (P : event -> Prop) endpoint headers params data verb :
  (forall rq, method rq = verb -> P (Call rq)) ->
  emits P (_make_rest_call endpoint headers params data verb).
Proof.
  intros HP. unfold _make_rest_call.
  emits_auto. by apply emits_send, HP.
Qed.

Lemma emits_make_rest_call_helper (P : event -> Prop)
    fuel endpoint headers params data verb :
  (forall rq, method rq = verb -> P (Call rq)) -> (forall n, P (Sleep n)) ->
  emits P (_make_rest_call_helper fuel endpoint headers params data verb).
Proof.
  intros HP Hsleep. induction fuel as [|fuel IH]; simpl; [apply emits_out_of_fuel|].
  pose proof (emits_make_rest_call P endpoint headers params data verb HP).
  emits_auto; by apply emits_sleep.
Qed.

#[local] Hint Resolve emits_make_rest_call_helper : emits_db.

(** The first thing [_make_rest_call_helper] does is to send the request. *)
Lemma helper_sends_first fuel endpoint headers params data method st :
  method ∈ request_functions ->
  exists evs,
    trace (_make_rest_call_helper (S fuel) endpoint headers params data method st).2
    = evs ++ Call (request_of st endpoint headers params data method) :: trace st.
Proof.
  intros Hm. simpl _make_rest_call_helper.
  set (k := fun x : pyval * pyval => _).
  assert (forall x, emits (fun _ => True) (k x)) as Hk.
  { intros [ret_val response]. unfold k.
    emits_auto; by apply emits_sleep. }
  assert (exists o st1,
            _make_rest_call endpoint headers params data method st = (o, st1)
            /\ trace st1
               = Call (request_of st endpoint headers params data method) :: trace st)
    as (o & st1 & Hcall & Htr).
  { unfold _make_rest_call. msimpl. rewrite bool_decide_eq_true_2 by done.
    unfold _handle_py_ver_compat_for_input_str. msimpl.
    fold (request_of st endpoint headers params data method).
    destruct (gateway st (trace st) _) as [r|args]; msimpl.
    - destruct (process_response_cases r
                  (set_response r
                     (log_event (Call (request_of st endpoint headers params data method))
                        st))) as (v & p & ar & Heq & _).
      eexists _, _. split; [exact Heq|done].
    - by eexists _, _. }
  unfold bind. rewrite Hcall. destruct o as [x|e|]; [|by exists []..].
  destruct (Hk x st1) as (evs & Hevs & _). exists evs. by rewrite Hevs, Htr.
Qed.

(** An answer that is neither 409 nor 429 is returned as classified. *)
Lemma helper_returns fuel endpoint headers params data verb st r :
  verb ∈ request_functions ->
  gateway st (trace st) (request_of st endpoint headers params data verb)
  = Responded r ->
  status_code r <> 409 -> status_code r <> 429 ->
  exists v p ar,
    _make_rest_call_helper (S fuel) endpoint headers params data verb st
    = (Return (v, p),
       answered (request_of st endpoint headers params data verb) r ar st)
    /\ _process_response r
         (set_response r
            (log_event (Call (request_of st endpoint headers params data verb)) st))
       = (Return (v, p),
          answered (request_of st endpoint headers params data verb) r ar st).
Proof.
  intros Hm Hgw H409 H429.
  set (rq := request_of st endpoint headers params data verb) in *.
  destruct (process_response_cases r (set_response r (log_event (Call rq) st)))
    as (v & p & ar & Hproc & Hcases & _).
  assert (_make_rest_call endpoint headers params data verb st
          = (Return (v, p), answered rq r ar st)) as Hcall'.
  { unfold _make_rest_call. msimpl. rewrite bool_decide_eq_true_2 by done.
    unfold _handle_py_ver_compat_for_input_str. msimpl.
    fold (request_of st endpoint headers params data verb). fold rq.
    rewrite Hgw. exact Hproc. }
  exists v, p, ar. split; [|exact Hproc].
  simpl _make_rest_call_helper. unfold bind at 1. rewrite Hcall'.
  destruct Hcases as [->|(-> & -> & _)]; [reflexivity|].
  change (is_fail APP_ERROR) with true. unfold answered. msimpl.
  destruct (Z.eqb_spec (status_code r) 409); [done|].
  destruct (Z.eqb_spec (status_code r) 429); [done|]. reflexivity.
Qed.

Lemma process_response_json_success r v st :
  Py.contains "json" (content_type r) = true -> json r = inr v ->
  200 <= status_code r < 399 ->
  exists ar,
    _process_response r st = (Return (APP_SUCCESS, v), with_action_result (fun _ => ar) st).
Proof.
  intros Hct Hjson Hcode. unfold _process_response. msimpl. rewrite Hct.
  unfold _process_json_response. rewrite Hjson.
  destruct (Z.leb_spec 200 (status_code r)); [|lia].
  destruct (Z.ltb_spec (status_code r) 399); [|lia]. msimpl. by eexists.
Qed.

Lemma process_response_json_garbled r args st :
  Py.contains "json" (content_type r) = true -> json r = inl args ->
  exists ar,
    _process_response r st = (Return (APP_ERROR, VNone), with_action_result (fun _ => ar) st).
Proof.
  intros Hct Hjson. unfold _process_response. msimpl. rewrite Hct.
  unfold _process_json_response. rewrite Hjson. msimpl. by eexists.
Qed.

(** What the executor does with a 429 answer. *)
Lemma helper_rate_limited fuel endpoint headers params data method st r :
  method ∈ request_functions ->
  gateway st (trace st) (request_of st endpoint headers params data method)
  = Responded r ->
  status_code r = 429 ->
  exists ar,
    status ar = false /\
    let st' := answered (request_of st endpoint headers params data method) r ar st in
    _make_rest_call_helper (S fuel) endpoint headers params data method st
    = match json r with
      | inl _ => (Throw ValueError, st')
      | inr body =>
          match py_subscript body "Retry-After" with
          | Raise KeyError => (Return (APP_ERROR, VNone), st')
          | Raise e => (Throw e, st')
          | Ok retry_time =>
              match _parse_retry_time retry_time with
              | Raise e => (Throw e, st')
              | Ok None => (Return (retry_time, VNone), st')
              | Ok (Some n) =>
                  if n <? 0 then (Return (retry_time, VNone), st')
                  else _make_rest_call_helper fuel endpoint headers params data method
                         (log_event (Sleep n) st')
              end
          end
      end.
Proof.
  intros Hm Hgw Hcode.
  destruct (make_rest_call_responded endpoint headers params data method st r Hm Hgw)
    as (v & p & ar & Heq & Hcases & Hfail).
  rewrite Hfail in Heq, Hcases by lia.
  destruct Hcases as [|(_ & -> & Har)]; [done|].
  exists ar. split; [done|]. cbn zeta. simpl _make_rest_call_helper.
  unfold bind at 1. rewrite Heq. unfold answered.
  change (is_fail APP_ERROR) with true. msimpl. rewrite Hcode.
  change (429 =? 409) with false. change (429 =? 429) with true. msimpl.
  destruct (json r) as [args|body]; [reflexivity|].
  destruct (py_subscript body "Retry-After") as [retry_time|[]]; try reflexivity.
  destruct (_parse_retry_time retry_time) as [[n|]|]; try reflexivity.
  msimpl. destruct (n <? 0); reflexivity.
Qed.

(** The part of C4 that holds: a 429 whose JSON body has no Retry-After
    field is not retried, and the classified failure comes back as it was. *)
Lemma rate_limit_without_retry_after fuel endpoint headers params data method st r d :
  method ∈ request_functions ->
  gateway st (trace st) (request_of st endpoint headers params data method)
  = Responded r ->
  status_code r = 429 ->
  json r = inr (VDict d) -> dict_get d "Retry-After" = None ->
  exists st',
    _make_rest_call_helper (S fuel) endpoint headers params data method st
    = (Return (APP_ERROR, VNone), st')
    /\ trace st' = Call (request_of st endpoint headers params data method) :: trace st.
Proof.
  intros Hm Hgw Hcode Hjson Hkey.
  destruct (helper_rate_limited fuel endpoint headers params data method st r Hm Hgw Hcode)
    as (ar & _ & Heq).
  cbn zeta in Heq. rewrite Hjson in Heq. simpl py_subscript in Heq.
  rewrite Hkey in Heq. eexists. split; [exact Heq|done].
Qed.

Lemma parse_retry_time_unit s t0 t1 rest :
  Py.split s = t0 :: t1 :: rest ->
  _parse_retry_time (VStr s)
  = if String.eqb (Py.lower t1) "seconds" then let? n := Py.int t0 in Ok (Some n)
    else if String.eqb (Py.lower t1) "minutes"
         then let? n := Py.int t0 in Ok (Some (n * 60))
         else Ok None.
Proof. intros Hs. unfold _parse_retry_time. by rewrite Hs. Qed.

(** C4, where the code departs from it.  A 429 whose Retry-After text has
    a unit that is neither "seconds" nor "minutes" is not retried, but what
    comes back in the place of the status is the Retry-After text itself,
    which [is_fail] does not take for a failure: the classified failure is
    lost instead of being returned unchanged. *)
Theorem rate_limit_unparsable_unit
    fuel endpoint headers params data method st r body s t0 t1 rest :
  method ∈ request_functions ->
  gateway st (trace st) (request_of st endpoint headers params data method)
  = Responded r ->
  status_code r = 429 ->
  json r = inr body -> py_subscript body "Retry-After" = Ok (VStr s) ->
  Py.split s = t0 :: t1 :: rest ->
  Py.lower t1 <> "seconds" -> Py.lower t1 <> "minutes" ->
  exists st',
    _make_rest_call_helper (S fuel) endpoint headers params data method st
    = (Return (VStr s, VNone), st')
    /\ is_fail (VStr s) = false
    /\ VStr s <> APP_ERROR
    /\ status (action_result st') = false
    /\ trace st' = Call (request_of st endpoint headers params data method) :: trace st.
Proof.
  intros Hm Hgw Hcode Hjson Hfield Hsplit Hsec Hmin.
  destruct (helper_rate_limited fuel endpoint headers params data method st r Hm Hgw Hcode)
    as (ar & Har & Heq).
  cbn zeta in Heq. rewrite Hjson, Hfield in Heq.
  rewrite (parse_retry_time_unit s t0 t1 rest Hsplit) in Heq.
  apply String.eqb_neq in Hsec, Hmin. rewrite Hsec, Hmin in Heq.
  eexists. split; [exact Heq|]. by repeat split.
Qed.

Lemma rate_limit_unparsable_unit_witness :
  exists st',
    _make_rest_call_helper 1 "/api/v1/security/advanced" [] [] VNone "get"
      (start "block_url" (constant_gateway (Responded (rate_limited "5 hours"))))
    = (Return (VStr "5 hours", VNone), st')
    /\ is_fail (VStr "5 hours") = false
    /\ VStr "5 hours" <> APP_ERROR
    /\ status (action_result st') = false
    /\ trace st'
       = Call (request_of
                 (start "block_url" (constant_gateway (Responded (rate_limited "5 hours"))))
                 "/api/v1/security/advanced" [] [] VNone "get")
         :: trace (start "block_url"
                     (constant_gateway (Responded (rate_limited "5 hours")))).
Proof.
  apply (rate_limit_unparsable_unit 0 "/api/v1/security/advanced" [] [] VNone "get"
           (start "block_url" (constant_gateway (Responded (rate_limited "5 hours"))))
           (rate_limited "5 hours")
           (VDict [("message", VStr "Rate Limit (1/SECOND) exceeded");
                   ("Retry-After", VStr "5 hours")])
           "5 hours" "5" "hours" []).
  - apply list_elem_of_here.
  - reflexivity.
  - reflexivity.
  - reflexivity.
  - reflexivity.
  - reflexivity.
  - vm_compute. discriminate.
  - vm_compute. discriminate.
Defined.

Example rate_limit_seconds_retried :
  let st := start "block_url" (constant_gateway (Responded (rate_limited "5 Seconds"))) in
  let run := _make_rest_call_helper 3 "/api/v1/security/advanced" [] [] VNone "get" st in
  run.1 = NoFuel
  /\ (fun ev => match ev with Sleep n => Some n | Call _ => None end) <$> trace run.2
     = [Some 5; None; Some 5; None; Some 5; None].
Proof. vm_compute. done. Qed.

Lemma int_cases t : decimal_integer t \/ Py.int t = Raise ValueError.
Proof.
  unfold decimal_integer, Py.int.
  destruct (match Py.strip t with
            | EmptyString => _
            | String c t0 => _
            end) as [z|]; eauto.
Qed.

(** C10.  [_parse_retry_time] is partial.  Text with fewer than two
    blank-separated tokens raises [IndexError]; with a unit of "seconds"
    or "minutes" and a first token that [int()] does not read as a decimal
    integer it raises [ValueError]; it returns [None] exactly when a second
    token exists and is neither "seconds" nor "minutes" in any letter case.
    Nothing catches these exceptions in the executor: on a 429 answer,
    whatever [_parse_retry_time] raises leaves [_make_rest_call_helper], so
    a Retry-After text without a unit token ends the call with [IndexError]
    instead of a returned failure. *)
Theorem parse_retry_time_partial :
  (forall s, (length (Py.split s) < 2)%nat ->
             _parse_retry_time (VStr s) = Raise IndexError)
  /\ (forall s t0 t1 rest,
        Py.split s = t0 :: t1 :: rest ->
        Py.lower t1 = "seconds" \/ Py.lower t1 = "minutes" ->
        ~ decimal_integer t0 ->
        _parse_retry_time (VStr s) = Raise ValueError)
  /\ (forall s,
        _parse_retry_time (VStr s) = Ok None
        <-> exists t0 t1 rest,
              Py.split s = t0 :: t1 :: rest
              /\ Py.lower t1 <> "seconds" /\ Py.lower t1 <> "minutes")
  /\ (forall fuel endpoint headers params data method st r body retry_time e,
        method ∈ request_functions ->
        gateway st (trace st) (request_of st endpoint headers params data method)
        = Responded r ->
        status_code r = 429 ->
        json r = inr body -> py_subscript body "Retry-After" = Ok retry_time ->
        _parse_retry_time retry_time = Raise e ->
        exists st',
          _make_rest_call_helper (S fuel) endpoint headers params data method st
          = (Throw e, st')).
Proof.
  assert (Hshort : forall s, (length (Py.split s) < 2)%nat ->
                             _parse_retry_time (VStr s) = Raise IndexError).
  { intros s Hlen. unfold _parse_retry_time.
    destruct (Py.split s) as [|t0 [|t1 rest]]; simpl in *; try done. lia. }
  split; [exact Hshort|]. split; [|split].
  - intros s t0 t1 rest Hsplit Hunit Hint.
    rewrite (parse_retry_time_unit s t0 t1 rest Hsplit).
    destruct (int_cases t0) as [| ->]; [done|].
    destruct Hunit as [->| ->]; reflexivity.
  - intros s. split.
    + unfold _parse_retry_time.
      destruct (Py.split s) as [|t0 [|t1 rest]] eqn:Hsplit; simpl; try done.
      destruct (String.eqb_spec (Py.lower t1) "seconds") as [|Hsec].
      { destruct (Py.int t0); simpl; done. }
      destruct (String.eqb_spec (Py.lower t1) "minutes") as [|Hmin].
      { destruct (Py.int t0); simpl; done. }
      intros _. by exists t0, t1, rest.
    + intros (t0 & t1 & rest & Hsplit & Hsec & Hmin).
      rewrite (parse_retry_time_unit s t0 t1 rest Hsplit).
      apply String.eqb_neq in Hsec, Hmin. by rewrite Hsec, Hmin.
  - intros fuel endpoint headers params data method st r body retry_time e
      Hm Hgw Hcode Hjson Hfield Hraise.
    destruct (helper_rate_limited fuel endpoint headers params data method st r
                Hm Hgw Hcode) as (ar & _ & Heq).
    cbn zeta in Heq. rewrite Hjson, Hfield, Hraise in Heq. eauto.
Qed.

Lemma parse_retry_time_partial_witness :
  _parse_retry_time (VStr "") = Raise IndexError
  /\ _parse_retry_time (VStr "soon") = Raise IndexError
  /\ _parse_retry_time (VStr "five Seconds") = Raise ValueError
  /\ (exists t0 t1 rest,
        Py.split "5 hours" = t0 :: t1 :: rest
        /\ Py.lower t1 <> "seconds" /\ Py.lower t1 <> "minutes")
  /\ (exists st',
        _make_rest_call_helper 1 "/api/v1/security/advanced" [] [] VNone "get"
          (start "block_url" (constant_gateway (Responded (rate_limited "soon"))))
        = (Throw IndexError, st'))
  /\ (exists st',
        _make_rest_call_helper 1 "/api/v1/security/advanced" [] [] VNone "get"
          (start "block_url" (constant_gateway (Responded (rate_limited "five Seconds"))))
        = (Throw ValueError, st')).
Proof.
  destruct parse_retry_time_partial as (Hindex & Hvalue & Hnone & Hcrash).
  split; [apply Hindex; vm_compute; lia|].
  split; [apply Hindex; vm_compute; lia|].
  split.
  { apply (Hvalue "five Seconds" "five" "Seconds" []); [reflexivity|by left|].
    intros [z Hz]. vm_compute in Hz. discriminate. }
  split; [by apply Hnone|].
  split.
  - apply (Hcrash 0%nat "/api/v1/security/advanced" [] [] VNone "get"
             (start "block_url" (constant_gateway (Responded (rate_limited "soon"))))
             (rate_limited "soon")
             (VDict [("message", VStr "Rate Limit (1/SECOND) exceeded");
                     ("Retry-After", VStr "soon")]) (VStr "soon") IndexError);
      try reflexivity.
    apply list_elem_of_here.
  - apply (Hcrash 0%nat "/api/v1/security/advanced" [] [] VNone "get"
             (start "block_url"
                (constant_gateway (Responded (rate_limited "five Seconds"))))
             (rate_limited "five Seconds")
             (VDict [("message", VStr "Rate Limit (1/SECOND) exceeded");
                     ("Retry-After", VStr "five Seconds")])
             (VStr "five Seconds") ValueError);
      try reflexivity.
    apply list_elem_of_here.
Defined.

Example parse_retry_time_values :
  _parse_retry_time (VStr "5 seconds") = Ok (Some 5)
  /\ _parse_retry_time (VStr "2 minutes") = Ok (Some 120)
  /\ _parse_retry_time (VStr "1.5 seconds") = Raise ValueError
  /\ _parse_retry_time (VStr "30") = Raise IndexError
  /\ _parse_retry_time (VStr "5 hours") = Ok None
  /\ _parse_retry_time (VInt 5) = Raise AttributeError.
Proof. repeat split. Qed.

End Executor.

#[global] Hint Resolve emits_process_response emits_make_rest_call_helper : emits_db.

(** ** Lookup *)

Section Lookup.

Lemma bind_trace_after {A B} (m : M A) (k : A -> M B) st evs base :
  trace (m st).2 = evs ++ base ->
  (forall a, emits (fun _ => True) (k a)) ->
  exists evs', trace (bind m k st).2 = evs' ++ base.
Proof.
  intros Hm Hk. unfold bind. destruct (m st) as [[a|e|] st1]; simpl in *; eauto.
  destruct (Hk a st1) as (evs' & Hevs' & _).
  exists (evs' ++ evs). by rewrite Hevs', Hm, app_assoc.
Qed.

(** C9, where the code departs from it.  With an empty endpoint list the
    lookup records the validation error but does not return: whatever the
    gateway and the state, the POST to the lookup endpoint is sent, with
    the empty list as its body. *)
Theorem lookup_empty_list_calls_gateway (fuel : nat) (st : state) :
  exists evs,
    trace (_lookup_endpoint (S fuel) [] st).2
    = evs ++ Call (request_of st "/api/v1/urlLookup" [] [] (str_list []) "post")
             :: trace st.
Proof.
  unfold _lookup_endpoint.
  set (k := fun x : pyval * pyval => _).
  set (st0 := with_action_result (fun ar =>
         {| status := false; message := VStr "Please provide valid list of URL(s)";
            summary := summary ar; data := data ar; debug_data := debug_data ar |}) st).
  change (exists evs,
    trace (bind (_make_rest_call_helper (S fuel) "/api/v1/urlLookup" [] []
                   (str_list []) "post") k st0).2
    = evs ++ Call (request_of st0 "/api/v1/urlLookup" [] [] (str_list []) "post")
             :: trace st0).
  destruct (helper_sends_first fuel "/api/v1/urlLookup" [] [] (str_list []) "post" st0)
    as (evs & Hevs).
  { unfold request_functions. repeat constructor. }
  apply (bind_trace_after _ k st0 evs _ Hevs).
  intros [ret_val response]. unfold k.
  emits_auto.
Qed.

(** On a gateway that answers both requests, the lookup of an empty list
    ends in success after two network calls. *)
Example lookup_empty_list_succeeds :
  let gw := read_write_gateway
              (Responded (json_response 200 (VDict [("blacklistUrls", str_list [])])))
              (Responded (json_response 200 (VList []))) in
  let run := handle_action 1 {[ "ip" := " , " ]} (start "lookup_ip" gw) in
  run.1 = Return APP_SUCCESS
  /\ status (action_result run.2) = true
  /\ message (action_result run.2) = VStr "Successfully completed lookup"
  /\ (fun ev => match ev with
                | Call rq => Some (method rq, url rq, body rq)
                | Sleep _ => None
                end) <$> trace run.2
     = [Some ("get", "https://admin.zscaler.example/api/v1/security/advanced", VList []);
        Some ("post", "https://admin.zscaler.example/api/v1/urlLookup", VList [])].
Proof. vm_compute. done. Qed.

End Lookup.

(** ** Category lookup *)

Section Category.

Lemma find_configured_name_spec category cats :
  forallb category_record cats = true ->
  find_configured_name category cats
  = Ok (List.find (has_configured_name category) cats).
Proof.
  induction cats as [|cat cats IH]; [done|]. simpl.
  intros [Hcat Hcats]%andb_prop.
  destruct cat as [| | | | |d]; try done. simpl.
  destruct (dict_get d "configuredName") as [v|]; simpl.
  - destruct (py_eq_str v category); [done|]. by apply IH.
  - by apply IH.
Qed.

Lemma find_id_spec category cats :
  forallb category_record cats = true ->
  find_id category cats = Ok (List.find (has_id category) cats).
Proof.
  induction cats as [|cat cats IH]; [done|]. simpl.
  intros [Hcat Hcats]%andb_prop.
  destruct cat as [| | | | |d]; try done. simpl in *.
  destruct (dict_get d "id") as [v|]; [|done]. simpl.
  destruct (py_eq_str v category); [done|]. by apply IH.
Qed.

(** C6.  Once the category list is fetched, each record being an object
    with an [id], the lookup returns the first category whose
    [configuredName] equals the identifier, else the first whose [id]
    equals it, else fails with "Unable to find category". *)
Theorem get_category_spec (fuel : nat) (category : string) (st st1 : state)
    (ret_val : pyval) (cats : list pyval) :
  _make_rest_call_helper fuel "/api/v1/urlCategories" [] [] VNone "get" st
  = (Return (ret_val, VList cats), st1) ->
  is_fail ret_val = false ->
  forallb category_record cats = true ->
  match List.find (has_configured_name category) cats with
  | Some cat => _get_category fuel category st = (Return (APP_SUCCESS, cat), st1)
  | None =>
      match List.find (has_id category) cats with
      | Some cat => _get_category fuel category st = (Return (APP_SUCCESS, cat), st1)
      | None =>
          exists st2,
            _get_category fuel category st = (Return (APP_ERROR, VNone), st2)
            /\ status (action_result st2) = false
            /\ message (action_result st2) = VStr "Unable to find category"
            /\ same_connector st1 st2
      end
  end.
Proof.
  intros Hfetch Hok Hcats.
  assert (_get_category fuel category st
          = match List.find (has_configured_name category) cats with
            | Some cat => (Return (APP_SUCCESS, cat), st1)
            | None =>
                match List.find (has_id category) cats with
                | Some cat => (Return (APP_SUCCESS, cat), st1)
                | None =>
                    (Return (APP_ERROR, VNone),
                     (set_status false (VStr "Unable to find category") st1).2)
                end
            end) as ->.
  { unfold _get_category, bind at 1. rewrite Hfetch, Hok.
    cbn [py_iter]. msimpl. rewrite (find_configured_name_spec category cats Hcats).
    msimpl. destruct (List.find (has_configured_name category) cats) as [cat|]; [done|].
    msimpl. rewrite (find_id_spec category cats Hcats). msimpl.
    by destruct (List.find (has_id category) cats) as [cat|]. }
  destruct (List.find (has_configured_name category) cats) as [cat|]; [done|].
  destruct (List.find (has_id category) cats) as [cat|]; [done|].
  eexists. split; [reflexivity|]. by repeat split.
Qed.

Lemma get_category_spec_witness :
  let st := start "block_url" category_gateway in
  let st1 := (_make_rest_call_helper 1 "/api/v1/urlCategories" [] [] VNone "get" st).2 in
  _get_category 1 "CUSTOM_01" st
  = (Return (APP_SUCCESS,
             VDict [("id", VStr "CUSTOM_02"); ("configuredName", VStr "CUSTOM_01");
                    ("dbCategorizedUrls", str_list [])]), st1).
Proof.
  intros st st1.
  apply (get_category_spec 1 "CUSTOM_01" st st1 APP_SUCCESS sample_categories).
  - reflexivity.
  - reflexivity.
  - reflexivity.
Defined.

(** C6 as first stated fails for a fetched list with an entry that has no
    [id]: when no [configuredName] matches, the second pass subscripts
    [cat['id']] on every entry up to the first match, and raises
    [KeyError] at such an entry, whether or not a later entry has the id
    looked for. *)
Lemma get_category_without_id :
  let nameless := VDict [("configuredName", VStr "X")] in
  let wanted := VDict [("id", VStr "Y"); ("configuredName", VStr "Z")] in
  let fetch := fun cats =>
    start "block_url" (constant_gateway (Responded (json_response 200 (VList cats)))) in
  (lookup_category "Y" [nameless; wanted] = Some wanted
   /\ (_get_category 1 "Y" (fetch [nameless; wanted])).1 = Throw KeyError)
  /\ (lookup_category "Y" [nameless] = None
      /\ (_get_category 1 "Y" (fetch [nameless])).1 = Throw KeyError).
Proof. vm_compute. repeat split. Qed.

Example get_category_runs :
  let st := start "block_url" category_gateway in
  (_get_category 1 "Phishing" st).1
  = Return (APP_SUCCESS,
            VDict [("id", VStr "CUSTOM_01"); ("configuredName", VStr "Phishing");
                   ("dbCategorizedUrls", str_list ["bad.example"])])
  /\ (_get_category 1 "OTHER_ADULT_MATERIAL" st).1
     = Return (APP_SUCCESS,
               VDict [("id", VStr "OTHER_ADULT_MATERIAL");
                      ("dbCategorizedUrls", str_list [])])
  /\ (_get_category 1 "Gambling" st).1 = Return (APP_ERROR, VNone)
  /\ message (action_result (_get_category 1 "Gambling" st).2)
     = VStr "Unable to find category".
Proof. vm_compute. done. Qed.

End Category.

(** ** Endpoint normaliser *)

Section Normaliser.

Lemma truncate_step (l : list string) (a : nat) (e : string) :
  l !! a = Some e ->
  (if Py.startswith e "http://"
   then <[a := Py.drop (String.length "http://") e]> l
   else if Py.startswith e "https://"
        then <[a := Py.drop (String.length "https://") e]> l
        else l)
  = <[a := strip_scheme e]> l.
Proof.
  intros Hl. unfold strip_scheme.
  destruct (Py.startswith e "http://"); [done|].
  destruct (Py.startswith e "https://"); [done|].
  by rewrite list_insert_id.
Qed.

Lemma truncate_protocol_go (l : list string) (b : nat) :
  forall a, a + b = length l ->
  foldl (fun endpoints i =>
           match endpoints !! i with
           | Some e =>
               if Py.startswith e "http://"
               then <[i := Py.drop (String.length "http://") e]> endpoints
               else if Py.startswith e "https://"
               then <[i := Py.drop (String.length "https://") e]> endpoints
               else endpoints
           | None => endpoints
           end)
        ((strip_scheme <$> take a l) ++ drop a l) (seq a b)
  = strip_scheme <$> l.
Proof.
  induction b as [|b IH]; intros a Hab.
  - simpl. rewrite take_ge, drop_ge, app_nil_r by lia. done.
  - destruct (lookup_lt_is_Some_2 l a ltac:(lia)) as [e He].
    cbn [foldl seq].
    assert (((strip_scheme <$> take a l) ++ drop a l) !! a = Some e) as Hcur.
    { rewrite lookup_app_r; rewrite length_fmap, length_take; [|lia].
      replace (a - a `min` length l) with 0 by lia.
      by rewrite lookup_drop, Nat.add_0_r. }
    rewrite Hcur, (truncate_step _ a e Hcur).
    rewrite <- (IH (S a)) by lia. f_equal.
    rewrite insert_app_r_alt; rewrite length_fmap, length_take; [|lia].
    replace (a - a `min` length l) with 0 by lia.
    rewrite (drop_S l e a He). simpl.
    rewrite (take_S_r l a e He), fmap_app, <- app_assoc. done.
Qed.

(** The in-place loop strips the scheme of every entry. *)
Lemma truncate_protocol_map (l : list string) :
  _truncate_protocol l = strip_scheme <$> l.
Proof. apply (truncate_protocol_go l (length l) 0). lia. Qed.

Lemma normalize_eq raw : _truncate_protocol (split_endpoints raw) = normalize raw.
Proof. by rewrite truncate_protocol_map. Qed.

Lemma check_for_overlength_eq endpoints st :
  _check_for_overlength endpoints st
  = if overlength endpoints
    then (Return APP_ERROR,
          with_action_result (fun ar =>
            {| status := false; message := VStr overlength_message;
               summary := summary ar; data := data ar;
               debug_data := debug_data ar |}) st)
    else (Return APP_SUCCESS, st).
Proof.
  induction endpoints as [|e l IH]; [done|]. simpl.
  destruct (1024 <? String.length e)%nat; [done|]. apply IH.
Qed.

Ltac run_handler Hid Hparam :=
  unfold handle_action, get_action_identifier, bind at 1, gets at 1;
  rewrite Hid; eval_closed; cbn iota;
  unfold _handle_block_ip, _handle_block_url, _handle_unblock_ip,
    _handle_unblock_url, _handle_allow_ip, _handle_allow_url,
    _handle_unallow_ip, _handle_unallow_url, _handle_lookup_ip, _handle_lookup_url;
  unfold param_item; rewrite Hparam; msimpl;
  unfold _block_endpoint, _unblock_endpoint, _allowlist_endpoint, _unallow_endpoint;
  try rewrite normalize_eq; msimpl; try rewrite Hid; eval_closed; cbn iota;
  unfold bind, ret; try rewrite check_for_overlength_eq;
  unfold runs_on; eval_closed; cbn iota;
  try (destruct (overlength _)); reflexivity.

(** C7 (amended).  Every block, unblock, allow, unallow and lookup action
    takes its endpoint list from the raw text by splitting on commas,
    trimming, and dropping the empty entries; all of them but [lookup_ip]
    then strip one leading "http://" or "https://".  The url variants, and
    only they, fail before any network call when an entry is longer than
    1024 characters: the final state differs from the initial one in the
    action result alone. *)
Theorem endpoint_normalisation (fuel : nat) (action_id raw : string)
    (param : gmap string string) (st : state) :
  action_id ∈ endpoint_actions ->
  action_identifier st = action_id ->
  param !! endpoint_key action_id = Some raw ->
  let endpoints :=
    if String.eqb action_id "lookup_ip" then split_endpoints raw else normalize raw in
  handle_action fuel param st
  = if url_variant action_id && overlength endpoints
    then (Return APP_ERROR, rejected_overlength st)
    else runs_on fuel action_id (param !! "url_category") endpoints
           (with_action_result (fun _ => new_action_result) st).
Proof.
  intros Hin. unfold endpoint_actions in Hin.
  repeat (apply elem_of_cons in Hin as [->|Hin]); [..|by apply elem_of_nil in Hin];
    intros Hid Hparam;
    match type of Hparam with
    | context [endpoint_key ?a] =>
        let k := eval vm_compute in (endpoint_key a) in
        change (endpoint_key a) with k in Hparam
    end;
    cbv zeta; run_handler Hid Hparam.
Qed.

Lemma endpoint_normalisation_witness :
  handle_action 3 {[ "url" := "http://a.com, https://b.com" ]}
    (start "block_url" (blocklist_gateway []))
  = _amend_blocklist 3 ["a.com"; "b.com"] "ADD_TO_LIST"
      (with_action_result (fun _ => new_action_result)
         (start "block_url" (blocklist_gateway []))).
Proof.
  refine (eq_trans
            (endpoint_normalisation 3 "block_url" "http://a.com, https://b.com"
               {[ "url" := "http://a.com, https://b.com" ]}
               (start "block_url" (blocklist_gateway [])) _ _ _) _).
  - unfold endpoint_actions. repeat constructor.
  - reflexivity.
  - reflexivity.
  - reflexivity.
Defined.

(** C7 as first stated fails for [lookup_ip], which sends its entries with
    their scheme. *)
Lemma lookup_ip_keeps_scheme :
  let st := start "lookup_ip" (constant_gateway (Failed [])) in
  let run := handle_action 1 {[ "ip" := "http://1.2.3.4" ]} st in
  normalize "http://1.2.3.4" = ["1.2.3.4"]
  /\ trace run.2
     = [Call {| method := "post";
                url := "https://admin.zscaler.example/api/v1/urlLookup";
                req_headers := [("cookie", "JSESSIONID=0")];
                params := [];
                body := str_list ["http://1.2.3.4"] |}].
Proof. vm_compute. done. Qed.

Example overlength_rejected_before_any_call :
  let st := start "block_url" (blocklist_gateway []) in
  let run := handle_action 3 {[ "url" := Py.zeros 1025 ]} st in
  run.1 = Return APP_ERROR
  /\ message (action_result run.2) = VStr overlength_message
  /\ trace run.2 = [].
Proof. vm_compute. done. Qed.

Example overlength_ip_not_checked :
  let st := start "block_ip" (blocklist_gateway []) in
  let run := handle_action 3 {[ "ip" := Py.zeros 1025 ]} st in
  run.1 = Return APP_SUCCESS /\ length (trace run.2) = 2.
Proof. vm_compute. done. Qed.

Example normalize_sample :
  normalize " http://a.com ,, https://b.com,HTTP://c.com , http://http://d.com,http://"
  = ["a.com"; "b.com"; "HTTP://c.com"; "http://d.com"; ""].
Proof. reflexivity. Qed.

End Normaliser.

(** ** List mutation engine *)

Section Mutation.

Lemma strings_of_str_list (l : list string) : strings_of (VStr <$> l) = l.
Proof.
  induction l as [|x l IH]; [done|].
  change (x :: strings_of (VStr <$> l) = x :: l). by rewrite IH.
Qed.

Lemma hashable_str_list (l : list string) : forallb hashable (VStr <$> l) = true.
Proof. by induction l. Qed.

Lemma py_set_str_list (l : list string) : py_set (str_list l) = Ok (list_to_set l).
Proof.
  unfold py_set, str_list. cbn [py_iter rbind].
  by rewrite hashable_str_list, strings_of_str_list.
Qed.

Lemma delta_eq action (R E : gset string) :
  (if String.eqb action "REMOVE_FROM_LIST" then E ∖ (E ∖ R) else R ∖ E) = delta action R E.
Proof.
  unfold delta. destruct (String.eqb action "REMOVE_FROM_LIST"); [|done].
  apply set_eq. intros x. rewrite !elem_of_difference, elem_of_intersection.
  destruct (decide (x ∈ R)); tauto.
Qed.

Lemma delta_subseteq action (R E : gset string) : delta action R E ⊆ R.
Proof.
  unfold delta. intros x. destruct (String.eqb _ _).
  - by intros [? _]%elem_of_intersection.
  - by intros [? _]%elem_of_difference.
Qed.

(** The filter step, written out. *)
Lemma filter_endpoints_eq to_add existing action name E st :
  py_set existing = Ok E ->
  _filter_endpoints to_add existing action name st
  = match elements (delta action (list_to_set to_add) E) with
    | [] => (Return (APP_SUCCESS, None), short_circuited name action to_add st)
    | f => (Return (APP_SUCCESS, Some f), st)
    end.
Proof.
  intros HE. rewrite <- delta_eq.
  unfold _filter_endpoints, short_circuited, filter_message. rewrite HE.
  destruct (String.eqb action "REMOVE_FROM_LIST"); msimpl;
    by destruct (elements _).
Qed.

Lemma filter_endpoints_raises to_add existing action name e st :
  py_set existing = Raise e ->
  _filter_endpoints to_add existing action name st = (Throw e, st).
Proof.
  intros HE. unfold _filter_endpoints. rewrite HE.
  by destruct (String.eqb action "REMOVE_FROM_LIST").
Qed.

Lemma report_summary_eq requested filtered st :
  (let* _ := report_summary requested filtered in set_status true VNone) st
  = (Return APP_SUCCESS, reported requested filtered st).
Proof.
  unfold report_summary, reported, _handle_py_ver_compat_for_input_str. msimpl.
  rewrite !list_fmap_id.
  assert (forall (m : gmap string pyval) (k1 k2 : string) a b c d,
            k1 <> k2 ->
            <[k2 := d]> (<[k1 := c]> (<[k2 := b]> (<[k1 := a]> m)))
            = <[k2 := d]> (<[k1 := c]> m)) as Hins.
  { intros m k1 k2 a b c d Hne. apply map_eq. intros k.
    destruct (decide (k = k2)) as [->|]; [by rewrite !lookup_insert_eq|].
    destruct (decide (k = k1)) as [->|];
      repeat first [rewrite lookup_insert_eq | rewrite lookup_insert_ne by done];
      done. }
  unfold ret, with_action_result. msimpl. by rewrite Hins.
Qed.

Lemma good_summary_short_circuited name action requested st :
  good_summary requested (short_circuited name action requested st).
Proof.
  exists [], requested. unfold short_circuited. msimpl.
  rewrite lookup_insert_ne, !lookup_insert_eq by done.
  split; [done|]. split; [done|].
  by rewrite list_to_set_nil, (left_id_L ∅ (∪)).
Qed.

Lemma good_summary_reported requested filtered st :
  list_to_set filtered ⊆ (list_to_set requested : gset string) ->
  good_summary requested (reported requested filtered st).
Proof.
  intros Hsub.
  exists filtered, (elements (list_to_set requested
                              ∖ list_to_set (C := gset string) filtered)).
  unfold reported. msimpl.
  rewrite lookup_insert_ne, !lookup_insert_eq by done.
  split; [done|]. split; [done|].
  rewrite list_to_set_elements_L. apply set_eq. intros x.
  rewrite elem_of_union, elem_of_difference. split.
  - intros [Hf|[HR _]]; [by apply Hsub|done].
  - intros HR. destruct (decide (x ∈ (list_to_set filtered : gset string)));
      [by left|by right].
Qed.

Lemma to_write_delta to_add existing action name E st :
  py_set existing = Ok E ->
  exists w st',
    _filter_endpoints to_add existing action name st = (Return (APP_SUCCESS, w), st')
    /\ to_write w = delta action (list_to_set to_add) E.
Proof.
  intros HE. rewrite (filter_endpoints_eq _ _ _ _ E st HE).
  destruct (elements (delta action (list_to_set to_add) E)) as [|x f] eqn:Hel.
  - eexists _, _. split; [done|]. simpl.
    apply elements_empty_inv in Hel. by apply leibniz_equiv in Hel.
  - eexists _, _. split; [done|]. unfold to_write.
    by rewrite <- Hel, list_to_set_elements_L.
Qed.

(** What a returning filter step hands to the mutation. *)
Lemma filter_endpoints_cases to_add existing action name st rv w st1 :
  _filter_endpoints to_add existing action name st = (Return (rv, w), st1) ->
  rv = APP_SUCCESS
  /\ (w = None /\ good_summary to_add st1
      \/ exists f, w = Some f /\ st1 = st
                   /\ list_to_set f ⊆ (list_to_set to_add : gset string)).
Proof.
  destruct (py_set existing) as [E|e] eqn:HE.
  - rewrite (filter_endpoints_eq _ _ _ _ E st HE).
    destruct (elements (delta action (list_to_set to_add) E)) as [|x f] eqn:Hel;
      intros [= <- <- <-]; (split; [done|]).
    + left. split; [done|]. apply good_summary_short_circuited.
    + right. eexists. split; [done|]. split; [done|].
      rewrite <- Hel, list_to_set_elements_L. apply delta_subseteq.
  - by rewrite (filter_endpoints_raises _ _ _ _ e st HE).
Qed.

Lemma check_blocklist_cases fuel requested action st rv w st1 :
  _check_blocklist fuel requested action st = (Return (rv, w), st1) ->
  check_outcome requested rv w st1.
Proof.
  unfold _check_blocklist, bind at 1.
  destruct (_get_blocklist fuel st) as [[[rv0 resp]|e|] st0]; [|done..].
  destruct (is_fail rv0) eqn:Hrv0.
  { intros [= <- <- <-]. by left. }
  unfold bind at 1. destruct (py_get resp "blacklistUrls" (VList [])) as [bl|e];
    [|done]. msimpl.
  intros Hf. apply filter_endpoints_cases in Hf as [-> [[-> ?]|(f & -> & -> & ?)]].
  - right. by left.
  - right. right. split; [done|]. by exists f.
Qed.

Lemma check_allowlist_cases fuel requested action st rv w st1 :
  _check_allowlist fuel requested action st = (Return (rv, w), st1) ->
  check_outcome requested rv w st1.
Proof.
  unfold _check_allowlist, bind at 1.
  destruct (_get_allowlist fuel st) as [[[rv0 resp]|e|] st0]; [|done..].
  destruct (is_fail rv0) eqn:Hrv0.
  { intros [= <- <- <-]. by left. }
  unfold bind at 1. destruct (py_get resp "whitelistUrls" (VList [])) as [al|e];
    [|done]. msimpl.
  intros Hf. apply filter_endpoints_cases in Hf as [-> [[-> ?]|(f & -> & -> & ?)]].
  - right. by left.
  - right. right. split; [done|]. by exists f.
Qed.

Lemma check_category_cases fuel requested category action st rv w st1 :
  _check_category fuel requested category action st = (Return (rv, w), st1) ->
  check_outcome requested rv w st1.
Proof.
  unfold _check_category, bind at 1.
  destruct (_get_category fuel category st) as [[[rv0 resp]|e|] st0]; [|done..].
  destruct (is_fail rv0) eqn:Hrv0.
  { intros [= <- <- <-]. by left. }
  msimpl. unfold bind at 1.
  destruct (py_get resp "dbCategorizedUrls" (VList [])) as [urls|e]; [|done]. msimpl.
  intros Hf. apply filter_endpoints_cases in Hf as [-> [[-> ?]|(f & -> & -> & ?)]].
  - right. by left.
  - right. right. split; [done|]. by exists f.
Qed.

Lemma amend_blocklist_summary fuel requested action st v st' :
  _amend_blocklist fuel requested action st = (Return v, st') ->
  is_fail v = false -> good_summary requested st'.
Proof.
  unfold _amend_blocklist, bind at 1.
  destruct (_check_blocklist fuel requested action st) as [[[rv w]|e|] st1] eqn:Hcheck;
    [|done..].
  apply check_blocklist_cases in Hcheck
    as [[Hrv ->]|[(Hrv & -> & Hgood)|(Hrv & f & -> & Hsub)]]; rewrite Hrv.
  - intros [= <- <-]. congruence.
  - by intros [= <- <-].
  - unfold bind at 1.
    destruct (_make_rest_call_helper _ _ _ _ _ _ st1) as [[[rvw respw]|e|] st2];
      [|done..].
    unfold bind at 1. destruct (is_fail rvw) eqn:Hrvw; msimpl.
    + destruct (_response st2) as [r|]; [|done]. msimpl.
      destruct (status_code r =? 204)%Z; simpl.
      * rewrite report_summary_eq. intros [= <- <-] _.
        by apply good_summary_reported.
      * intros [= <- <-]. congruence.
    + rewrite report_summary_eq. intros [= <- <-] _. by apply good_summary_reported.
Qed.

Lemma good_summary_add_data requested v st :
  good_summary requested st ->
  good_summary requested
    (with_action_result (fun ar =>
       {| status := status ar; message := message ar; summary := summary ar;
          data := data ar ++ [v]; debug_data := debug_data ar |}) st).
Proof. done. Qed.

Lemma amend_allowlist_summary fuel requested action st v st' :
  _amend_allowlist fuel requested action st = (Return v, st') ->
  is_fail v = false -> good_summary requested st'.
Proof.
  unfold _amend_allowlist, bind at 1.
  destruct (_check_allowlist fuel requested action st) as [[[rv w]|e|] st1] eqn:Hcheck;
    [|done..].
  apply check_allowlist_cases in Hcheck
    as [[Hrv ->]|[(Hrv & -> & Hgood)|(Hrv & f & -> & Hsub)]]; rewrite Hrv.
  - intros [= <- <-]. congruence.
  - by intros [= <- <-].
  - msimpl. unfold bind at 1.
    destruct (merged_list (_allowlist st1) f action) as [merged|e]; [|done]. msimpl.
    unfold bind at 1.
    destruct (_make_rest_call_helper _ _ _ _ _ _ st1) as [[[rvw respw]|e|] st2];
      [|done..].
    destruct (is_fail rvw) eqn:Hrvw.
    + intros [= <- <-]. congruence.
    + unfold bind at 1, add_data, modify at 1. rewrite report_summary_eq.
      intros [= <- <-] _. by apply good_summary_reported.
Qed.

Lemma amend_category_summary fuel requested category action st v st' :
  _amend_category fuel requested category action st = (Return v, st') ->
  is_fail v = false -> good_summary requested st'.
Proof.
  unfold _amend_category, bind at 1.
  destruct (_check_category fuel requested category action st)
    as [[[rv w]|e|] st1] eqn:Hcheck; [|done..].
  apply check_category_cases in Hcheck
    as [[Hrv ->]|[(Hrv & -> & Hgood)|(Hrv & f & -> & Hsub)]]; rewrite Hrv.
  - intros [= <- <-]. congruence.
  - by intros [= <- <-].
  - msimpl. unfold bind at 1.
    destruct (py_get (_category st1) "dbCategorizedUrls" (VList [])) as [cur|e];
      [|done]. msimpl. unfold bind at 1.
    destruct (merged_list cur f action) as [merged|e]; [|done]. msimpl.
    destruct (_category st1) as [| | | | |d]; try done. msimpl.
    unfold bind at 1.
    destruct (py_subscript _ "id") as [id|e]; [|done]. msimpl.
    unfold bind at 1.
    destruct (_make_rest_call_helper _ _ _ _ _ _ _) as [[[rvw respw]|e|] st2];
      [|done..].
    destruct (is_fail rvw) eqn:Hrvw.
    + intros [= <- <-]. congruence.
    + unfold bind at 1, add_data, modify at 1. rewrite report_summary_eq.
      intros [= <- <-] _. by apply good_summary_reported.
Qed.

(** C2.  Seen as sets, the filter step keeps [R - E] of the requested
    endpoints [R] for ADD_TO_LIST and [R ∩ E] for REMOVE_FROM_LIST, [E] being
    the list the gateway holds; and whenever a block-list, allow-list or
    category mutation returns a status that is not a failure, the summary it
    reports has [set(updated) ∪ set(ignored) = set(R)]. *)
Theorem complementary_delta (R : list string) :
  (forall (E : list string) (name : string) (st : state),
     exists w_add st_add w_rem st_rem,
       _filter_endpoints R (str_list E) "ADD_TO_LIST" name st
       = (Return (APP_SUCCESS, w_add), st_add)
       /\ to_write w_add = list_to_set R ∖ list_to_set E
       /\ _filter_endpoints R (str_list E) "REMOVE_FROM_LIST" name st
          = (Return (APP_SUCCESS, w_rem), st_rem)
       /\ to_write w_rem = list_to_set R ∩ list_to_set E)
  /\ (forall (fuel : nat) (action : string) (st st' : state) (v : pyval),
        _amend_blocklist fuel R action st = (Return v, st')
        \/ _amend_allowlist fuel R action st = (Return v, st')
        \/ (exists category, _amend_category fuel R category action st = (Return v, st')) ->
        is_fail v = false ->
        good_summary R st').
Proof.
  split.
  - intros E name st.
    destruct (to_write_delta R (str_list E) "ADD_TO_LIST" name (list_to_set E) st
                (py_set_str_list E)) as (w_add & st_add & Hadd & Hwadd).
    destruct (to_write_delta R (str_list E) "REMOVE_FROM_LIST" name (list_to_set E) st
                (py_set_str_list E)) as (w_rem & st_rem & Hrem & Hwrem).
    by exists w_add, st_add, w_rem, st_rem.
  - intros fuel action st st' v [Hrun|[Hrun|[category Hrun]]] Hok.
    + by apply (amend_blocklist_summary fuel R action st v st').
    + by apply (amend_allowlist_summary fuel R action st v st').
    + by apply (amend_category_summary fuel R category action st v st').
Qed.

Lemma complementary_delta_witness :
  let R := ["a.com"; "b.com"] in
  let st := start "block_url" (blocklist_gateway ["b.com"; "c.com"]) in
  (exists w_add st_add w_rem st_rem,
     _filter_endpoints R (str_list ["b.com"; "c.com"]) "ADD_TO_LIST" "Blocklist" st
     = (Return (APP_SUCCESS, w_add), st_add)
     /\ to_write w_add = list_to_set R ∖ list_to_set ["b.com"; "c.com"]
     /\ _filter_endpoints R (str_list ["b.com"; "c.com"]) "REMOVE_FROM_LIST" "Blocklist" st
        = (Return (APP_SUCCESS, w_rem), st_rem)
     /\ to_write w_rem = list_to_set R ∩ list_to_set ["b.com"; "c.com"])
  /\ good_summary R (_amend_blocklist 2 R "ADD_TO_LIST" st).2
  /\ good_summary R
       (_amend_allowlist 1 R "REMOVE_FROM_LIST"
          (start "unallow_url" allowlist_gateway_ok)).2
  /\ good_summary R
       (_amend_category 1 R "Phishing" "ADD_TO_LIST"
          (start "block_url" category_gateway)).2.
Proof.
  intros R st. destruct (complementary_delta R) as [Hfilter Hsummary].
  split; [apply Hfilter|]. split; [|split].
  - apply (Hsummary 2 "ADD_TO_LIST" st (_amend_blocklist 2 R "ADD_TO_LIST" st).2
             APP_SUCCESS).
    + left. vm_compute. reflexivity.
    + reflexivity.
  - apply (Hsummary 1 "REMOVE_FROM_LIST" (start "unallow_url" allowlist_gateway_ok)
             (_amend_allowlist 1 R "REMOVE_FROM_LIST"
                (start "unallow_url" allowlist_gateway_ok)).2 APP_SUCCESS).
    + right. left. vm_compute. reflexivity.
    + reflexivity.
  - apply (Hsummary 1 "ADD_TO_LIST" (start "block_url" category_gateway)
             (_amend_category 1 R "Phishing" "ADD_TO_LIST"
                (start "block_url" category_gateway)).2 APP_SUCCESS).
    + right. right. exists "Phishing". vm_compute. reflexivity.
    + reflexivity.
Defined.

Example amend_blocklist_run :
  let st := start "block_url" (blocklist_gateway ["b.com"; "c.com"]) in
  let run := _amend_blocklist 2 ["a.com"; "b.com"] "ADD_TO_LIST" st in
  run.1 = Return APP_SUCCESS
  /\ summary (action_result run.2) !! "updated" = Some (str_list ["a.com"])
  /\ summary (action_result run.2) !! "ignored" = Some (str_list ["b.com"])
  /\ (fun ev => match ev with Call rq => Some (method rq, body rq) | Sleep _ => None end)
     <$> trace run.2
     = [Some ("post", VDict [("blacklistUrls", str_list ["a.com"])]);
        Some ("get", VNone)].
Proof. vm_compute. done. Qed.

Lemma nothing_to_write_delta action requested E :
  nothing_to_write action requested E ->
  elements (delta action (list_to_set requested) E) = [].
Proof.
  intros Hempty.
  assert (delta action (list_to_set requested) E = ∅) as ->; [|apply elements_empty].
  unfold delta. destruct Hempty as [[-> Hsub]|[-> Hdisj]]; simpl; [|done].
  apply set_eq. intros x. rewrite elem_of_difference.
  split; [|by intros ?%not_elem_of_empty]. intros [? ?]. exfalso. auto.
Qed.

Lemma short_circuited_facts name action requested st :
  status (action_result (short_circuited name action requested st)) = true
  /\ summary (action_result (short_circuited name action requested st)) !! "updated"
     = Some (str_list [])
  /\ summary (action_result (short_circuited name action requested st)) !! "ignored"
     = Some (str_list requested).
Proof.
  unfold short_circuited. msimpl.
  by rewrite lookup_insert_ne, !lookup_insert_eq.
Qed.

Lemma emits_get_category P fuel category :
  (forall rq, method rq = "get" -> P (Call rq)) -> (forall n, P (Sleep n)) ->
  emits P (_get_category fuel category).
Proof. intros HP Hsleep. unfold _get_category. emits_auto. Qed.

Lemma reads_only {A} (m : M A) st o st1 :
  emits read_or_sleep m -> m st = (o, st1) ->
  exists evs, trace st1 = evs ++ trace st /\ Forall read_or_sleep evs.
Proof. intros Hm Hrun. specialize (Hm st). by rewrite Hrun in Hm. Qed.

Lemma amend_blocklist_short_circuit fuel R action st rv resp st1 existing E :
  _get_blocklist fuel st = (Return (rv, resp), st1) ->
  is_fail rv = false ->
  py_get resp "blacklistUrls" (VList []) = Ok existing ->
  py_set existing = Ok E ->
  nothing_to_write action R E ->
  _amend_blocklist fuel R action st
  = (Return APP_SUCCESS, short_circuited "Blocklist" action R st1).
Proof.
  intros Hget Hok Hfield HE Hempty.
  unfold _amend_blocklist, _check_blocklist, bind at 1 2. rewrite Hget, Hok.
  unfold bind at 1. rewrite Hfield. msimpl.
  by rewrite (filter_endpoints_eq _ _ _ _ E _ HE), nothing_to_write_delta.
Qed.

Lemma amend_allowlist_short_circuit fuel R action st rv resp st1 existing E :
  _get_allowlist fuel st = (Return (rv, resp), st1) ->
  is_fail rv = false ->
  py_get resp "whitelistUrls" (VList []) = Ok existing ->
  py_set existing = Ok E ->
  nothing_to_write action R E ->
  _amend_allowlist fuel R action st
  = (Return APP_SUCCESS,
     short_circuited "Allowlist" action R (set_allowlist existing st1)).
Proof.
  intros Hget Hok Hfield HE Hempty.
  unfold _amend_allowlist, _check_allowlist, bind at 1 2. rewrite Hget, Hok.
  unfold bind at 1. rewrite Hfield. msimpl.
  by rewrite (filter_endpoints_eq _ _ _ _ E _ HE), nothing_to_write_delta.
Qed.

Lemma amend_category_short_circuit fuel R category action st rv cat st1 existing E :
  _get_category fuel category st = (Return (rv, cat), st1) ->
  is_fail rv = false ->
  py_get cat "dbCategorizedUrls" (VList []) = Ok existing ->
  py_set existing = Ok E ->
  nothing_to_write action R E ->
  _amend_category fuel R category action st
  = (Return APP_SUCCESS, short_circuited "Category" action R (set_category cat st1)).
Proof.
  intros Hget Hok Hfield HE Hempty.
  unfold _amend_category, _check_category, bind at 1 2. rewrite Hget, Hok.
  msimpl. unfold bind at 1. rewrite Hfield. msimpl.
  by rewrite (filter_endpoints_eq _ _ _ _ E _ HE), nothing_to_write_delta.
Qed.

(** *** A gateway that applies the writes *)

Lemma get_blocklist_served E0 fuel st :
  gateway st = blocklist_gateway E0 ->
  exists ar,
    _get_blocklist (S fuel) st
    = (Return (APP_SUCCESS,
               VDict [("blacklistUrls", str_list (blocklist_after E0 (trace st)))]),
       answered (request_of st "/api/v1/security/advanced" [] [] VNone "get")
         (json_response 200
            (VDict [("blacklistUrls", str_list (blocklist_after E0 (trace st)))]))
         ar st).
Proof.
  intros Hgw. unfold _get_blocklist.
  set (rq := request_of st "/api/v1/security/advanced" [] [] VNone "get").
  set (r := json_response 200
              (VDict [("blacklistUrls", str_list (blocklist_after E0 (trace st)))])).
  assert (gateway st (trace st) rq = Responded r) as Hans by (by rewrite Hgw).
  destruct (helper_returns fuel "/api/v1/security/advanced" [] [] VNone "get" st r)
    as (v & p & ar & Hrun & Hproc); [repeat constructor|done|done|done|].
  destruct (process_response_json_success r
              (VDict [("blacklistUrls", str_list (blocklist_after E0 (trace st)))])
              (set_response r (log_event (Call rq) st)))
    as (ar' & Hproc'); [done|done|done|].
  fold rq in Hproc, Hrun. rewrite Hproc' in Hproc. injection Hproc as <- <- _.
  exists ar. exact Hrun.
Qed.

Lemma post_blocklist_no_content E0 fuel params data st :
  gateway st = blocklist_gateway E0 ->
  exists ar,
    _make_rest_call_helper (S fuel) "/api/v1/security/advanced/blacklistUrls"
      [] params data "post" st
    = (Return (APP_ERROR, VNone),
       answered (request_of st "/api/v1/security/advanced/blacklistUrls"
                   [] params data "post") no_content ar st).
Proof.
  intros Hgw.
  set (rq := request_of st "/api/v1/security/advanced/blacklistUrls"
               [] params data "post").
  assert (gateway st (trace st) rq = Responded no_content) as Hans by (by rewrite Hgw).
  destruct (helper_returns fuel "/api/v1/security/advanced/blacklistUrls"
              [] params data "post" st no_content)
    as (v & p & ar & Hrun & Hproc); [repeat constructor|done|done|done|].
  destruct (process_response_json_garbled no_content
              ["Expecting value: line 1 column 1 (char 0)"]
              (set_response no_content (log_event (Call rq) st)))
    as (ar' & Hproc'); [done|done|].
  fold rq in Hproc, Hrun. rewrite Hproc' in Hproc. injection Hproc as <- <- _.
  exists ar. exact Hrun.
Qed.

(** An addition against that gateway: either nothing is missing and the
    mutation short-circuits after its read, or the missing endpoints are
    posted and the 204 answer counts as success. *)
Lemma amend_blocklist_served E0 fuel R st :
  gateway st = blocklist_gateway E0 ->
  let current := blocklist_after E0 (trace st) in
  let missing := elements (list_to_set R ∖ list_to_set (C := gset string) current) in
  let run := _amend_blocklist (S fuel) R "ADD_TO_LIST" st in
  run.1 = Return APP_SUCCESS
  /\ gateway run.2 = blocklist_gateway E0
  /\ (missing = [] /\ short_circuits R st run
         /\ blocklist_after E0 (trace run.2) = current
      \/ missing <> [] /\ blocklist_after E0 (trace run.2) = current ++ missing).
Proof.
  intros Hgw current missing run.
  destruct (get_blocklist_served E0 fuel st Hgw) as (ar & Hget).
  fold current in Hget.
  destruct missing as [|x f] eqn:Hmissing.
  - assert (run = (Return APP_SUCCESS,
                   short_circuited "Blocklist" "ADD_TO_LIST" R
                     (answered (request_of st "/api/v1/security/advanced" [] [] VNone "get")
                        (json_response 200 (VDict [("blacklistUrls", str_list current)]))
                        ar st))) as ->.
    { apply (amend_blocklist_short_circuit (S fuel) R "ADD_TO_LIST" st _ _ _
               (str_list current) (list_to_set current) Hget);
        [done|done|apply py_set_str_list|].
      left. split; [done|].
      apply elements_empty_inv, leibniz_equiv in Hmissing.
      intros y Hy. destruct (decide (y ∈ (list_to_set current : gset string)));
        [done|]. exfalso.
      apply (not_elem_of_empty (C := gset string) y). rewrite <- Hmissing.
      by apply elem_of_difference. }
    split; [done|]. split; [done|]. left. split; [done|]. split; [|done].
    destruct (short_circuited_facts "Blocklist" "ADD_TO_LIST" R
                (answered (request_of st "/api/v1/security/advanced" [] [] VNone "get")
                   (json_response 200 (VDict [("blacklistUrls", str_list current)]))
                   ar st)) as (Hst & Hup & Hig).
    split; [done|]. split; [done|]. split; [done|]. split; [done|].
    exists [Call (request_of st "/api/v1/security/advanced" [] [] VNone "get")].
    split; [done|]. by repeat constructor.
  - set (st1 := answered (request_of st "/api/v1/security/advanced" [] [] VNone "get")
                  (json_response 200 (VDict [("blacklistUrls", str_list current)]))
                  ar st) in *.
    destruct (post_blocklist_no_content E0 fuel [("action", "ADD_TO_LIST")]
                (VDict [("blacklistUrls", str_list (x :: f))]) st1 Hgw)
      as (ar' & Hpost).
    assert (run = (Return APP_SUCCESS,
                   reported R (x :: f)
                     (answered (request_of st1 "/api/v1/security/advanced/blacklistUrls"
                                  [] [("action", "ADD_TO_LIST")]
                                  (VDict [("blacklistUrls", str_list (x :: f))]) "post")
                        no_content ar' st1))) as ->.
    { unfold run, _amend_blocklist, _check_blocklist, bind at 1 2. rewrite Hget.
      change (is_fail APP_SUCCESS) with false. cbn iota.
      unfold bind at 1. cbn [py_get dict_get String.eqb Ascii.eqb Bool.eqb from_option id lift].
      msimpl.
      rewrite (filter_endpoints_eq _ _ _ _ (list_to_set current) _ (py_set_str_list current)).
      change (delta "ADD_TO_LIST" (list_to_set R) (list_to_set current))
        with (list_to_set R ∖ list_to_set (C := gset string) current).
      fold missing. rewrite Hmissing. change (is_fail APP_SUCCESS) with false. cbn iota.
      unfold bind at 1. rewrite Hpost.
      change (is_fail APP_ERROR) with true. unfold answered at 1 2. msimpl.
      change (status_code no_content =? 204)%Z with true. cbn [negb].
      by rewrite report_summary_eq. }
    split; [done|]. split; [done|]. right. split; [done|].
    unfold reported, answered, st1, request_of, str_list. msimpl.
    cbn [blocklist_after method body params dict_get]. eval_closed. cbn iota.
    rewrite bool_decide_eq_false_2 by done.
    by rewrite strings_of_str_list.
Qed.

Lemma blocklist_addition_idempotent E0 fuel R st :
  gateway st = blocklist_gateway E0 ->
  let run1 := _amend_blocklist (S fuel) R "ADD_TO_LIST" st in
  let run2 := _amend_blocklist (S fuel) R "ADD_TO_LIST" run1.2 in
  run1.1 = Return APP_SUCCESS /\ short_circuits R run1.2 run2.
Proof.
  intros Hgw run1 run2.
  destruct (amend_blocklist_served E0 fuel R st Hgw) as (Hok1 & Hgw1 & Hcases).
  fold run1 in Hok1, Hgw1, Hcases. split; [done|].
  destruct (amend_blocklist_served E0 fuel R run1.2 Hgw1) as (Hok2 & Hgw2 & Hcases2).
  fold run2 in Hok2, Hgw2, Hcases2.
  destruct Hcases2 as [(_ & Hshort & _)|(Hmissing & _)]; [done|].
  exfalso. apply Hmissing.
  assert (list_to_set R ∖ list_to_set (C := gset string) (blocklist_after E0 (trace run1.2))
          = ∅) as ->; [|apply elements_empty].
  destruct Hcases as [(Hnone & _ & ->)|(_ & ->)].
  - by apply elements_empty_inv, leibniz_equiv in Hnone.
  - apply set_eq. intros y.
    rewrite elem_of_difference, list_to_set_app_L, elem_of_union,
      list_to_set_elements_L, elem_of_difference.
    split; [|by intros ?%not_elem_of_empty]. intros [HR Hnot]. exfalso.
    destruct (decide (y ∈ (list_to_set (blocklist_after E0 (trace st)) : gset string)));
      tauto.
Qed.

Lemma short_circuits_after {A} (fetch : M A) requested name action st o st1 st2 :
  emits read_or_sleep fetch -> fetch st = (o, st1) ->
  trace st2 = trace st1 ->
  short_circuits requested st
    (Return APP_SUCCESS, short_circuited name action requested st2).
Proof.
  intros Hfetch Hrun Htrace.
  destruct (short_circuited_facts name action requested st2) as (Hst & Hup & Hig).
  split; [done|]. split; [done|]. split; [done|]. split; [done|].
  destruct (reads_only fetch st o st1 Hfetch Hrun) as (evs & Hevs & Hreads).
  exists evs. split; [|done]. rewrite <- Hevs. exact Htrace.
Qed.

(** C3.  When the computed delta is empty (an addition whose endpoints are
    all present, a removal whose endpoints are all absent), the block-list,
    allow-list and category mutations short-circuit: success, [updated = []],
    [ignored] the requested list, and no network event but the reads of the
    fetch.  Hence, against a gateway that applies the writes it receives,
    adding the same endpoints a second time updates nothing and writes
    nothing. *)
Theorem short_circuit_when_nothing_to_write :
  (forall fuel R action st st1 rv fetched existing E,
     _get_blocklist fuel st = (Return (rv, fetched), st1) ->
     is_fail rv = false ->
     py_get fetched "blacklistUrls" (VList []) = Ok existing ->
     py_set existing = Ok E ->
     nothing_to_write action R E ->
     short_circuits R st (_amend_blocklist fuel R action st))
  /\ (forall fuel R action st st1 rv fetched existing E,
        _get_allowlist fuel st = (Return (rv, fetched), st1) ->
        is_fail rv = false ->
        py_get fetched "whitelistUrls" (VList []) = Ok existing ->
        py_set existing = Ok E ->
        nothing_to_write action R E ->
        short_circuits R st (_amend_allowlist fuel R action st))
  /\ (forall fuel R category action st st1 rv fetched existing E,
        _get_category fuel category st = (Return (rv, fetched), st1) ->
        is_fail rv = false ->
        py_get fetched "dbCategorizedUrls" (VList []) = Ok existing ->
        py_set existing = Ok E ->
        nothing_to_write action R E ->
        short_circuits R st (_amend_category fuel R category action st))
  /\ (forall E0 fuel R st,
        gateway st = blocklist_gateway E0 ->
        let first := _amend_blocklist (S fuel) R "ADD_TO_LIST" st in
        let second := _amend_blocklist (S fuel) R "ADD_TO_LIST" first.2 in
        first.1 = Return APP_SUCCESS /\ short_circuits R first.2 second).
Proof.
  split; [|split; [|split]].
  - intros fuel R action st st1 rv fetched existing E Hget Hok Hfield HE Hempty.
    rewrite (amend_blocklist_short_circuit fuel R action st rv fetched st1 existing E)
      by done.
    eapply (short_circuits_after (_get_blocklist fuel));
      [|exact Hget|reflexivity].
    unfold _get_blocklist. by apply emits_make_rest_call_helper.
  - intros fuel R action st st1 rv fetched existing E Hget Hok Hfield HE Hempty.
    rewrite (amend_allowlist_short_circuit fuel R action st rv fetched st1 existing E)
      by done.
    eapply (short_circuits_after (_get_allowlist fuel));
      [|exact Hget|reflexivity].
    unfold _get_allowlist. by apply emits_make_rest_call_helper.
  - intros fuel R category action st st1 rv fetched existing E Hget Hok Hfield HE Hempty.
    rewrite (amend_category_short_circuit fuel R category action st rv fetched st1
               existing E) by done.
    eapply (short_circuits_after (_get_category fuel category));
      [|exact Hget|reflexivity].
    by apply emits_get_category.
  - intros E0 fuel R st Hgw. by apply (blocklist_addition_idempotent E0).
Qed.

Lemma short_circuit_witness :
  let st := start "block_url" (blocklist_gateway ["a.com"; "b.com"]) in
  let st_allow := start "unallow_url" allowlist_gateway in
  let st_cat := start "block_url" category_gateway in
  short_circuits ["a.com"] st (_amend_blocklist 1 ["a.com"] "ADD_TO_LIST" st)
  /\ short_circuits ["a.com"] st_allow
       (_amend_allowlist 1 ["a.com"] "REMOVE_FROM_LIST" st_allow)
  /\ short_circuits ["bad.example"] st_cat
       (_amend_category 1 ["bad.example"] "Phishing" "ADD_TO_LIST" st_cat)
  /\ (let fresh := start "block_url" (blocklist_gateway []) in
      let first := _amend_blocklist 1 ["a.com"; "b.com"] "ADD_TO_LIST" fresh in
      let second := _amend_blocklist 1 ["a.com"; "b.com"] "ADD_TO_LIST" first.2 in
      first.1 = Return APP_SUCCESS /\ short_circuits ["a.com"; "b.com"] first.2 second).
Proof.
  intros st st_allow st_cat.
  destruct short_circuit_when_nothing_to_write as (Hblock & Hallow & Hcat & Htwice).
  split; [|split; [|split]].
  - apply (Hblock 1 ["a.com"] "ADD_TO_LIST" st (_get_blocklist 1 st).2 APP_SUCCESS
             (VDict [("blacklistUrls", str_list ["a.com"; "b.com"])])
             (str_list ["a.com"; "b.com"]) (list_to_set ["a.com"; "b.com"])).
    + vm_compute. reflexivity.
    + reflexivity.
    + reflexivity.
    + apply py_set_str_list.
    + left. split; [reflexivity|].
      apply (bool_decide_eq_true_1 _). vm_compute. reflexivity.
  - apply (Hallow 1 ["a.com"] "REMOVE_FROM_LIST" st_allow (_get_allowlist 1 st_allow).2
             APP_SUCCESS (VDict [("whitelistUrls", str_list [])])
             (str_list []) (list_to_set [])).
    + vm_compute. reflexivity.
    + reflexivity.
    + reflexivity.
    + apply py_set_str_list.
    + right. split; [reflexivity|].
      apply (bool_decide_eq_true_1 _). vm_compute. reflexivity.
  - apply (Hcat 1 ["bad.example"] "Phishing" "ADD_TO_LIST" st_cat
             (_get_category 1 "Phishing" st_cat).2 APP_SUCCESS
             (VDict [("id", VStr "CUSTOM_01"); ("configuredName", VStr "Phishing");
                     ("dbCategorizedUrls", str_list ["bad.example"])])
             (str_list ["bad.example"]) (list_to_set ["bad.example"])).
    + vm_compute. reflexivity.
    + reflexivity.
    + reflexivity.
    + apply py_set_str_list.
    + left. split; [reflexivity|].
      apply (bool_decide_eq_true_1 _). vm_compute. reflexivity.
  - apply (Htwice [] 0 ["a.com"; "b.com"] (start "block_url" (blocklist_gateway []))).
    reflexivity.
Defined.

Example add_twice :
  let fresh := start "block_url" (blocklist_gateway []) in
  let first := _block_endpoint 1 "http://a.com, https://b.com" None fresh in
  let second := _block_endpoint 1 "http://a.com, https://b.com" None first.2 in
  summary (action_result first.2) !! "updated" = Some (str_list ["a.com"; "b.com"])
  /\ summary (action_result first.2) !! "ignored" = Some (str_list [])
  /\ summary (action_result second.2) !! "updated" = Some (str_list [])
  /\ summary (action_result second.2) !! "ignored" = Some (str_list ["a.com"; "b.com"])
  /\ (fun ev => match ev with Call rq => Some (method rq) | Sleep _ => None end)
     <$> trace second.2
     = [Some "get"; Some "post"; Some "get"].
Proof. vm_compute. done. Qed.

(** C5 (amended).  In the block-list mutation, a write that is classified
    as a failure while the response the connector holds has status 204 ends
    in success with the summary computed from the filter ([updated] the
    filtered endpoints, [ignored] the rest of the request); with any other
    status the failure is returned to the caller.  The allow-list and
    category mutations have no such exemption: they return every write
    failure, whatever the status. *)
Theorem write_failure_and_204 :
  (forall fuel R action st st1 st2 rv f rvw respw r,
     _check_blocklist fuel R action st = (Return (rv, Some f), st1) ->
     is_fail rv = false ->
     _make_rest_call_helper fuel "/api/v1/security/advanced/blacklistUrls" []
       [("action", action)] (VDict [("blacklistUrls", str_list f)]) "post" st1
     = (Return (rvw, respw), st2) ->
     is_fail rvw = true ->
     _response st2 = Some r ->
     _amend_blocklist fuel R action st
     = if (status_code r =? 204)%Z
       then (Return APP_SUCCESS, reported R f st2)
       else (Return rvw, st2))
  /\ (forall fuel R action st st1 st2 rv f merged rvw respw,
        _check_allowlist fuel R action st = (Return (rv, Some f), st1) ->
        is_fail rv = false ->
        merged_list (_allowlist st1) f action = Ok merged ->
        _make_rest_call_helper fuel "/api/v1/security" [] []
          (VDict [("whitelistUrls", str_list merged)]) "put" st1
        = (Return (rvw, respw), st2) ->
        is_fail rvw = true ->
        _amend_allowlist fuel R action st = (Return rvw, st2))
  /\ (forall fuel R category action st st1 st2 rv f d current merged id rvw respw,
        _check_category fuel R category action st = (Return (rv, Some f), st1) ->
        is_fail rv = false ->
        _category st1 = VDict d ->
        py_get (VDict d) "dbCategorizedUrls" (VList []) = Ok current ->
        merged_list current f action = Ok merged ->
        py_subscript (VDict (dict_set d "dbCategorizedUrls" (str_list merged))) "id"
        = Ok id ->
        _make_rest_call_helper fuel ("/api/v1/urlCategories/" +:+ py_format id) [] []
          (VDict (dict_set d "dbCategorizedUrls" (str_list merged))) "put"
          (set_category (VDict (dict_set d "dbCategorizedUrls" (str_list merged))) st1)
        = (Return (rvw, respw), st2) ->
        is_fail rvw = true ->
        _amend_category fuel R category action st = (Return rvw, st2)).
Proof.
  split; [|split].
  - intros fuel R action st st1 st2 rv f rvw respw r Hcheck Hok Hwrite Hfail Hresp.
    unfold _amend_blocklist, bind at 1. rewrite Hcheck, Hok.
    unfold bind at 1. rewrite Hwrite. unfold bind at 1. rewrite Hfail. msimpl.
    rewrite Hresp. msimpl.
    destruct (status_code r =? 204)%Z; simpl; [|done].
    by rewrite report_summary_eq.
  - intros fuel R action st st1 st2 rv f merged rvw respw Hcheck Hok Hmerged Hwrite Hfail.
    unfold _amend_allowlist, bind at 1. rewrite Hcheck, Hok. msimpl.
    rewrite Hmerged. msimpl. unfold bind at 1. by rewrite Hwrite, Hfail.
  - intros fuel R category action st st1 st2 rv f d current merged id rvw respw
      Hcheck Hok Hcat Hcurrent Hmerged Hid Hwrite Hfail.
    unfold _amend_category, bind at 1. rewrite Hcheck, Hok. msimpl.
    rewrite Hcat, Hcurrent. msimpl. rewrite Hmerged. msimpl. rewrite Hid. msimpl.
    unfold bind at 1. by rewrite Hwrite, Hfail.
Qed.

Lemma write_failure_and_204_witness :
  let st := start "block_url" (blocklist_gateway []) in
  let run := _amend_blocklist 1 ["a.com"] "ADD_TO_LIST" st in
  (run.1 = Return APP_SUCCESS
   /\ (status_code <$> _response run.2) = Some 204%Z
   /\ summary (action_result run.2) !! "updated" = Some (str_list ["a.com"])
   /\ summary (action_result run.2) !! "ignored" = Some (str_list []))
  /\ (_amend_allowlist 1 ["a.com"] "ADD_TO_LIST" (start "allow_url" allowlist_gateway)).1
     = Return APP_ERROR
  /\ (_amend_category 1 ["a.com"] "Phishing" "ADD_TO_LIST"
        (start "block_url" category_gateway_204)).1
     = Return APP_ERROR.
Proof.
  intros st run.
  destruct write_failure_and_204 as (Hblock & Hallow & Hcat).
  split; [|split].
  - set (st1 := (_check_blocklist 1 ["a.com"] "ADD_TO_LIST" st).2).
    set (st2 := (_make_rest_call_helper 1 "/api/v1/security/advanced/blacklistUrls" []
                   [("action", "ADD_TO_LIST")]
                   (VDict [("blacklistUrls", str_list ["a.com"])]) "post" st1).2).
    pose proof (Hblock 1 ["a.com"] "ADD_TO_LIST" st st1 st2
                  APP_SUCCESS ["a.com"] APP_ERROR VNone no_content) as Hrun.
    unfold run. rewrite Hrun.
    + vm_compute. repeat split.
    + vm_compute. reflexivity.
    + reflexivity.
    + vm_compute. reflexivity.
    + reflexivity.
    + vm_compute. reflexivity.
  - set (sta := start "allow_url" allowlist_gateway).
    set (st1 := (_check_allowlist 1 ["a.com"] "ADD_TO_LIST" sta).2).
    set (st2 := (_make_rest_call_helper 1 "/api/v1/security" [] []
                   (VDict [("whitelistUrls", str_list ["a.com"])]) "put" st1).2).
    rewrite (Hallow 1 ["a.com"] "ADD_TO_LIST" sta st1 st2
               APP_SUCCESS ["a.com"] ["a.com"] APP_ERROR VNone).
    + reflexivity.
    + vm_compute. reflexivity.
    + reflexivity.
    + vm_compute. reflexivity.
    + vm_compute. reflexivity.
    + reflexivity.
  - set (stc := start "block_url" category_gateway_204).
    set (st1 := (_check_category 1 ["a.com"] "Phishing" "ADD_TO_LIST" stc).2).
    set (d := [("id", VStr "CUSTOM_01"); ("configuredName", VStr "Phishing");
               ("dbCategorizedUrls", str_list ["bad.example"])]).
    set (merged := elements (list_to_set ["bad.example"; "a.com"] : gset string)).
    set (st2 := (_make_rest_call_helper 1 "/api/v1/urlCategories/CUSTOM_01" [] []
                   (VDict (dict_set d "dbCategorizedUrls" (str_list merged))) "put"
                   (set_category
                      (VDict (dict_set d "dbCategorizedUrls" (str_list merged))) st1)).2).
    rewrite (Hcat 1 ["a.com"] "Phishing" "ADD_TO_LIST" stc st1 st2
               APP_SUCCESS ["a.com"] d (str_list ["bad.example"]) merged
               (VStr "CUSTOM_01") APP_ERROR VNone).
    + reflexivity.
    + vm_compute. reflexivity.
    + reflexivity.
    + vm_compute. reflexivity.
    + reflexivity.
    + vm_compute. reflexivity.
    + reflexivity.
    + vm_compute. reflexivity.
    + reflexivity.
Defined.

(** C5 as first stated fails for the allow list and for categories: a write
    answered with 204 and classified as a failure is returned as a failure,
    and no summary is reported. *)
Lemma write_204_surfaced_outside_blocklist :
  let allow := _amend_allowlist 1 ["a.com"] "ADD_TO_LIST"
                 (start "allow_url" allowlist_gateway) in
  let categ := _amend_category 1 ["a.com"] "Phishing" "ADD_TO_LIST"
                 (start "block_url" category_gateway_204) in
  (allow.1 = Return APP_ERROR
   /\ (status_code <$> _response allow.2) = Some 204%Z
   /\ status (action_result allow.2) = false
   /\ summary (action_result allow.2) = ∅
   /\ (fun ev => match ev with Call rq => Some (method rq) | Sleep _ => None end)
      <$> trace allow.2 = [Some "put"; Some "get"])
  /\ (categ.1 = Return APP_ERROR
      /\ (status_code <$> _response categ.2) = Some 204%Z
      /\ status (action_result categ.2) = false
      /\ summary (action_result categ.2) = ∅
      /\ (fun ev => match ev with Call rq => Some (method rq) | Sleep _ => None end)
         <$> trace categ.2 = [Some "put"; Some "get"]).
Proof. vm_compute. repeat split. Qed.

End Mutation.

(** ** The classifier, case by case *)

Section Classification.
Local Open Scope Z_scope.

Lemma prefix_refl (s : string) : String.prefix s s = true.
Proof.
  induction s as [|c s IH]; [done|]. simpl.
  destruct (ascii_dec c c); [done|congruence].
Qed.

Lemma prefix_append (a b : string) : String.prefix a (a +:+ b) = true.
Proof.
  induction a as [|c a IH]; [by destruct b|]. rewrite append_cons. simpl.
  destruct (ascii_dec c c); [done|congruence].
Qed.

Lemma contains_refl (s : string) : Py.contains s s = true.
Proof.
  destruct s as [|c s]; [done|]. cbn [Py.contains]. by rewrite prefix_refl.
Qed.

(** The shape of every classification. *)
Lemma process_response_shape (r : response) (st : state) :
  exists v p st',
    _process_response r st = (Return (v, p), st')
    /\ same_connector st st'
    /\ summary (action_result st') = summary (action_result st)
    /\ data (action_result st') = data (action_result st)
    /\ (v = APP_SUCCESS /\ 200 <= status_code r < 399
        /\ status (action_result st') = status (action_result st)
        /\ message (action_result st') = message (action_result st)
        \/ v = APP_ERROR /\ p = VNone /\ status (action_result st') = false).
Proof.
  unfold _process_response. msimpl.
  destruct (Py.contains "json" (content_type r)).
  { unfold _process_json_response. destruct (json r) as [args|resp_json].
    - msimpl. eexists _, _, _. split; [reflexivity|]. msimpl.
      split; [by repeat split|]. split; [done|]. split; [done|]. by right.
    - destruct (Z.leb_spec 200 (status_code r)), (Z.ltb_spec (status_code r) 399);
        msimpl; eexists _, _, _; (split; [reflexivity|]); msimpl;
        (split; [by repeat split|]); (split; [done|]); (split; [done|]);
        first [left; repeat split; (done || lia) | by right]. }
  destruct (Py.contains "html" (content_type r)).
  { rewrite process_html_response. msimpl. eexists _, _, _.
    split; [reflexivity|]. msimpl.
    split; [by repeat split|]. split; [done|]. split; [done|]. by right. }
  destruct (String.eqb (text r) "").
  { unfold _process_empty_reponse.
    destruct (Z.eqb_spec (status_code r) 200), (Z.eqb_spec (status_code r) 204);
      msimpl; eexists _, _, _; (split; [reflexivity|]); msimpl;
      (split; [by repeat split|]); (split; [done|]); (split; [done|]);
      first [left; repeat split; (done || lia) | by right]. }
  msimpl. eexists _, _, _. split; [reflexivity|]. msimpl.
  split; [by repeat split|]. split; [done|]. split; [done|]. by right.
Qed.

(** X1.  Every response is classified, and the classifier works on the
    action result alone: no request is sent and no field of the connector
    changes.  A success needs a status code from 200 to 398 and leaves the
    status, message, summary and data of the action result as they were; a
    failure carries no payload and records the error status; the summary
    and the data are never touched. *)
Theorem classification_by_status (r : response) (st : state) :
  let run := _process_response r st in
  (exists v p, run.1 = Return (v, p)
     /\ (v = APP_SUCCESS /\ 200 <= status_code r < 399
         /\ status (action_result run.2) = status (action_result st)
         /\ message (action_result run.2) = message (action_result st)
         \/ v = APP_ERROR /\ p = VNone /\ status (action_result run.2) = false))
  /\ same_connector st run.2
  /\ summary (action_result run.2) = summary (action_result st)
  /\ data (action_result run.2) = data (action_result st).
Proof.
  intros run. subst run.
  destruct (process_response_shape r st) as (v & p & st' & -> & Hsame & Hsum & Hdata & Hv).
  split; [by exists v, p|]. split; [exact Hsame|]. split; [exact Hsum|exact Hdata].
Qed.

(** X2.  A response whose Content-Type names neither JSON nor HTML is a
    success only when its body is empty and its status code is 200 or 204,
    the payload being an empty object.  With an empty body and another
    status code the message is "Empty response and no information in the
    header"; with a body it is an error whatever the status code, 200
    included, and the message quotes the status code and the body with its
    braces doubled. *)
Theorem unclassified_content (r : response) (st : state) :
  Py.contains "json" (content_type r) = false ->
  Py.contains "html" (content_type r) = false ->
  exists st',
    _process_response r st
    = (Return (if String.eqb (text r) ""
                  && ((status_code r =? 200) || (status_code r =? 204))
               then (APP_SUCCESS, VDict []) else (APP_ERROR, VNone)), st')
    /\ (text r = "" -> status_code r <> 200 -> status_code r <> 204 ->
        message (action_result st')
        = VStr "Empty response and no information in the header")
    /\ (text r <> "" ->
        message (action_result st')
        = VStr ("Can't process response from server. Status Code: "
                +:+ Py.str (status_code r) +:+ " Data from server: "
                +:+ escape_braces (text r))).
Proof.
  intros Hjson Hhtml. unfold _process_response. msimpl. rewrite Hjson, Hhtml.
  destruct (String.eqb_spec (text r) "") as [Htext|Htext].
  - unfold _process_empty_reponse.
    destruct (Z.eqb_spec (status_code r) 200), (Z.eqb_spec (status_code r) 204);
      msimpl; eexists; (split; [reflexivity|]); msimpl; split; done.
  - msimpl. eexists. split; [reflexivity|]. msimpl. split; done.
Qed.

Lemma unclassified_content_witness :
  let r := {| status_code := 200; headers := [("Content-Type", "text/plain")];
              text := "{ok}"; json := inl []; soup_text := None |} in
  exists st',
    _process_response r (start "block_url" (constant_gateway (Failed [])))
    = (Return (APP_ERROR, VNone), st')
    /\ message (action_result st')
       = VStr "Can't process response from server. Status Code: 200 Data from server: {{ok}}".
Proof.
  intros r.
  destruct (unclassified_content r (start "block_url" (constant_gateway (Failed []))))
    as (st' & Hrun & _ & Hmsg); [reflexivity|reflexivity|].
  exists st'. split; [exact Hrun|]. by apply Hmsg.
Defined.

(** X3.  A response whose Content-Type names JSON and whose body parses is a
    success exactly for the status codes 200 to 398, the payload being the
    parsed body; 399 is already an error.  The error message is the
    [message] field of the body when the body is an object that has one,
    and otherwise a text that quotes the status code and the raw body with
    its braces doubled. *)
Theorem json_classification (r : response) (resp_json : pyval) (st : state) :
  Py.contains "json" (content_type r) = true ->
  json r = inr resp_json ->
  exists st',
    _process_response r st
    = (Return (if (200 <=? status_code r) && (status_code r <? 399)
               then (APP_SUCCESS, resp_json) else (APP_ERROR, VNone)), st')
    /\ (~ 200 <= status_code r < 399 ->
        message (action_result st')
        = match resp_json with
          | VDict d =>
              default (VStr ("Error from server. Status Code: "
                             +:+ Py.str (status_code r) +:+ " Data from server: "
                             +:+ escape_braces (text r)))
                      (dict_get d "message")
          | _ => VStr ("Error from server. Status Code: "
                       +:+ Py.str (status_code r) +:+ " Data from server: "
                       +:+ escape_braces (text r))
          end).
Proof.
  intros Hct Hjson. unfold _process_response. msimpl. rewrite Hct.
  unfold _process_json_response. rewrite Hjson.
  destruct (Z.leb_spec 200 (status_code r)), (Z.ltb_spec (status_code r) 399);
    msimpl; eexists; (split; [reflexivity|]); msimpl; intros Hcode; try lia;
    destruct resp_json as [| | | | |d]; try reflexivity;
    simpl; by destruct (dict_get d "message").
Qed.

Lemma json_classification_witness :
  exists st',
    _process_response
      (json_response 399 (VDict [("code", VStr "X"); ("message", VStr "Odd status")]))
      (start "block_url" (constant_gateway (Failed [])))
    = (Return (APP_ERROR, VNone), st')
    /\ message (action_result st') = VStr "Odd status".
Proof.
  destruct (json_classification
              (json_response 399 (VDict [("code", VStr "X"); ("message", VStr "Odd status")]))
              (VDict [("code", VStr "X"); ("message", VStr "Odd status")])
              (start "block_url" (constant_gateway (Failed []))))
    as (st' & Hrun & Hmsg); [reflexivity|reflexivity|].
  exists st'. split; [exact Hrun|]. apply Hmsg. simpl. lia.
Defined.

(** X4.  The text drawn from an exception whose arguments are text.  With
    no argument it is the stock message, with one argument that argument,
    and in both cases no error code is shown.  With two or more arguments
    the first is shown as the error code unless it occurs as a piece of the
    stock "code unavailable" text (the test is [in] between two strings,
    which the empty string always passes), and the second is the message. *)
Theorem error_message_from_exception (c : zscaler_consts) :
  _get_error_message_from_exception c [] = "Error Message: " +:+ ZSCALER_ERROR_MESSAGE c
  /\ (forall msg,
        _get_error_message_from_exception c [msg] = "Error Message: " +:+ msg)
  /\ (forall code msg rest,
        _get_error_message_from_exception c (code :: msg :: rest)
        = if Py.contains code (ZSCALER_ERROR_CODE_MESSAGE c)
          then "Error Message: " +:+ msg
          else "Error Code: " +:+ code +:+ ". Error Message: " +:+ msg)
  /\ (forall msg rest,
        _get_error_message_from_exception c ("" :: msg :: rest)
        = "Error Message: " +:+ msg).
Proof.
  unfold _get_error_message_from_exception, _handle_py_ver_compat_for_input_str.
  split; [by rewrite contains_refl|]. split; [intros; by rewrite contains_refl|].
  split; [done|]. intros msg rest.
  by destruct (ZSCALER_ERROR_CODE_MESSAGE c).
Qed.

End Classification.

(** ** The executor's retries *)

Section Retries.
Local Open Scope Z_scope.

(** What the executor does with a 409 answer. *)
Lemma helper_locked fuel endpoint headers params data verb st r :
  verb ∈ request_functions ->
  gateway st (trace st) (request_of st endpoint headers params data verb)
  = Responded r ->
  status_code r = 409 ->
  exists ar,
    _make_rest_call_helper (S fuel) endpoint headers params data verb st
    = _make_rest_call_helper fuel endpoint headers params data verb
        (log_event (Sleep 1)
           (answered (request_of st endpoint headers params data verb) r ar st)).
Proof.
  intros Hm Hgw Hcode.
  destruct (make_rest_call_responded endpoint headers params data verb st r Hm Hgw)
    as (v & p & ar & Heq & Hcases & Hfail).
  rewrite Hfail in Heq, Hcases by lia.
  destruct Hcases as [|(_ & -> & Har)]; [done|].
  exists ar. simpl _make_rest_call_helper at 1.
  unfold bind at 1. rewrite Heq. unfold answered.
  change (is_fail APP_ERROR) with true. msimpl. rewrite Hcode.
  change (409 =? 409) with true. reflexivity.
Qed.

Lemma count_calls_call rq events :
  count_calls (Call rq :: events) = S (count_calls events).
Proof. reflexivity. Qed.

Lemma count_calls_sleep n events :
  count_calls (Sleep n :: events) = count_calls events.
Proof. reflexivity. Qed.

(** X5.  A 409 answer (lock not available) is retried after a pause of one
    second.  Each retry is a nested call of the executor, so that the
    recursion limit of the interpreter bounds their number: [fuel] is the
    number of nested calls that limit leaves.  Against a gateway that
    answers 409 to the next [k] requests and then a JSON success, the
    executor, when there is room for more than [k] nested calls, returns
    that success after exactly [k + 1] identical requests with a
    one-second pause after each of the first [k]. *)
Theorem lock_retried_until_released (k fuel : nat) endpoint headers params data verb
    (busy ready : response) (v : pyval) (st : state) :
  verb ∈ request_functions ->
  gateway st = busy_gateway (count_calls (trace st) + k) busy ready ->
  status_code busy = 409 ->
  Py.contains "json" (content_type ready) = true ->
  json ready = inr v ->
  200 <= status_code ready < 399 ->
  (k < fuel)%nat ->
  exists st',
    _make_rest_call_helper fuel endpoint headers params data verb st
    = (Return (APP_SUCCESS, v), st')
    /\ trace st'
       = attempts k (request_of st endpoint headers params data verb) ++ trace st
    /\ _response st' = Some ready.
Proof.
  intros Hm Hgw Hbusy Hct Hjson Hcode. revert fuel st Hgw.
  induction k as [|k IH]; intros fuel st Hgw Hfuel.
  - destruct fuel as [|fuel]; [lia|].
    set (rq := request_of st endpoint headers params data verb).
    assert (gateway st (trace st) rq = Responded ready) as Hans.
    { rewrite Hgw. unfold busy_gateway.
      destruct (Nat.ltb_spec (count_calls (trace st)) (count_calls (trace st) + 0));
        [lia|done]. }
    destruct (helper_returns fuel endpoint headers params data verb st ready Hm Hans)
      as (v' & p & ar & Hrun & Hproc); [lia|lia|].
    destruct (process_response_json_success ready v
                (set_response ready (log_event (Call rq) st)) Hct Hjson Hcode)
      as (ar' & Hproc').
    fold rq in Hproc, Hrun. rewrite Hproc' in Hproc. injection Hproc as <- <- _.
    eexists. split; [exact Hrun|]. split; reflexivity.
  - destruct fuel as [|fuel]; [lia|].
    set (rq := request_of st endpoint headers params data verb).
    assert (gateway st (trace st) rq = Responded busy) as Hans.
    { rewrite Hgw. unfold busy_gateway.
      destruct (Nat.ltb_spec (count_calls (trace st)) (count_calls (trace st) + S k));
        [done|lia]. }
    destruct (helper_locked fuel endpoint headers params data verb st busy Hm Hans Hbusy)
      as (ar & ->). fold rq.
    destruct (IH fuel (log_event (Sleep 1) (answered rq busy ar st)))
      as (st' & Hrun & Htrace & Hresp).
    { unfold answered. msimpl. rewrite Hgw. f_equal.
      rewrite count_calls_sleep, count_calls_call. lia. }
    { lia. }
    exists st'. split; [exact Hrun|]. split; [|exact Hresp].
    rewrite Htrace. unfold answered. msimpl. simpl attempts.
    change (request_of _ endpoint headers params data verb) with rq.
    clear. induction k as [|k IH]; simpl; [done|]. by rewrite IH.
Qed.

Lemma lock_retried_until_released_witness :
  exists st',
    _make_rest_call_helper 3 "/api/v1/security" [] [] VNone "get"
      (start "allow_url"
         (busy_gateway 2 lock_not_available
            (json_response 200 (VDict [("whitelistUrls", str_list [])]))))
    = (Return (APP_SUCCESS, VDict [("whitelistUrls", str_list [])]), st')
    /\ trace st'
       = attempts 2
           (request_of
              (start "allow_url"
                 (busy_gateway 2 lock_not_available
                    (json_response 200 (VDict [("whitelistUrls", str_list [])]))))
              "/api/v1/security" [] [] VNone "get")
         ++ []
    /\ _response st' = Some (json_response 200 (VDict [("whitelistUrls", str_list [])])).
Proof.
  apply (lock_retried_until_released 2 3 "/api/v1/security" [] [] VNone "get"
           lock_not_available
           (json_response 200 (VDict [("whitelistUrls", str_list [])]))
           (VDict [("whitelistUrls", str_list [])])
           (start "allow_url"
              (busy_gateway 2 lock_not_available
                 (json_response 200 (VDict [("whitelistUrls", str_list [])]))))).
  - apply list_elem_of_here.
  - reflexivity.
  - reflexivity.
  - reflexivity.
  - reflexivity.
  - simpl. lia.
  - lia.
Defined.

(** What [_make_rest_call] does with a request that cannot be sent. *)
Lemma make_rest_call_failed endpoint headers params data verb st args :
  verb ∈ request_functions ->
  gateway st (trace st) (request_of st endpoint headers params data verb)
  = Failed args ->
  exists st0,
    _make_rest_call endpoint headers params data verb st
    = (Return (APP_ERROR, VNone), st0)
    /\ trace st0 = Call (request_of st endpoint headers params data verb) :: trace st
    /\ _response st0 = _response st
    /\ session_kept st st0
    /\ status (action_result st0) = false
    /\ message (action_result st0)
       = VStr ("Error Connecting to Zscaler server. "
               +:+ _get_error_message_from_exception (consts st) args).
Proof.
  intros Hm Hgw.
  unfold _make_rest_call. msimpl. rewrite bool_decide_eq_true_2 by done.
  unfold _handle_py_ver_compat_for_input_str. msimpl.
  unfold request_of in Hgw |- *. rewrite Hgw. msimpl.
  eexists. split; [reflexivity|]. msimpl. by repeat split.
Qed.

(** X6.  A request that cannot be sent is judged on the response stored
    from an earlier call: [_make_rest_call] leaves [self._response] as it
    was, and the executor looks at its status code.  With a stored 409 the
    failure is not reported: the executor pauses one second and makes the
    same call again, as if the lock were held.  With a stored response of
    any status code but 409 and 429, the answer to the login for one, the
    failure is reported at once, the message naming the connection
    error. *)
Theorem connection_failure_on_stored_response (fuel : nat) endpoint headers params
    data verb (st : state) (args : list string) (stored : response) :
  verb ∈ request_functions ->
  gateway st (trace st) (request_of st endpoint headers params data verb)
  = Failed args ->
  _response st = Some stored ->
  (status_code stored = 409 ->
   exists st1,
     _make_rest_call_helper (S fuel) endpoint headers params data verb st
     = _make_rest_call_helper fuel endpoint headers params data verb st1
     /\ trace st1
        = Sleep 1 :: Call (request_of st endpoint headers params data verb) :: trace st
     /\ _response st1 = Some stored
     /\ session_kept st st1)
  /\ (status_code stored <> 409 -> status_code stored <> 429 ->
      exists st',
        _make_rest_call_helper (S fuel) endpoint headers params data verb st
        = (Return (APP_ERROR, VNone), st')
        /\ trace st' = Call (request_of st endpoint headers params data verb) :: trace st
        /\ _response st' = Some stored
        /\ status (action_result st') = false
        /\ message (action_result st')
           = VStr ("Error Connecting to Zscaler server. "
                   +:+ _get_error_message_from_exception (consts st) args)).
Proof.
  intros Hm Hgw Hresp.
  destruct (make_rest_call_failed endpoint headers params data verb st args Hm Hgw)
    as (st0 & Hcall & Htrace & Hresp0 & Hkept & Hstatus & Hmsg).
  rewrite Hresp in Hresp0.
  split.
  - intros Hcode. exists (log_event (Sleep 1) st0).
    simpl _make_rest_call_helper at 1. unfold bind at 1. rewrite Hcall.
    change (is_fail APP_ERROR) with true. msimpl. rewrite Hresp0. msimpl.
    rewrite Hcode. change (409 =? 409) with true. msimpl.
    split; [reflexivity|]. rewrite Htrace. by repeat split; try apply Hkept.
  - intros H409 H429. exists st0.
    simpl _make_rest_call_helper at 1. unfold bind at 1. rewrite Hcall.
    change (is_fail APP_ERROR) with true. msimpl. rewrite Hresp0. msimpl.
    destruct (Z.eqb_spec (status_code stored) 409) as [|_]; [done|].
    destruct (Z.eqb_spec (status_code stored) 429) as [|_]; [done|].
    msimpl. by repeat split.
Qed.

Lemma connection_failure_on_stored_response_witness :
  let unreachable := constant_gateway (Failed ["Connection reset by peer"]) in
  let locked := set_response lock_not_available (start "allow_url" unreachable) in
  let logged := set_response (logged_in "JSESSIONID=1; Path=/")
                  (start "allow_url" unreachable) in
  (exists st1,
     _make_rest_call_helper 2 "/api/v1/security" [] [] VNone "get" locked
     = _make_rest_call_helper 1 "/api/v1/security" [] [] VNone "get" st1
     /\ trace st1
        = [Sleep 1; Call (request_of locked "/api/v1/security" [] [] VNone "get")])
  /\ (exists st',
        _make_rest_call_helper 2 "/api/v1/security" [] [] VNone "get" logged
        = (Return (APP_ERROR, VNone), st')
        /\ message (action_result st')
           = VStr "Error Connecting to Zscaler server. Error Message: Connection reset by peer").
Proof.
  intros unreachable locked logged. split.
  - destruct (connection_failure_on_stored_response 1 "/api/v1/security" [] [] VNone
                "get" locked ["Connection reset by peer"] lock_not_available)
      as [Hlocked _]; [apply list_elem_of_here|reflexivity|reflexivity|].
    destruct Hlocked as (st1 & Hrun & Htrace & _); [reflexivity|].
    exists st1. split; [exact Hrun|exact Htrace].
  - destruct (connection_failure_on_stored_response 1 "/api/v1/security" [] [] VNone
                "get" logged ["Connection reset by peer"]
                (logged_in "JSESSIONID=1; Path=/"))
      as [_ Hlogged]; [apply list_elem_of_here|reflexivity|reflexivity|].
    destruct Hlogged as (st' & Hrun & _ & _ & _ & Hmsg); [done|done|].
    exists st'. split; [exact Hrun|exact Hmsg].
Defined.

(** *** Reading the wait *)

Lemma no_blank_split (s : string) :
  s <> "" -> no_blank s = true -> Py.split s = [s].
Proof.
  induction s as [|c s IH]; [done|]. intros _ [Hc Hs]%andb_prop.
  apply negb_true_iff in Hc. cbn [Py.split]. rewrite Hc.
  destruct s as [|c' s]; [done|].
  pose proof Hs as [Hc' _]%andb_prop. apply negb_true_iff in Hc'. rewrite Hc'.
  by rewrite IH.
Qed.

Lemma split_leading_blank (s : string) : Py.split (String " " s) = Py.split s.
Proof. reflexivity. Qed.

Lemma split_two (a b : string) :
  a <> "" -> no_blank a = true -> b <> "" -> no_blank b = true ->
  Py.split (a +:+ String " " b) = [a; b].
Proof.
  intros Ha Hna Hb Hnb. induction a as [|c a IH]; [done|].
  apply andb_prop in Hna as [Hc Hna]. apply negb_true_iff in Hc.
  rewrite append_cons. cbn [Py.split]. rewrite Hc.
  destruct a as [|c' a].
  - rewrite append_nil_l. change (Py.isspace " ") with true. cbn iota.
    by rewrite split_leading_blank, no_blank_split.
  - rewrite append_cons.
    pose proof Hna as [Hc' _]%andb_prop. apply negb_true_iff in Hc'. rewrite Hc'.
    rewrite <- append_cons, IH by done. done.
Qed.

Lemma no_blank_numeral (s : string) : is_numeral s -> no_blank s = true.
Proof.
  induction s as [|c s IH]; [done|]. intros [(d & Hd & ->) Hs]. simpl.
  by rewrite (isspace_digit_char d Hd), IH.
Qed.

Lemma str_N_numeral (n : N) :
  exists k, (1 <= k)%nat /\ Py.str_N n = pad_digits k n /\ (n < 10 ^ N.of_nat k)%N.
Proof. destruct (str_N_spec n) as (k & ? & ? & ? & _). by exists k. Qed.

Lemma pad_digits_nonempty k n : (1 <= k)%nat -> pad_digits k n <> "".
Proof.
  intros Hk Heq. apply (f_equal String.length) in Heq.
  rewrite length_pad_digits in Heq. simpl in Heq. lia.
Qed.

Lemma str_no_blank (z : Z) : Py.str z <> "" /\ no_blank (Py.str z) = true.
Proof.
  unfold Py.str. destruct (str_N_numeral (Z.abs_N z)) as (k & Hk & -> & _).
  pose proof (no_blank_numeral _ (is_numeral_pad_digits k (Z.abs_N z))).
  destruct (z <? 0); [done|]. split; [by apply pad_digits_nonempty|done].
Qed.

(** Writing an integer and reading it back. *)
Lemma int_str (z : Z) : Py.int (Py.str z) = Ok z.
Proof.
  unfold Py.str. destruct (str_N_numeral (Z.abs_N z)) as (k & Hk & -> & Hlt).
  destruct (Z.ltb_spec z 0) as [Hneg|Hpos].
  - unfold Py.int, Py.strip. cbn [Py.lstrip]. change (Py.isspace "-") with false.
    cbn iota. cbn [Py.rstrip].
    rewrite (rstrip_numeral _ (is_numeral_pad_digits k (Z.abs_N z))).
    destruct (pad_digits k (Z.abs_N z)) as [|c t] eqn:Hpad.
    { by apply pad_digits_nonempty in Hpad. }
    change (Ascii.eqb "-" "-") with true. cbn iota. rewrite <- Hpad.
    rewrite parse_pad_digits by (by right). simpl. f_equal.
    rewrite N.mod_small by done. lia.
  - rewrite int_pad_digits by done. f_equal. rewrite N.mod_small by done. lia.
Qed.

Lemma parse_retry_after_text (n : Z) (minutes : bool) :
  _parse_retry_time (VStr (retry_after_text n minutes))
  = Ok (Some (if minutes then n * 60 else n)).
Proof.
  destruct (str_no_blank n) as [Hne Hnb].
  unfold retry_after_text, _parse_retry_time.
  destruct minutes.
  - change " minutes" with (String " " "minutes"). rewrite split_two by done.
    simpl. by rewrite int_str.
  - change " seconds" with (String " " "seconds"). rewrite split_two by done.
    simpl. by rewrite int_str.
Qed.

(** X7.  A 429 answer (rate limit) whose JSON body announces
    ["Retry-After": "<n> seconds"] or ["<n> minutes"], [n] written in
    decimal and of at most a million in absolute value ([time.sleep] and
    [int] refuse very large values).  When [n] is not negative the
    executor pauses for [n] seconds, or [60 n] seconds, and then starts
    the same call again: what it returns is what the call returns after
    that pause.  When [n] is negative it neither pauses nor retries; but,
    as for an unknown unit, what comes back in the place of the status is
    the Retry-After text, which [is_fail] does not take for a failure,
    while the action result holds the error. *)
Theorem rate_limit_wait (fuel : nat) endpoint headers params data verb
    (st : state) (r : response) (body : pyval) (n : Z) (minutes : bool) :
  verb ∈ request_functions ->
  gateway st (trace st) (request_of st endpoint headers params data verb)
  = Responded r ->
  status_code r = 429 ->
  json r = inr body ->
  py_subscript body "Retry-After" = Ok (VStr (retry_after_text n minutes)) ->
  - 1000000 <= n <= 1000000 ->
  (0 <= n ->
   exists st1,
     _make_rest_call_helper (S fuel) endpoint headers params data verb st
     = _make_rest_call_helper fuel endpoint headers params data verb st1
     /\ trace st1
        = Sleep (if minutes then n * 60 else n)
          :: Call (request_of st endpoint headers params data verb) :: trace st
     /\ session_kept st st1
     /\ _response st1 = Some r)
  /\ (n < 0 ->
      exists st',
        _make_rest_call_helper (S fuel) endpoint headers params data verb st
        = (Return (VStr (retry_after_text n minutes), VNone), st')
        /\ is_fail (VStr (retry_after_text n minutes)) = false
        /\ status (action_result st') = false
        /\ trace st' = Call (request_of st endpoint headers params data verb) :: trace st).
Proof.
  intros Hm Hgw Hcode Hjson Hfield _.
  destruct (helper_rate_limited fuel endpoint headers params data verb st r Hm Hgw Hcode)
    as (ar & Har & Heq).
  cbn zeta in Heq. rewrite Hjson, Hfield, parse_retry_after_text in Heq.
  split; intros Hn.
  - destruct (Z.ltb_spec (if minutes then n * 60 else n) 0) as [Hlt|_].
    { destruct minutes; lia. }
    eexists. split; [exact Heq|]. unfold answered. msimpl.
    split; [done|]. split; [by repeat split|done].
  - destruct (Z.ltb_spec (if minutes then n * 60 else n) 0) as [_|Hge].
    2: { destruct minutes; lia. }
    eexists. split; [exact Heq|]. by repeat split.
Qed.

Lemma rate_limit_wait_witness :
  (exists st1,
     _make_rest_call_helper 2 "/api/v1/security" [] [] VNone "get"
       (start "allow_url" (constant_gateway (Responded (rate_limited "2 minutes"))))
     = _make_rest_call_helper 1 "/api/v1/security" [] [] VNone "get" st1
     /\ trace st1
        = [Sleep 120;
           Call (request_of
                   (start "allow_url"
                      (constant_gateway (Responded (rate_limited "2 minutes"))))
                   "/api/v1/security" [] [] VNone "get")])
  /\ (exists st',
        _make_rest_call_helper 1 "/api/v1/security" [] [] VNone "get"
          (start "allow_url" (constant_gateway (Responded (rate_limited "-1 seconds"))))
        = (Return (VStr "-1 seconds", VNone), st')
        /\ status (action_result st') = false).
Proof.
  split.
  - destruct (rate_limit_wait 1 "/api/v1/security" [] [] VNone "get"
                (start "allow_url"
                   (constant_gateway (Responded (rate_limited "2 minutes"))))
                (rate_limited "2 minutes")
                (VDict [("message", VStr "Rate Limit (1/SECOND) exceeded");
                        ("Retry-After", VStr "2 minutes")]) 2 true) as [Hwait _].
    + apply list_elem_of_here.
    + reflexivity.
    + reflexivity.
    + reflexivity.
    + reflexivity.
    + lia.
    + destruct Hwait as (st1 & Hrun & Htrace & _); [lia|].
      exists st1. split; [exact Hrun|exact Htrace].
  - destruct (rate_limit_wait 0 "/api/v1/security" [] [] VNone "get"
                (start "allow_url"
                   (constant_gateway (Responded (rate_limited "-1 seconds"))))
                (rate_limited "-1 seconds")
                (VDict [("message", VStr "Rate Limit (1/SECOND) exceeded");
                        ("Retry-After", VStr "-1 seconds")]) (-1) false) as [_ Hneg].
    + apply list_elem_of_here.
    + reflexivity.
    + reflexivity.
    + reflexivity.
    + reflexivity.
    + lia.
    + destruct Hneg as (st' & Hrun & _ & Hstatus & _); [lia|].
      exists st'. split; [exact Hrun|exact Hstatus].
Defined.

(** X8.  Apart from 409 and 429 nothing is retried.  Any other answer, a
    success or a failure, comes back as the classifier left it after one
    request and no pause; and on a connector that holds no earlier
    response a request that cannot be sent at all comes back as a failure
    after that one attempt, the message naming the connection error. *)
Theorem single_attempt (fuel : nat) endpoint headers params data verb (st : state) :
  verb ∈ request_functions ->
  (forall r,
     gateway st (trace st) (request_of st endpoint headers params data verb)
     = Responded r ->
     status_code r <> 409 -> status_code r <> 429 ->
     exists v p st',
       _make_rest_call_helper (S fuel) endpoint headers params data verb st
       = (Return (v, p), st')
       /\ _process_response r
            (set_response r
               (log_event (Call (request_of st endpoint headers params data verb)) st))
          = (Return (v, p), st')
       /\ trace st' = Call (request_of st endpoint headers params data verb) :: trace st
       /\ _response st' = Some r)
  /\ (forall args,
        gateway st (trace st) (request_of st endpoint headers params data verb)
        = Failed args ->
        _response st = None ->
        exists st',
          _make_rest_call_helper (S fuel) endpoint headers params data verb st
          = (Return (APP_ERROR, VNone), st')
          /\ trace st' = Call (request_of st endpoint headers params data verb) :: trace st
          /\ _response st' = None
          /\ status (action_result st') = false
          /\ message (action_result st')
             = VStr ("Error Connecting to Zscaler server. "
                     +:+ _get_error_message_from_exception (consts st) args)).
Proof.
  intros Hm. split.
  - intros r Hgw H409 H429.
    destruct (helper_returns fuel endpoint headers params data verb st r Hm Hgw H409 H429)
      as (v & p & ar & Hrun & Hproc).
    exists v, p. eexists. split; [exact Hrun|]. split; [exact Hproc|]. done.
  - intros args Hgw Hnone.
    assert (exists st1,
              _make_rest_call endpoint headers params data verb st
              = (Return (APP_ERROR, VNone), st1)
              /\ trace st1
                 = Call (request_of st endpoint headers params data verb) :: trace st
              /\ _response st1 = None
              /\ status (action_result st1) = false
              /\ message (action_result st1)
                 = VStr ("Error Connecting to Zscaler server. "
                         +:+ _get_error_message_from_exception (consts st) args))
      as (st1 & Hcall & Htrace & Hresp & Hstatus & Hmsg).
    { unfold _make_rest_call. msimpl. rewrite bool_decide_eq_true_2 by done.
      unfold _handle_py_ver_compat_for_input_str. msimpl.
      unfold request_of in Hgw |- *. rewrite Hgw. msimpl.
      eexists. split; [reflexivity|]. msimpl. by repeat split. }
    simpl _make_rest_call_helper. unfold bind at 1. rewrite Hcall.
    change (is_fail APP_ERROR) with true. msimpl. rewrite Hresp.
    by exists st1.
Qed.

Lemma single_attempt_witness :
  exists st',
    _make_rest_call_helper 1 "/api/v1/security" [] [] VNone "get"
      (start "allow_url" (constant_gateway (Failed ["Connection refused"])))
    = (Return (APP_ERROR, VNone), st')
    /\ trace st'
       = [Call (request_of
                  (start "allow_url" (constant_gateway (Failed ["Connection refused"])))
                  "/api/v1/security" [] [] VNone "get")]
    /\ message (action_result st')
       = VStr "Error Connecting to Zscaler server. Error Message: Connection refused".
Proof.
  destruct (single_attempt 0 "/api/v1/security" [] [] VNone "get"
              (start "allow_url" (constant_gateway (Failed ["Connection refused"]))))
    as [_ Hfailed]; [apply list_elem_of_here|].
  destruct (Hfailed ["Connection refused"]) as (st' & Hrun & Htrace & _ & _ & Hmsg);
    [reflexivity|reflexivity|].
  exists st'. split; [exact Hrun|]. split; [exact Htrace|exact Hmsg].
Defined.

End Retries.

(** ** The session *)

Ltac conn_simpl :=
  cbn [cbind cret on_state config_item connector_set_status
       self_state config connector_status connector_message
       set_base_url set_headers with_local_action_result
       bind ret gets modify lift raise out_of_fuel rbind fst snd
       with_action_result set_response set_allowlist set_category log_event
       consts _base_url _headers _response _allowlist _category
       action_identifier action_result gateway trace
       status message summary data debug_data].

Lemma session_kept_refl st : session_kept st st.
Proof. by repeat split. Qed.

Lemma session_kept_trans st1 st2 st3 :
  session_kept st1 st2 -> session_kept st2 st3 -> session_kept st1 st3.
Proof.
  intros (? & ? & ? & ? & ?) (? & ? & ? & ? & ?). repeat split; congruence.
Qed.

Section Within.
Context {base : string} {h : list (string * string)} {P : event -> Prop}.

Lemma within_ret {A} (a : A) : within base h P (ret a).
Proof. intros st _ _. split; [apply session_kept_refl|]. by exists []. Qed.

Lemma within_raise {A} e : within base h P (raise (A := A) e).
Proof. intros st _ _. split; [apply session_kept_refl|]. by exists []. Qed.

Lemma within_out_of_fuel {A} : within base h P (out_of_fuel (A := A)).
Proof. intros st _ _. split; [apply session_kept_refl|]. by exists []. Qed.

Lemma within_gets {A} (f : state -> A) : within base h P (gets f).
Proof. intros st _ _. split; [apply session_kept_refl|]. by exists []. Qed.

Lemma within_lift {A} (r : result A) : within base h P (lift r).
Proof. destruct r; [apply within_ret|apply within_raise]. Qed.

Lemma within_modify f :
  (forall st, session_kept st (f st) /\ trace (f st) = trace st) ->
  within base h P (modify f).
Proof.
  intros Hf st _ _. destruct (Hf st) as [Hkept Htrace].
  split; [exact Hkept|]. exists []. by rewrite <- Htrace.
Qed.

Lemma within_bind {A B} (m : M A) (k : A -> M B) :
  within base h P m -> (forall a, within base h P (k a)) -> within base h P (bind m k).
Proof.
  intros Hm Hk st Hbase Hh. unfold bind.
  destruct (Hm st Hbase Hh) as (Hkept & evs & Htr & Hevs).
  destruct (m st) as [[a|e|] st1]; simpl in *; [|by eauto..].
  destruct Hkept as (Hc & Hb & Hhd & Hid & Hgw).
  destruct (Hk a st1) as (Hkept' & evs' & Htr' & Hevs'); [congruence..|].
  split.
  - apply (session_kept_trans st st1); [by repeat split|done].
  - exists (evs' ++ evs). rewrite Htr', Htr, app_assoc. split; [done|].
    by apply Forall_app.
Qed.

Lemma within_sleep n : P (Sleep n) -> within base h P (sleep n).
Proof.
  intros HP st _ _. split; [by repeat split|].
  exists [Sleep n]. split; [done|]. by constructor.
Qed.

Lemma within_set_status b msg : within base h P (set_status b msg).
Proof.
  apply within_bind; [|intros; apply within_ret].
  apply within_modify. intros st. by repeat split.
Qed.

Lemma within_process_response r : within base h P (_process_response r).
Proof.
  intros st _ _.
  destruct (process_response_cases r st) as (v & p & ar & -> & _).
  split; [by repeat split|]. by exists [].
Qed.

Lemma within_check_for_overlength endpoints :
  within base h P (_check_for_overlength endpoints).
Proof.
  intros st _ _. rewrite check_for_overlength_eq.
  destruct (overlength endpoints); (split; [by repeat split|by exists []]).
Qed.

End Within.

Ltac within_step :=
  first
    [ apply within_ret | apply within_raise | apply within_out_of_fuel
    | apply within_gets | apply within_lift | apply within_set_status
    | apply within_process_response | apply within_check_for_overlength
    | apply within_modify; intros; by repeat split
    | apply within_bind; [|intros] ].

Create HintDb within_db.

Ltac within_auto :=
  repeat first
    [ solve [eauto with within_db]
    | within_step
    | match goal with
      | |- within _ _ _ (match ?x with _ => _ end) => destruct x
      | |- within _ _ _ (if ?b then _ else _) => destruct b
      end ].

Section Session.
Local Open Scope Z_scope.

(** The request [_make_rest_call] builds from a base URL and session
    headers. *)
Lemma make_rest_call_within base h endpoint headers params data verb :
  within base h
    (repeats {| method := verb; url := base +:+ endpoint;
                req_headers := dict_update headers h;
                params := params; body := data |})
    (_make_rest_call endpoint headers params data verb).
Proof.
  intros st Hbase Hh. unfold _make_rest_call. msimpl.
  destruct (bool_decide (verb ∈ request_functions)).
  - unfold _handle_py_ver_compat_for_input_str. msimpl. rewrite Hbase, Hh.
    destruct (gateway st (trace st) _) as [r|args]; msimpl.
    + destruct (process_response_cases r
                  (set_response r
                     (log_event
                        (Call {| method := verb; url := base +:+ endpoint;
                                 req_headers := dict_update headers h;
                                 params := params; body := data |}) st)))
        as (v & p & ar & -> & _).
      split; [by repeat split|]. eexists [_]. split; [reflexivity|].
      by repeat constructor.
    + split; [by repeat split|]. eexists [_]. split; [reflexivity|].
      by repeat constructor.
  - msimpl. split; [by repeat split|]. by exists [].
Qed.

Lemma helper_within base h fuel endpoint headers params data verb :
  within base h
    (repeats {| method := verb; url := base +:+ endpoint;
                req_headers := dict_update headers h;
                params := params; body := data |})
    (_make_rest_call_helper fuel endpoint headers params data verb).
Proof.
  induction fuel as [|fuel IH]; simpl; [apply within_out_of_fuel|].
  pose proof (make_rest_call_within base h endpoint headers params data verb).
  within_auto; by apply within_sleep.
Qed.

Lemma within_mono base h (P Q : event -> Prop) {A} (m : M A) :
  (forall ev, P ev -> Q ev) -> within base h P m -> within base h Q m.
Proof.
  intros HPQ Hm st Hbase Hh. destruct (Hm st Hbase Hh) as (Hkept & evs & Htr & Hevs).
  split; [done|]. exists evs. split; [done|]. by apply (Forall_impl _ _ _ Hevs).
Qed.

(** A call made without headers of its own stays within the session. *)
Lemma helper_carries base h fuel endpoint params data verb :
  within base h (carries base h)
    (_make_rest_call_helper fuel endpoint [] params data verb).
Proof.
  refine (within_mono base h _ _ _ _
            (helper_within base h fuel endpoint [] params data verb)).
  intros [rq|n] Hev; [|done]. simpl in Hev. subst rq. simpl.
  split; [apply prefix_append|done].
Qed.

#[local] Hint Resolve helper_carries : within_db.

Lemma filter_endpoints_within base h P to_add existing action name :
  within base h P (_filter_endpoints to_add existing action name).
Proof. unfold _filter_endpoints, set_summary_empty, summary_set. within_auto. Qed.

Lemma report_summary_within base h P endpoints filtered :
  within base h P (report_summary endpoints filtered).
Proof. unfold report_summary, set_summary_empty, summary_set. within_auto. Qed.

#[local] Hint Resolve filter_endpoints_within report_summary_within : within_db.

Lemma amend_blocklist_within base h fuel endpoints action :
  within base h (carries base h) (_amend_blocklist fuel endpoints action).
Proof.
  unfold _amend_blocklist, _check_blocklist, _get_blocklist. within_auto.
Qed.

Lemma amend_allowlist_within base h fuel endpoints action :
  within base h (carries base h) (_amend_allowlist fuel endpoints action).
Proof.
  unfold _amend_allowlist, _check_allowlist, _get_allowlist, add_data. within_auto.
Qed.

Lemma get_category_within base h fuel category :
  within base h (carries base h) (_get_category fuel category).
Proof. unfold _get_category. within_auto. Qed.

#[local] Hint Resolve get_category_within : within_db.

Lemma amend_category_within base h fuel endpoints category action :
  within base h (carries base h) (_amend_category fuel endpoints category action).
Proof.
  unfold _amend_category, _check_category, add_data. within_auto.
Qed.

Lemma lookup_endpoint_within base h fuel endpoints :
  within base h (carries base h) (_lookup_endpoint fuel endpoints).
Proof. unfold _lookup_endpoint, update_data. within_auto. Qed.

#[local] Hint Resolve amend_blocklist_within amend_allowlist_within
  amend_category_within lookup_endpoint_within : within_db.

Lemma handle_action_within base h fuel param :
  within base h (carries base h) (handle_action fuel param).
Proof.
  unfold handle_action, get_action_identifier, _handle_test_connectivity,
    _handle_list_url_categories, _handle_get_report,
    _handle_block_ip, _handle_block_url, _handle_unblock_ip, _handle_unblock_url,
    _handle_allow_ip, _handle_allow_url, _handle_unallow_ip, _handle_unallow_url,
    _handle_lookup_ip, _handle_lookup_url,
    _block_endpoint, _unblock_endpoint, _allowlist_endpoint, _unallow_endpoint,
    param_item, add_action_result, get_action_identifier, get_status, add_data,
    update_data, summary_set.
  within_auto.
Qed.

(** X9.  No action changes the session.  Whatever the action identifier,
    the parameters and the answers of the gateway, [handle_action] leaves
    the base URL, the session headers, the constants, the action identifier
    and the gateway as they were; it only adds events to the trace; and
    every request it sends goes to a URL that starts with the base URL and
    carries the session headers and no others. *)
Theorem handle_action_keeps_session (fuel : nat) (param : gmap string string)
    (st : state) :
  session_kept st (handle_action fuel param st).2
  /\ exists evs,
       trace (handle_action fuel param st).2 = evs ++ trace st
       /\ Forall (carries (_base_url st) (_headers st)) evs.
Proof. by apply handle_action_within. Qed.

End Session.

(** ** Login and logout *)

Section Login.
Local Open Scope Z_scope.

(** The login call of [_init_session], from the connector [c]. *)
Lemma init_session_eq fuel clock_ms c username password api_key :
  config c !! "username" = Some username ->
  config c !! "password" = Some password ->
  config c !! "api_key" = Some api_key ->
  _init_session fuel clock_ms c
  = match _obfuscate_api_key clock_ms api_key with
    | Raise _ => connector_set_status false "Error obfuscating API key" c
    | Ok (timestamp, obf_api_key) =>
        (let+ ((ret_val, response), local_result) :=
           on_state (with_local_action_result
                       (_make_rest_call_helper fuel "/api/v1/authenticatedSession"
                          [] [] (login_body username password timestamp obf_api_key)
                          "post")) in
         if is_fail ret_val then
           connector_set_status false
             ("Error starting Zscaler session: " +:+ py_format (message local_result))
         else
           let+ last := on_state (gets _response) in
           match last with
           | None => on_state (raise AttributeError)
           | Some r =>
               let+ set_cookie :=
                 on_state (lift (header_subscript (headers r) "Set-Cookie")) in
               let+ _ := on_state (modify (set_headers
                                             [("cookie", first_cookie set_cookie)])) in
               cret APP_SUCCESS
           end) c
    end.
Proof.
  intros Hu Hp Hk. unfold _init_session, cbind at 1, config_item at 1. rewrite Hu.
  unfold cbind at 1, config_item at 1. rewrite Hp.
  unfold cbind at 1, config_item at 1. rewrite Hk.
  by destruct (_obfuscate_api_key clock_ms api_key) as [[timestamp key]|e].
Qed.

(** X10.  A successful login.  When the key obfuscation goes through and
    the gateway answers the login request with a JSON success that carries
    a Set-Cookie header, [_init_session] returns success after that one
    request, a POST of the obfuscated key, the user name, the password and
    the timestamp; the session headers become the single header [cookie],
    whose value is the Set-Cookie text up to its first semicolon, trimmed.
    The action result of the connector and its status are left alone. *)
Theorem login_sets_session_cookie (fuel : nat) (clock_ms : Z) (c : connector)
    (username password api_key timestamp key set_cookie : string)
    (r : response) (v : pyval) :
  config c !! "username" = Some username ->
  config c !! "password" = Some password ->
  config c !! "api_key" = Some api_key ->
  _obfuscate_api_key clock_ms api_key = Ok (timestamp, key) ->
  gateway (self_state c) (trace (self_state c))
    (request_of (self_state c) "/api/v1/authenticatedSession" [] []
       (login_body username password timestamp key) "post")
  = Responded r ->
  Py.contains "json" (content_type r) = true ->
  json r = inr v ->
  200 <= status_code r < 399 ->
  header_subscript (headers r) "Set-Cookie" = Ok set_cookie ->
  exists c',
    _init_session (S fuel) clock_ms c = (Return APP_SUCCESS, c')
    /\ _headers (self_state c') = [("cookie", first_cookie set_cookie)]
    /\ trace (self_state c')
       = Call (request_of (self_state c) "/api/v1/authenticatedSession" [] []
                 (login_body username password timestamp key) "post")
         :: trace (self_state c)
    /\ _base_url (self_state c') = _base_url (self_state c)
    /\ action_result (self_state c') = action_result (self_state c)
    /\ connector_status c' = connector_status c
    /\ connector_message c' = connector_message c.
Proof.
  intros Hu Hp Hk Hobf Hgw Hct Hjson Hcode Hcookie.
  rewrite (init_session_eq _ _ _ _ _ _ Hu Hp Hk), Hobf.
  set (body := login_body username password timestamp key) in *.
  set (st0 := with_action_result (fun _ => new_action_result) (self_state c)).
  set (rq := request_of (self_state c) "/api/v1/authenticatedSession" [] [] body "post")
    in *.
  destruct (helper_returns fuel "/api/v1/authenticatedSession" [] [] body "post" st0 r)
    as (v' & p & ar & Hrun & Hproc); [repeat constructor|exact Hgw|lia|lia|].
  destruct (process_response_json_success r v
              (set_response r (log_event (Call rq) st0)) Hct Hjson Hcode)
    as (ar' & Hproc').
  change (request_of st0 "/api/v1/authenticatedSession" [] [] body "post")
    with rq in Hproc, Hrun.
  rewrite Hproc' in Hproc. injection Hproc as <- <- _.
  unfold cbind at 1, on_state at 1, with_local_action_result.
  fold st0. rewrite Hrun. cbn [fst snd].
  change (is_fail APP_SUCCESS) with false. cbn iota.
  unfold answered. conn_simpl. rewrite Hcookie. conn_simpl.
  eexists. split; [reflexivity|]. conn_simpl. by repeat split.
Qed.

Lemma login_sets_session_cookie_witness :
  exists c',
    _init_session 1 1700000123456
      (sample_connector "test_connectivity"
         (constant_gateway
            (Responded (logged_in "JSESSIONID=971F41B5; Path=/; Secure; HttpOnly"))))
    = (Return APP_SUCCESS, c')
    /\ _headers (self_state c') = [("cookie", "JSESSIONID=971F41B5")].
Proof.
  destruct (login_sets_session_cookie 0 1700000123456
              (sample_connector "test_connectivity"
                 (constant_gateway
                    (Responded (logged_in "JSESSIONID=971F41B5; Path=/; Secure; HttpOnly"))))
              "admin@example.com" "secret" "abcdefghijklmnop"
              "1700000123456" "bcdefgcidjek"
              "JSESSIONID=971F41B5; Path=/; Secure; HttpOnly"
              (logged_in "JSESSIONID=971F41B5; Path=/; Secure; HttpOnly")
              (VDict [("authType", VStr "ADMIN_LOGIN")]))
    as (c' & Hrun & Hheaders & _).
  - reflexivity.
  - reflexivity.
  - reflexivity.
  - reflexivity.
  - reflexivity.
  - reflexivity.
  - reflexivity.
  - simpl. lia.
  - reflexivity.
  - exists c'. split; [exact Hrun|exact Hheaders].
Defined.

(** X11.  When the key obfuscation raises, whatever it raises, the login
    is given up before any request is sent: [_init_session] returns the
    error status, the connector's message is "Error obfuscating API key",
    and its state is untouched. *)
Theorem login_without_obfuscated_key (fuel : nat) (clock_ms : Z) (c : connector)
    (username password api_key : string) (e : exn) :
  config c !! "username" = Some username ->
  config c !! "password" = Some password ->
  config c !! "api_key" = Some api_key ->
  _obfuscate_api_key clock_ms api_key = Raise e ->
  exists c',
    _init_session fuel clock_ms c = (Return APP_ERROR, c')
    /\ self_state c' = self_state c
    /\ connector_status c' = false
    /\ connector_message c' = "Error obfuscating API key".
Proof.
  intros Hu Hp Hk Hobf. rewrite (init_session_eq _ _ _ _ _ _ Hu Hp Hk), Hobf.
  eexists. split; [reflexivity|]. by repeat split.
Qed.

Lemma login_without_obfuscated_key_witness :
  exists c',
    _init_session 1 1700000123456
      {| self_state := start "test_connectivity" (constant_gateway (Failed []));
         config := <["api_key" := "tooshort"]> sample_config;
         connector_status := true; connector_message := "" |}
    = (Return APP_ERROR, c')
    /\ self_state c' = start "test_connectivity" (constant_gateway (Failed []))
    /\ connector_status c' = false
    /\ connector_message c' = "Error obfuscating API key".
Proof.
  apply (login_without_obfuscated_key 1 1700000123456
           {| self_state := start "test_connectivity" (constant_gateway (Failed []));
              config := <["api_key" := "tooshort"]> sample_config;
              connector_status := true; connector_message := "" |}
           "admin@example.com" "secret" "tooshort" IndexError).
  - reflexivity.
  - reflexivity.
  - reflexivity.
  - reflexivity.
Defined.

(** X12.  A refused login.  When the gateway answers the login request
    with a JSON error (a status code outside 200..398 that is neither 409
    nor 429) whose body has a text [message], [_init_session] returns the
    error status after that one request, the connector's message is "Error
    starting Zscaler session: " followed by the gateway's message, and the
    session headers stay as they were: no cookie is set. *)
Theorem login_refused (fuel : nat) (clock_ms : Z) (c : connector)
    (username password api_key timestamp key msg : string)
    (r : response) (body : pyval) :
  config c !! "username" = Some username ->
  config c !! "password" = Some password ->
  config c !! "api_key" = Some api_key ->
  _obfuscate_api_key clock_ms api_key = Ok (timestamp, key) ->
  gateway (self_state c) (trace (self_state c))
    (request_of (self_state c) "/api/v1/authenticatedSession" [] []
       (login_body username password timestamp key) "post")
  = Responded r ->
  Py.contains "json" (content_type r) = true ->
  json r = inr body ->
  py_subscript body "message" = Ok (VStr msg) ->
  ~ 200 <= status_code r < 399 ->
  status_code r <> 409 -> status_code r <> 429 ->
  exists c',
    _init_session (S fuel) clock_ms c = (Return APP_ERROR, c')
    /\ connector_status c' = false
    /\ connector_message c' = "Error starting Zscaler session: " +:+ msg
    /\ _headers (self_state c') = _headers (self_state c)
    /\ action_result (self_state c') = action_result (self_state c)
    /\ trace (self_state c')
       = Call (request_of (self_state c) "/api/v1/authenticatedSession" [] []
                 (login_body username password timestamp key) "post")
         :: trace (self_state c).
Proof.
  intros Hu Hp Hk Hobf Hgw Hct Hjson Hmsg Hcode H409 H429.
  rewrite (init_session_eq _ _ _ _ _ _ Hu Hp Hk), Hobf.
  set (lbody := login_body username password timestamp key) in *.
  set (st0 := with_action_result (fun _ => new_action_result) (self_state c)).
  set (rq := request_of (self_state c) "/api/v1/authenticatedSession" [] [] lbody "post")
    in *.
  destruct (helper_returns fuel "/api/v1/authenticatedSession" [] [] lbody "post" st0 r)
    as (v' & p & ar & Hrun & Hproc); [repeat constructor|exact Hgw|done|done|].
  change (request_of st0 "/api/v1/authenticatedSession" [] [] lbody "post")
    with rq in Hproc, Hrun.
  assert (v' = APP_ERROR /\ message ar = VStr msg) as [-> Har].
  { revert Hproc. unfold _process_response. msimpl. rewrite Hct.
    unfold _process_json_response. rewrite Hjson, Hmsg.
    destruct (Z.leb_spec 200 (status_code r)), (Z.ltb_spec (status_code r) 399);
      try lia; msimpl; unfold answered; msimpl; intros [= <- _ <-]; done. }
  unfold cbind at 1, on_state at 1, with_local_action_result.
  fold st0. rewrite Hrun. cbn [fst snd].
  change (is_fail APP_ERROR) with true. cbn iota.
  unfold answered. conn_simpl. rewrite Har.
  eexists. split; [reflexivity|]. conn_simpl. by repeat split.
Qed.

Lemma login_refused_witness :
  exists c',
    _init_session 1 1700000123456
      (sample_connector "test_connectivity"
         (constant_gateway
            (Responded (json_response 401
               (VDict [("code", VStr "AUTHENTICATION_FAILED");
                       ("message", VStr "AUTHENTICATION_FAILED")])))))
    = (Return APP_ERROR, c')
    /\ connector_message c' = "Error starting Zscaler session: AUTHENTICATION_FAILED".
Proof.
  destruct (login_refused 0 1700000123456
              (sample_connector "test_connectivity"
                 (constant_gateway
                    (Responded (json_response 401
                       (VDict [("code", VStr "AUTHENTICATION_FAILED");
                               ("message", VStr "AUTHENTICATION_FAILED")])))))
              "admin@example.com" "secret" "abcdefghijklmnop"
              "1700000123456" "bcdefgcidjek" "AUTHENTICATION_FAILED"
              (json_response 401
                 (VDict [("code", VStr "AUTHENTICATION_FAILED");
                         ("message", VStr "AUTHENTICATION_FAILED")]))
              (VDict [("code", VStr "AUTHENTICATION_FAILED");
                      ("message", VStr "AUTHENTICATION_FAILED")]))
    as (c' & Hrun & _ & Hmsg & _).
  - reflexivity.
  - reflexivity.
  - reflexivity.
  - reflexivity.
  - reflexivity.
  - reflexivity.
  - reflexivity.
  - reflexivity.
  - simpl. lia.
  - simpl. lia.
  - simpl. lia.
  - exists c'. split; [exact Hrun|exact Hmsg].
Defined.

(** X13.  A login that the gateway accepts without sending a Set-Cookie
    header does not end in a status: the subscript on the response headers
    raises [KeyError], which nothing in [_init_session] catches.  The
    session headers and the connector's status stay as they were. *)
Theorem login_without_cookie (fuel : nat) (clock_ms : Z) (c : connector)
    (username password api_key timestamp key : string) (r : response) (v : pyval) :
  config c !! "username" = Some username ->
  config c !! "password" = Some password ->
  config c !! "api_key" = Some api_key ->
  _obfuscate_api_key clock_ms api_key = Ok (timestamp, key) ->
  gateway (self_state c) (trace (self_state c))
    (request_of (self_state c) "/api/v1/authenticatedSession" [] []
       (login_body username password timestamp key) "post")
  = Responded r ->
  Py.contains "json" (content_type r) = true ->
  json r = inr v ->
  200 <= status_code r < 399 ->
  header_subscript (headers r) "Set-Cookie" = Raise KeyError ->
  exists c',
    _init_session (S fuel) clock_ms c = (Throw KeyError, c')
    /\ _headers (self_state c') = _headers (self_state c)
    /\ connector_status c' = connector_status c
    /\ connector_message c' = connector_message c.
Proof.
  intros Hu Hp Hk Hobf Hgw Hct Hjson Hcode Hcookie.
  rewrite (init_session_eq _ _ _ _ _ _ Hu Hp Hk), Hobf.
  set (body := login_body username password timestamp key) in *.
  set (st0 := with_action_result (fun _ => new_action_result) (self_state c)).
  set (rq := request_of (self_state c) "/api/v1/authenticatedSession" [] [] body "post")
    in *.
  destruct (helper_returns fuel "/api/v1/authenticatedSession" [] [] body "post" st0 r)
    as (v' & p & ar & Hrun & Hproc); [repeat constructor|exact Hgw|lia|lia|].
  destruct (process_response_json_success r v
              (set_response r (log_event (Call rq) st0)) Hct Hjson Hcode)
    as (ar' & Hproc').
  change (request_of st0 "/api/v1/authenticatedSession" [] [] body "post")
    with rq in Hproc, Hrun.
  rewrite Hproc' in Hproc. injection Hproc as <- <- _.
  unfold cbind at 1, on_state at 1, with_local_action_result.
  fold st0. rewrite Hrun. cbn [fst snd].
  change (is_fail APP_SUCCESS) with false. cbn iota.
  unfold answered. conn_simpl. rewrite Hcookie. conn_simpl.
  eexists. split; [reflexivity|]. conn_simpl. by repeat split.
Qed.

Lemma login_without_cookie_witness :
  exists c',
    _init_session 1 1700000123456
      (sample_connector "test_connectivity"
         (constant_gateway
            (Responded (json_response 200 (VDict [("authType", VStr "ADMIN_LOGIN")])))))
    = (Throw KeyError, c').
Proof.
  destruct (login_without_cookie 0 1700000123456
              (sample_connector "test_connectivity"
                 (constant_gateway
                    (Responded (json_response 200
                                  (VDict [("authType", VStr "ADMIN_LOGIN")])))))
              "admin@example.com" "secret" "abcdefghijklmnop"
              "1700000123456" "bcdefgcidjek"
              (json_response 200 (VDict [("authType", VStr "ADMIN_LOGIN")]))
              (VDict [("authType", VStr "ADMIN_LOGIN")]))
    as (c' & Hrun & _).
  - reflexivity.
  - reflexivity.
  - reflexivity.
  - reflexivity.
  - reflexivity.
  - reflexivity.
  - reflexivity.
  - simpl. lia.
  - reflexivity.
  - exists c'. exact Hrun.
Defined.

End Login.

Section Startup.
Local Open Scope Z_scope.

Lemma rstrip_char_spec (s : string) :
  exists k, s = rstrip_char "/" s +:+ slashes k
            /\ ends_with "/" (rstrip_char "/" s) = false.
Proof.
  induction s as [|a s (k & Hs & Hend)]; [by exists 0%nat|].
  cbn [rstrip_char]. destruct (rstrip_char "/" s) as [|b t] eqn:Hr.
  - rewrite append_nil_l in Hs. destruct (Ascii.eqb_spec a "/") as [->|Hne].
    + exists (S k). by rewrite Hs.
    + exists k. rewrite Hs. split; [done|]. simpl. by apply Ascii.eqb_neq.
  - exists k. rewrite append_cons, <- Hs. done.
Qed.

(** The login request of a connector with base URL [base] and session
    headers [h]. *)
Lemma init_session_requests fuel clock_ms c :
  let P := fun ev =>
    match ev with
    | Call rq =>
        method rq = "post"
        /\ url rq = _base_url (self_state c) +:+ "/api/v1/authenticatedSession"
        /\ req_headers rq = dict_update [] (_headers (self_state c))
    | Sleep _ => True
    end in
  let c' := (_init_session fuel clock_ms c).2 in
  _base_url (self_state c') = _base_url (self_state c)
  /\ action_result (self_state c') = action_result (self_state c)
  /\ exists evs, trace (self_state c') = evs ++ trace (self_state c) /\ Forall P evs.
Proof.
  intros P c'. subst c'.
  destruct (_init_session fuel clock_ms c) as [o c'] eqn:Hrun. cbn [snd].
  assert (_base_url (self_state c) = _base_url (self_state c)
          /\ action_result (self_state c) = action_result (self_state c)
          /\ exists evs, trace (self_state c) = evs ++ trace (self_state c)
                         /\ Forall P evs) as Hsame.
  { split; [done|]. split; [done|]. by exists []. }
  revert Hrun. unfold _init_session, cbind at 1, config_item at 1.
  destruct (config c !! "username") as [username|]; [|by intros [= <- <-]].
  unfold cbind at 1, config_item at 1.
  destruct (config c !! "password") as [password|]; [|by intros [= <- <-]].
  unfold cbind at 1, config_item at 1.
  destruct (config c !! "api_key") as [api_key|]; [|by intros [= <- <-]].
  destruct (_obfuscate_api_key clock_ms api_key) as [[timestamp key]|e];
    [|by intros [= <- <-]].
  set (body := login_body username password timestamp key).
  set (st0 := with_action_result (fun _ => new_action_result) (self_state c)).
  destruct (helper_within (_base_url (self_state c)) (_headers (self_state c)) fuel
              "/api/v1/authenticatedSession" [] [] body "post" st0 eq_refl eq_refl)
    as ((_ & Hbase & Hh & _) & evs & Htrace & Hevs).
  assert (Forall P evs) as HP.
  { apply (Forall_impl _ _ _ Hevs). intros [rq|n] Hev; [|done].
    simpl in Hev. by subst rq. }
  unfold cbind at 1, on_state at 1, with_local_action_result. fold st0.
  destruct (_make_rest_call_helper fuel "/api/v1/authenticatedSession" [] [] body "post"
              st0) as [[[ret_val response]|e|] st1]; cbn [fst snd] in *;
    [|intros [= <- <-]; conn_simpl; split; [done|]; split; [done|]; by exists evs..].
  destruct (is_fail ret_val).
  { intros [= <- <-]. conn_simpl. split; [done|]. split; [done|]. by exists evs. }
  conn_simpl. destruct (_response st1) as [r|]; conn_simpl;
    [|intros [= <- <-]; conn_simpl; split; [done|]; split; [done|]; by exists evs].
  destruct (header_subscript (headers r) "Set-Cookie") as [set_cookie|e]; conn_simpl;
    (intros [= <- <-]; conn_simpl; split; [done|]; split; [done|]; by exists evs).
Qed.

(** X14.  Start-up settles the base URL before anything is sent.  Whatever
    comes of the login, after [initialize] the base URL of the connector is
    the configured one without its trailing slashes, however many there
    were; and every request [initialize] sends is a POST to that base URL
    followed by "/api/v1/authenticatedSession" that carries no header: the
    session headers are emptied before the login, so a cookie left by an
    earlier session is never sent. *)
Theorem initialize_base_url (fuel : nat) (clock_ms : Z) (c : connector)
    (base username password : string) :
  config c !! "base_url" = Some base ->
  config c !! "username" = Some username ->
  config c !! "password" = Some password ->
  let st' := self_state (initialize fuel clock_ms c).2 in
  (exists k, base = _base_url st' +:+ slashes k)
  /\ ends_with "/" (_base_url st') = false
  /\ exists evs,
       trace st' = evs ++ trace (self_state c)
       /\ Forall (fun ev =>
                    match ev with
                    | Call rq =>
                        method rq = "post"
                        /\ url rq = _base_url st' +:+ "/api/v1/authenticatedSession"
                        /\ req_headers rq = []
                    | Sleep _ => True
                    end) evs.
Proof.
  intros Hbase Hu Hp st'. subst st'.
  set (c1 := {| self_state := set_headers [] (set_base_url (rstrip_char "/" base)
                                                 (self_state c));
                config := config c; connector_status := connector_status c;
                connector_message := connector_message c |}).
  assert (initialize fuel clock_ms c = _init_session fuel clock_ms c1) as ->.
  { unfold initialize, cbind, config_item. rewrite Hbase. conn_simpl.
    rewrite Hu. conn_simpl. rewrite Hp. reflexivity. }
  destruct (init_session_requests fuel clock_ms c1) as (Hb & _ & evs & Htrace & Hevs).
  rewrite Hb. destruct (rstrip_char_spec base) as (k & Hk & Hend).
  split; [by exists k|]. split; [exact Hend|]. exists evs. split; [exact Htrace|].
  exact Hevs.
Qed.

Lemma initialize_base_url_witness :
  let c := sample_connector "lookup_ip"
             (constant_gateway (Responded (logged_in "JSESSIONID=971F41B5; Path=/"))) in
  let st' := self_state (initialize 1 1700000123456 c).2 in
  _base_url st' = "https://admin.zscaler.example"
  /\ ends_with "/" (_base_url st') = false
  /\ (fun ev => match ev with
                | Call rq => Some (method rq, url rq, req_headers rq)
                | Sleep _ => None
                end) <$> trace st'
     = [Some ("post", "https://admin.zscaler.example/api/v1/authenticatedSession", [])].
Proof.
  intros c st'.
  destruct (initialize_base_url 1 1700000123456 c "https://admin.zscaler.example//"
              "admin@example.com" "secret") as (_ & Hend & _);
    [reflexivity|reflexivity|reflexivity|].
  split; [reflexivity|]. split; [exact Hend|reflexivity].
Defined.

(** X15.  Logging out never fails the run and never touches the result of
    the action.  Whatever the gateway does with the DELETE of the session,
    [_deinit_session] returns success if it returns at all, and the action
    result is afterwards what it was before; when the gateway answers with
    anything but 409 or 429, be it an error, it does return, after that
    one request. *)
Theorem deinit_session_reports_success (fuel : nat) (st : state) :
  (forall v st', _deinit_session fuel st = (Return v, st') -> v = APP_SUCCESS)
  /\ action_result (_deinit_session fuel st).2 = action_result st
  /\ session_kept st (_deinit_session fuel st).2
  /\ (forall r,
        gateway st (trace st)
          (request_of st "/api/v1/authenticatedSession" [] [] VNone "delete")
        = Responded r ->
        status_code r <> 409 -> status_code r <> 429 ->
        exists st',
          _deinit_session (S fuel) st = (Return APP_SUCCESS, st')
          /\ trace st'
             = Call (request_of st "/api/v1/authenticatedSession" [] [] VNone "delete")
               :: trace st).
Proof.
  set (st0 := with_action_result (fun _ => new_action_result) st).
  split; [|split; [|split]].
  - intros v st'. unfold _deinit_session, bind, with_local_action_result. fold st0.
    destruct (_make_rest_call_helper fuel _ _ _ _ _ st0) as [[x|e|] st1];
      cbn [fst snd]; [|done..]. by intros [= <- _].
  - unfold _deinit_session, bind, with_local_action_result. fold st0.
    destruct (_make_rest_call_helper fuel _ _ _ _ _ st0) as [[x|e|] st1];
      cbn [fst snd]; reflexivity.
  - destruct (helper_within (_base_url st) (_headers st) fuel
                "/api/v1/authenticatedSession" [] [] VNone "delete" st0 eq_refl eq_refl)
      as (Hkept & _).
    unfold _deinit_session, bind, with_local_action_result. fold st0.
    destruct (_make_rest_call_helper fuel _ _ _ _ _ st0) as [[x|e|] st1];
      cbn [fst snd] in *; exact Hkept.
  - intros r Hgw H409 H429.
    destruct (helper_returns fuel "/api/v1/authenticatedSession" [] [] VNone "delete"
                st0 r) as (v & p & ar & Hrun & _);
      [repeat constructor|exact Hgw|done|done|].
    unfold _deinit_session, bind, with_local_action_result. fold st0.
    rewrite Hrun. cbn [fst snd]. eexists. split; [reflexivity|]. done.
Qed.

Lemma deinit_session_reports_success_witness :
  exists st',
    _deinit_session 1
      (start "block_url"
         (constant_gateway (Responded (json_response 500
            (VDict [("message", VStr "Internal error")])))))
    = (Return APP_SUCCESS, st')
    /\ action_result st' = new_action_result.
Proof.
  destruct (deinit_session_reports_success 0
              (start "block_url"
                 (constant_gateway (Responded (json_response 500
                    (VDict [("message", VStr "Internal error")]))))))
    as (_ & _ & _ & Hreturns).
  destruct (Hreturns (json_response 500 (VDict [("message", VStr "Internal error")])))
    as (st' & Hrun & _); [reflexivity|simpl; lia|simpl; lia|].
  exists st'. split; [exact Hrun|].
  apply (f_equal (fun run => action_result run.2)) in Hrun. simpl in Hrun.
  rewrite <- Hrun. reflexivity.
Defined.

Lemma init_session_success_cookie fuel clock_ms c c' :
  _init_session fuel clock_ms c = (Return APP_SUCCESS, c') ->
  exists cookie, _headers (self_state c') = [("cookie", cookie)].
Proof.
  unfold _init_session, cbind at 1, config_item at 1.
  destruct (config c !! "username") as [username|]; [|done].
  unfold cbind at 1, config_item at 1.
  destruct (config c !! "password") as [password|]; [|done].
  unfold cbind at 1, config_item at 1.
  destruct (config c !! "api_key") as [api_key|]; [|done].
  destruct (_obfuscate_api_key clock_ms api_key) as [[timestamp key]|e]; [|done].
  unfold cbind at 1, on_state at 1, with_local_action_result.
  destruct (_make_rest_call_helper fuel _ _ _ _ _ _) as [[[ret_val response]|e|] st1];
    cbn [fst snd]; [|done..].
  destruct (is_fail ret_val); [done|].
  conn_simpl. destruct (_response st1) as [r|]; conn_simpl; [|done].
  destruct (header_subscript (headers r) "Set-Cookie") as [set_cookie|e]; conn_simpl;
    [|done].
  intros [= <-]. by eexists.
Qed.

(** X16.  Login and action together: once [_init_session] has returned
    success, the session headers are a single [cookie] header, and whatever
    action is then run, with whatever parameters and whatever answers from
    the gateway, every request it sends carries exactly that header, and
    the header is still in place when the action ends. *)
Theorem requests_carry_login_cookie (fuel : nat) (clock_ms : Z) (c c' : connector)
    (fuel' : nat) (param : gmap string string) :
  _init_session fuel clock_ms c = (Return APP_SUCCESS, c') ->
  exists cookie evs,
    _headers (self_state c') = [("cookie", cookie)]
    /\ trace (handle_action fuel' param (self_state c')).2
       = evs ++ trace (self_state c')
    /\ Forall (fun ev =>
                 match ev with
                 | Call rq => req_headers rq = [("cookie", cookie)]
                 | Sleep _ => True
                 end) evs
    /\ _headers (handle_action fuel' param (self_state c')).2 = [("cookie", cookie)].
Proof.
  intros Hlogin.
  destruct (init_session_success_cookie fuel clock_ms c c' Hlogin) as [cookie Hcookie].
  destruct (handle_action_within (_base_url (self_state c')) (_headers (self_state c'))
              fuel' param (self_state c') eq_refl eq_refl)
    as ((_ & _ & Hh & _) & evs & Htrace & Hevs).
  exists cookie, evs. split; [exact Hcookie|]. split; [exact Htrace|].
  split; [|by rewrite Hh].
  apply (Forall_impl _ _ _ Hevs). intros [rq|n]; [|done].
  intros [_ Hrq]. by rewrite Hrq, Hcookie.
Qed.

Lemma requests_carry_login_cookie_witness :
  let c := sample_connector "lookup_ip"
             (constant_gateway (Responded (logged_in "JSESSIONID=971F41B5; Path=/"))) in
  let c' := (_init_session 1 1700000123456 c).2 in
  exists cookie evs,
    _headers (self_state c') = [("cookie", cookie)]
    /\ trace (handle_action 2 {[ "ip" := "1.2.3.4" ]} (self_state c')).2
       = evs ++ trace (self_state c')
    /\ Forall (fun ev =>
                 match ev with
                 | Call rq => req_headers rq = [("cookie", cookie)]
                 | Sleep _ => True
                 end) evs
    /\ _headers (handle_action 2 {[ "ip" := "1.2.3.4" ]} (self_state c')).2
       = [("cookie", cookie)].
Proof.
  intros c c'.
  apply (requests_carry_login_cookie 1 1700000123456 c c' 2 {[ "ip" := "1.2.3.4" ]}).
  vm_compute. reflexivity.
Defined.

End Startup.

(** ** What the mutations read and write *)

Section Writes.
Local Open Scope Z_scope.

Lemma helper_json_success fuel endpoint headers params sent verb st r v :
  verb ∈ request_functions ->
  gateway st (trace st) (request_of st endpoint headers params sent verb)
  = Responded r ->
  Py.contains "json" (content_type r) = true -> json r = inr v ->
  200 <= status_code r < 399 ->
  exists ar,
    _make_rest_call_helper (S fuel) endpoint headers params sent verb st
    = (Return (APP_SUCCESS, v),
       answered (request_of st endpoint headers params sent verb) r ar st)
    /\ status ar = status (action_result st)
    /\ message ar = message (action_result st)
    /\ summary ar = summary (action_result st)
    /\ data ar = data (action_result st).
Proof.
  intros Hm Hgw Hct Hjson Hcode.
  set (rq := request_of st endpoint headers params sent verb) in *.
  destruct (helper_returns fuel endpoint headers params sent verb st r Hm Hgw)
    as (v' & p & ar & Hrun & Hproc); [lia|lia|].
  fold rq in Hrun, Hproc.
  destruct (process_response_json_success r v
              (set_response r (log_event (Call rq) st)) Hct Hjson Hcode)
    as (ar' & Hproc').
  destruct (process_response_shape r (set_response r (log_event (Call rq) st)))
    as (v2 & p2 & st2 & Hshape & _ & Hsum & Hdata & Hcases).
  rewrite Hproc in Hproc', Hshape. injection Hproc' as -> -> _.
  injection Hshape as <- <- <-.
  exists ar. split; [exact Hrun|].
  destruct Hcases as [(_ & _ & Hst & Hmsg)|(? & _)]; [|done].
  by repeat split.
Qed.

Lemma helper_failure fuel endpoint headers params sent verb st r :
  verb ∈ request_functions ->
  gateway st (trace st) (request_of st endpoint headers params sent verb)
  = Responded r ->
  status_code r <> 409 -> status_code r <> 429 ->
  status_code r < 200 \/ 399 <= status_code r ->
  exists ar,
    _make_rest_call_helper (S fuel) endpoint headers params sent verb st
    = (Return (APP_ERROR, VNone),
       answered (request_of st endpoint headers params sent verb) r ar st)
    /\ status ar = false
    /\ summary ar = summary (action_result st)
    /\ data ar = data (action_result st).
Proof.
  intros Hm Hgw H409 H429 Hcode.
  set (rq := request_of st endpoint headers params sent verb) in *.
  destruct (helper_returns fuel endpoint headers params sent verb st r Hm Hgw H409 H429)
    as (v' & p & ar & Hrun & Hproc).
  fold rq in Hrun, Hproc.
  destruct (process_response_shape r (set_response r (log_event (Call rq) st)))
    as (v2 & p2 & st2 & Hshape & _ & Hsum & Hdata & Hcases).
  rewrite Hproc in Hshape. injection Hshape as <- <- <-.
  destruct Hcases as [(_ & ? & _)|(-> & -> & Hst)]; [lia|].
  exists ar. split; [exact Hrun|]. by repeat split.
Qed.

Lemma bind_silent {A B} (m : M A) (k : A -> M B) st :
  (forall a, emits (fun _ => False) (k a)) ->
  trace (bind m k st).2 = trace (m st).2.
Proof.
  intros Hk. unfold bind. destruct (m st) as [[a|e|] st1]; [|done..].
  destruct (Hk a st1) as (evs & Htr & Hevs). simpl. rewrite Htr.
  destruct evs as [|ev evs]; [done|]. by inversion Hevs.
Qed.

(** X17.  A mutation whose read fails writes nothing.  When the gateway
    answers the fetch of the block list, of the allow list or of the
    category list with an error (a status code outside 200..398 that is
    neither 409 nor 429), the mutation returns the error status after that
    one GET: no write follows, and the summary and the data of the action
    result are as they were. *)
Theorem failed_read_never_writes (fuel : nat) (R : list string) (action : string)
    (st : state) (r : response) :
  status_code r <> 409 -> status_code r <> 429 ->
  status_code r < 200 \/ 399 <= status_code r ->
  let aborted := fun (endpoint : string) (run : outcome pyval * state) =>
    run.1 = Return APP_ERROR
    /\ trace run.2 = Call (request_of st endpoint [] [] VNone "get") :: trace st
    /\ status (action_result run.2) = false
    /\ summary (action_result run.2) = summary (action_result st)
    /\ data (action_result run.2) = data (action_result st) in
  (gateway st (trace st) (request_of st "/api/v1/security/advanced" [] [] VNone "get")
   = Responded r ->
   aborted "/api/v1/security/advanced" (_amend_blocklist (S fuel) R action st))
  /\ (gateway st (trace st) (request_of st "/api/v1/security" [] [] VNone "get")
      = Responded r ->
      aborted "/api/v1/security" (_amend_allowlist (S fuel) R action st))
  /\ (forall category,
        gateway st (trace st) (request_of st "/api/v1/urlCategories" [] [] VNone "get")
        = Responded r ->
        aborted "/api/v1/urlCategories" (_amend_category (S fuel) R category action st)).
Proof.
  intros H409 H429 Hcode aborted.
  assert (forall endpoint,
            gateway st (trace st) (request_of st endpoint [] [] VNone "get") = Responded r ->
            exists st1,
              _make_rest_call_helper (S fuel) endpoint [] [] VNone "get" st
              = (Return (APP_ERROR, VNone), st1)
              /\ aborted endpoint (Return APP_ERROR, st1)) as Hread.
  { intros endpoint Hgw.
    destruct (helper_failure fuel endpoint [] [] VNone "get" st r)
      as (ar & Hrun & Hst & Hsum & Hdata); [repeat constructor|done..|].
    eexists. split; [exact Hrun|]. by repeat split. }
  split; [|split].
  - intros Hgw. destruct (Hread _ Hgw) as (st1 & Hrun & Hab).
    unfold _amend_blocklist, _check_blocklist, _get_blocklist, bind at 1 2.
    rewrite Hrun. exact Hab.
  - intros Hgw. destruct (Hread _ Hgw) as (st1 & Hrun & Hab).
    unfold _amend_allowlist, _check_allowlist, _get_allowlist, bind at 1 2.
    rewrite Hrun. exact Hab.
  - intros category Hgw. destruct (Hread _ Hgw) as (st1 & Hrun & Hab).
    unfold _amend_category, _check_category, _get_category, bind at 1 2 3.
    rewrite Hrun. exact Hab.
Qed.

Lemma failed_read_never_writes_witness :
  let st := start "block_url"
              (constant_gateway (Responded (json_response 500
                 (VDict [("message", VStr "Internal error")])))) in
  let run := _amend_blocklist 1 ["a.com"] "ADD_TO_LIST" st in
  run.1 = Return APP_ERROR
  /\ trace run.2 = [Call (request_of st "/api/v1/security/advanced" [] [] VNone "get")]
  /\ status (action_result run.2) = false
  /\ summary (action_result run.2) = ∅
  /\ data (action_result run.2) = [].
Proof.
  intros st run.
  destruct (failed_read_never_writes 0 ["a.com"] "ADD_TO_LIST" st
              (json_response 500 (VDict [("message", VStr "Internal error")])))
    as (Hblock & _); [simpl; lia|simpl; lia|right; simpl; lia|].
  apply Hblock. reflexivity.
Defined.

(** The requests of one call of the executor: the first, and after it
    nothing but its repetitions and pauses. *)
Lemma helper_trace fuel endpoint headers params sent verb st :
  verb ∈ request_functions ->
  exists evs,
    trace (_make_rest_call_helper (S fuel) endpoint headers params sent verb st).2
    = evs ++ Call (request_of st endpoint headers params sent verb) :: trace st
    /\ Forall (repeats (request_of st endpoint headers params sent verb)) evs.
Proof.
  intros Hm.
  destruct (helper_sends_first fuel endpoint headers params sent verb st Hm)
    as (evs & Hfirst).
  destruct (helper_within (_base_url st) (_headers st) (S fuel) endpoint headers params
              sent verb st eq_refl eq_refl) as (_ & evs' & Hall & Hrep).
  exists evs. split; [exact Hfirst|].
  rewrite Hfirst in Hall.
  change (evs ++ Call (request_of st endpoint headers params sent verb) :: trace st)
    with (evs ++ [Call (request_of st endpoint headers params sent verb)] ++ trace st)
    in Hall.
  rewrite app_assoc in Hall. apply app_inv_tail in Hall. subst evs'.
  by apply Forall_app in Hrep as [Hrep _].
Qed.

Lemma delta_elements action (R E : gset string) :
  delta action R E <> ∅ ->
  exists x f, elements (delta action R E) = x :: f.
Proof.
  intros Hne. destruct (elements (delta action R E)) as [|x f] eqn:Hel; [|by eauto].
  by apply elements_empty_inv, leibniz_equiv in Hel.
Qed.

(** X18.  What a block-list mutation writes.  When the fetched block list
    is [E] and the delta is not empty, the write is a POST to
    ".../security/advanced/blacklistUrls" with the action in the query
    string, whose body holds under [blacklistUrls] the delta alone, not
    the whole list: a list without repetitions, even if the request
    repeats an endpoint, that makes up [R - E] for an addition and
    [R ∩ E] for a removal.  Whatever the mutation sends after it is that
    same request again.  A fetched object that lacks [blacklistUrls]
    stands for the empty list. *)
Theorem blocklist_write_request (fuel : nat) (R E : list string) (action : string)
    (st st1 : state) (rv fetched : pyval) :
  _get_blocklist (S fuel) st = (Return (rv, fetched), st1) ->
  is_fail rv = false ->
  py_get fetched "blacklistUrls" (VList []) = Ok (str_list E) ->
  delta action (list_to_set R) (list_to_set E) <> ∅ ->
  exists f evs,
    NoDup f
    /\ list_to_set f = delta action (list_to_set R) (list_to_set E)
    /\ trace (_amend_blocklist (S fuel) R action st).2
       = evs ++ Call (request_of st1 "/api/v1/security/advanced/blacklistUrls" []
                        [("action", action)]
                        (VDict [("blacklistUrls", str_list f)]) "post")
              :: trace st1
    /\ Forall (repeats (request_of st1 "/api/v1/security/advanced/blacklistUrls" []
                          [("action", action)]
                          (VDict [("blacklistUrls", str_list f)]) "post")) evs.
Proof.
  intros Hget Hok Hfield Hdelta.
  destruct (delta_elements _ _ _ Hdelta) as (x & f & Hel).
  exists (x :: f).
  destruct (helper_trace fuel "/api/v1/security/advanced/blacklistUrls" []
              [("action", action)] (VDict [("blacklistUrls", str_list (x :: f))])
              "post" st1) as (evs & Htrace & Hrep); [repeat constructor|].
  exists evs. split; [rewrite <- Hel; apply NoDup_elements|].
  split; [by rewrite <- Hel, list_to_set_elements_L|]. split; [|exact Hrep].
  rewrite <- Htrace.
  unfold _amend_blocklist, _check_blocklist, bind at 1 2. rewrite Hget, Hok.
  unfold bind at 1. rewrite Hfield. msimpl.
  rewrite (filter_endpoints_eq _ _ _ _ (list_to_set E) _ (py_set_str_list E)), Hel.
  change (is_fail APP_SUCCESS) with false. cbn iota.
  apply bind_silent. intros [ret_val response].
  unfold report_summary, set_summary_empty. emits_auto.
Qed.

Lemma blocklist_write_request_witness :
  let st := start "block_url" (blocklist_gateway ["b.com"]) in
  let st1 := (_get_blocklist 1 st).2 in
  exists f evs,
    NoDup f
    /\ list_to_set f
       = delta "ADD_TO_LIST" (list_to_set ["a.com"; "b.com"; "a.com"])
           (list_to_set ["b.com"])
    /\ trace (_amend_blocklist 1 ["a.com"; "b.com"; "a.com"] "ADD_TO_LIST" st).2
       = evs ++ Call (request_of st1 "/api/v1/security/advanced/blacklistUrls" []
                        [("action", "ADD_TO_LIST")]
                        (VDict [("blacklistUrls", str_list f)]) "post")
              :: trace st1
    /\ Forall (repeats (request_of st1 "/api/v1/security/advanced/blacklistUrls" []
                          [("action", "ADD_TO_LIST")]
                          (VDict [("blacklistUrls", str_list f)]) "post")) evs.
Proof.
  intros st st1.
  apply (blocklist_write_request 0 ["a.com"; "b.com"; "a.com"] ["b.com"] "ADD_TO_LIST"
           st st1 APP_SUCCESS (VDict [("blacklistUrls", str_list ["b.com"])])).
  - vm_compute. reflexivity.
  - reflexivity.
  - reflexivity.
  - intros Hempty.
    assert ("a.com" ∈ delta "ADD_TO_LIST" (list_to_set ["a.com"; "b.com"; "a.com"])
                      (list_to_set ["b.com"] : gset string)) as Hin.
    { apply (bool_decide_eq_true_1 _). vm_compute. reflexivity. }
    rewrite Hempty in Hin. by apply not_elem_of_empty in Hin.
Defined.

Lemma merged_list_add (E f : list string) :
  merged_list (str_list E) f "ADD_TO_LIST"
  = Ok (elements (list_to_set E ∪ list_to_set f : gset string)).
Proof.
  unfold merged_list. cbn [String.eqb Ascii.eqb Bool.eqb]. unfold str_list.
  rewrite <- fmap_app. fold (str_list (E ++ f)).
  by rewrite py_set_str_list, list_to_set_app_L.
Qed.

Lemma merged_list_remove (E f : list string) :
  merged_list (str_list E) f "REMOVE_FROM_LIST"
  = Ok (elements (list_to_set E ∖ list_to_set f : gset string)).
Proof.
  unfold merged_list. cbn [String.eqb Ascii.eqb Bool.eqb].
  by rewrite py_set_str_list.
Qed.

(** The list written back as a whole. *)
Lemma merged_list_spec (E R : list string) (action : string) :
  action = "ADD_TO_LIST" \/ action = "REMOVE_FROM_LIST" ->
  exists L,
    merged_list (str_list E)
      (elements (delta action (list_to_set R) (list_to_set E))) action = Ok L
    /\ NoDup L
    /\ list_to_set L
       = (if String.eqb action "ADD_TO_LIST"
          then list_to_set E ∪ list_to_set R
          else list_to_set E ∖ list_to_set R : gset string).
Proof.
  intros [->| ->].
  - rewrite merged_list_add. eexists. split; [reflexivity|].
    split; [apply NoDup_elements|]. rewrite !list_to_set_elements_L.
    unfold delta. cbn [String.eqb Ascii.eqb Bool.eqb].
    apply set_eq. intros x. rewrite !elem_of_union, elem_of_difference.
    destruct (decide (x ∈ (list_to_set E : gset string))); tauto.
  - rewrite merged_list_remove. eexists. split; [reflexivity|].
    split; [apply NoDup_elements|]. rewrite !list_to_set_elements_L.
    unfold delta. cbn [String.eqb Ascii.eqb Bool.eqb].
    apply set_eq. intros x. rewrite !elem_of_difference, elem_of_intersection.
    tauto.
Qed.

(** X19.  What an allow-list mutation writes.  When the fetched allow list
    is [E] and the delta is not empty, the write is a PUT to
    ".../security" whose body holds under [whitelistUrls] the whole list as
    it is to be: without repetitions, and made up of [E ∪ R] for an
    addition and of [E - R] for a removal.  Whatever the mutation sends
    after it is that same request again. *)
Theorem allowlist_write_request (fuel : nat) (R E : list string) (action : string)
    (st st1 : state) (rv fetched : pyval) :
  action = "ADD_TO_LIST" \/ action = "REMOVE_FROM_LIST" ->
  _get_allowlist (S fuel) st = (Return (rv, fetched), st1) ->
  is_fail rv = false ->
  py_get fetched "whitelistUrls" (VList []) = Ok (str_list E) ->
  delta action (list_to_set R) (list_to_set E) <> ∅ ->
  exists L evs,
    NoDup L
    /\ list_to_set L
       = (if String.eqb action "ADD_TO_LIST"
          then list_to_set E ∪ list_to_set R
          else list_to_set E ∖ list_to_set R : gset string)
    /\ trace (_amend_allowlist (S fuel) R action st).2
       = evs ++ Call (request_of st1 "/api/v1/security" [] []
                        (VDict [("whitelistUrls", str_list L)]) "put")
              :: trace st1
    /\ Forall (repeats (request_of st1 "/api/v1/security" [] []
                          (VDict [("whitelistUrls", str_list L)]) "put")) evs.
Proof.
  intros Haction Hget Hok Hfield Hdelta.
  destruct (delta_elements _ _ _ Hdelta) as (x & f & Hel).
  destruct (merged_list_spec E R action Haction) as (L & Hmerged & Hnodup & HL).
  exists L.
  destruct (helper_trace fuel "/api/v1/security" [] []
              (VDict [("whitelistUrls", str_list L)]) "put"
              (set_allowlist (str_list E) st1)) as (evs & Htrace & Hrep);
    [repeat constructor|].
  exists evs. split; [exact Hnodup|]. split; [exact HL|]. split; [|exact Hrep].
  change (trace (set_allowlist (str_list E) st1)) with (trace st1) in Htrace.
  change (request_of (set_allowlist (str_list E) st1)) with (request_of st1) in Htrace.
  rewrite <- Htrace.
  unfold _amend_allowlist, _check_allowlist, bind at 1 2. rewrite Hget, Hok.
  unfold bind at 1. rewrite Hfield. msimpl.
  rewrite (filter_endpoints_eq _ _ _ _ (list_to_set E) _ (py_set_str_list E)), Hel.
  change (is_fail APP_SUCCESS) with false. cbn iota. msimpl.
  rewrite <- Hel, Hmerged. msimpl.
  apply bind_silent. intros [ret_val response].
  unfold report_summary, set_summary_empty, add_data. emits_auto.
Qed.

Lemma allowlist_write_request_witness :
  let st := start "unallow_url" allowlist_gateway_ok in
  let st1 := (_get_allowlist 1 st).2 in
  exists L evs,
    NoDup L
    /\ list_to_set L = (list_to_set ["a.com"] ∖ list_to_set ["a.com"; "b.com"]
                        : gset string)
    /\ trace (_amend_allowlist 1 ["a.com"; "b.com"] "REMOVE_FROM_LIST" st).2
       = evs ++ Call (request_of st1 "/api/v1/security" [] []
                        (VDict [("whitelistUrls", str_list L)]) "put")
              :: trace st1
    /\ Forall (repeats (request_of st1 "/api/v1/security" [] []
                          (VDict [("whitelistUrls", str_list L)]) "put")) evs.
Proof.
  intros st st1.
  apply (allowlist_write_request 0 ["a.com"; "b.com"] ["a.com"] "REMOVE_FROM_LIST"
           st st1 APP_SUCCESS (VDict [("whitelistUrls", str_list ["a.com"])])).
  - by right.
  - vm_compute. reflexivity.
  - reflexivity.
  - reflexivity.
  - intros Hempty.
    assert ("a.com" ∈ delta "REMOVE_FROM_LIST" (list_to_set ["a.com"; "b.com"])
                      (list_to_set ["a.com"] : gset string)) as Hin.
    { apply (bool_decide_eq_true_1 _). vm_compute. reflexivity. }
    rewrite Hempty in Hin. by apply not_elem_of_empty in Hin.
Defined.

Lemma dict_get_set_eq {V} (d : list (string * V)) k v :
  dict_get (dict_set d k v) k = Some v.
Proof.
  induction d as [|[k' v'] d IH]; simpl.
  - by rewrite String.eqb_refl.
  - destruct (String.eqb k' k) eqn:Hk; simpl; by rewrite Hk.
Qed.

Lemma dict_get_set_ne {V} (d : list (string * V)) k k' v :
  k' <> k -> dict_get (dict_set d k v) k' = dict_get d k'.
Proof.
  intros Hne. induction d as [|[k0 v0] d IH]; simpl.
  - destruct (String.eqb_spec k k'); [congruence|done].
  - destruct (String.eqb_spec k0 k) as [->|Hk]; simpl.
    + destruct (String.eqb_spec k k'); [congruence|done].
    + by destruct (String.eqb k0 k').
Qed.

(** X20.  What a category mutation writes.  When the category found is the
    object [dcat], with the list [E] under [dbCategorizedUrls], and the
    delta is not empty, the write is a PUT to ".../urlCategories/<id>",
    [id] being the [id] of that object (a text, or another value that is
    neither a list nor an object), and its body is the fetched object
    with [dbCategorizedUrls] replaced by the whole list as it is to be
    ([E ∪ R] for an addition, [E - R] for a removal, without repetitions):
    every other field goes back as it came.  Whatever the mutation sends
    after it is that same request again. *)
Theorem category_write_request (fuel : nat) (R E : list string)
    (category action : string) (st st1 : state) (rv id : pyval)
    (dcat : list (string * pyval)) :
  action = "ADD_TO_LIST" \/ action = "REMOVE_FROM_LIST" ->
  _get_category (S fuel) category st = (Return (rv, VDict dcat), st1) ->
  is_fail rv = false ->
  py_get (VDict dcat) "dbCategorizedUrls" (VList []) = Ok (str_list E) ->
  dict_get dcat "id" = Some id ->
  plain id ->
  delta action (list_to_set R) (list_to_set E) <> ∅ ->
  exists L body evs,
    NoDup L
    /\ list_to_set L
       = (if String.eqb action "ADD_TO_LIST"
          then list_to_set E ∪ list_to_set R
          else list_to_set E ∖ list_to_set R : gset string)
    /\ dict_get body "dbCategorizedUrls" = Some (str_list L)
    /\ (forall k, k <> "dbCategorizedUrls" -> dict_get body k = dict_get dcat k)
    /\ trace (_amend_category (S fuel) R category action st).2
       = evs ++ Call (request_of st1 ("/api/v1/urlCategories/" +:+ py_format id) [] []
                        (VDict body) "put")
              :: trace st1
    /\ Forall (repeats (request_of st1 ("/api/v1/urlCategories/" +:+ py_format id)
                          [] [] (VDict body) "put")) evs.
Proof.
  intros Haction Hget Hok Hfield Hid _ Hdelta.
  destruct (delta_elements _ _ _ Hdelta) as (x & f & Hel).
  destruct (merged_list_spec E R action Haction) as (L & Hmerged & Hnodup & HL).
  set (body := dict_set dcat "dbCategorizedUrls" (str_list L)).
  exists L, body.
  destruct (helper_trace fuel ("/api/v1/urlCategories/" +:+ py_format id) [] []
              (VDict body) "put"
              (set_category (VDict body) (set_category (VDict dcat) st1)))
    as (evs & Htrace & Hrep); [repeat constructor|].
  exists evs. split; [exact Hnodup|]. split; [exact HL|].
  split; [apply dict_get_set_eq|]. split; [by intros; apply dict_get_set_ne|].
  split; [|exact Hrep].
  change (trace (set_category (VDict body) (set_category (VDict dcat) st1)))
    with (trace st1) in Htrace.
  change (request_of (set_category (VDict body) (set_category (VDict dcat) st1)))
    with (request_of st1) in Htrace.
  rewrite <- Htrace.
  unfold _amend_category, _check_category, bind at 1 2. rewrite Hget, Hok.
  msimpl. unfold bind at 1. rewrite Hfield. msimpl.
  rewrite (filter_endpoints_eq _ _ _ _ (list_to_set E) _ (py_set_str_list E)), Hel.
  change (is_fail APP_SUCCESS) with false. cbn iota. msimpl.
  rewrite Hfield. msimpl. rewrite <- Hel, Hmerged. msimpl. fold body.
  assert (py_subscript (VDict body) "id" = Ok id) as ->.
  { unfold body. cbn [py_subscript]. by rewrite dict_get_set_ne, Hid. }
  msimpl.
  apply bind_silent. intros [ret_val response].
  unfold report_summary, set_summary_empty, add_data. emits_auto.
Qed.

Lemma category_write_request_witness :
  let st := start "block_url" category_gateway in
  let st1 := (_get_category 1 "Phishing" st).2 in
  exists L body evs,
    NoDup L
    /\ list_to_set L = (list_to_set ["bad.example"] ∪ list_to_set ["worse.example"]
                        : gset string)
    /\ dict_get body "dbCategorizedUrls" = Some (str_list L)
    /\ (forall k, k <> "dbCategorizedUrls"
                  -> dict_get body k
                     = dict_get [("id", VStr "CUSTOM_01");
                                 ("configuredName", VStr "Phishing");
                                 ("dbCategorizedUrls", str_list ["bad.example"])] k)
    /\ trace (_amend_category 1 ["worse.example"] "Phishing" "ADD_TO_LIST" st).2
       = evs ++ Call (request_of st1 "/api/v1/urlCategories/CUSTOM_01" [] []
                        (VDict body) "put")
              :: trace st1
    /\ Forall (repeats (request_of st1 "/api/v1/urlCategories/CUSTOM_01" [] []
                          (VDict body) "put")) evs.
Proof.
  intros st st1.
  apply (category_write_request 0 ["worse.example"] ["bad.example"] "Phishing"
           "ADD_TO_LIST" st st1 APP_SUCCESS (VStr "CUSTOM_01")
           [("id", VStr "CUSTOM_01"); ("configuredName", VStr "Phishing");
            ("dbCategorizedUrls", str_list ["bad.example"])]).
  - by left.
  - vm_compute. reflexivity.
  - reflexivity.
  - reflexivity.
  - reflexivity.
  - exact I.
  - intros Hempty.
    assert ("worse.example" ∈ delta "ADD_TO_LIST" (list_to_set ["worse.example"])
                              (list_to_set ["bad.example"] : gset string)) as Hin.
    { apply (bool_decide_eq_true_1 _). vm_compute. reflexivity. }
    rewrite Hempty in Hin. by apply not_elem_of_empty in Hin.
Defined.

(** X21.  A list field that is present but null.  The default of
    [.get(field, [])] serves a missing field only: when the fetched object
    has the field with the value [None], building the set raises
    [TypeError], which nothing catches.  The mutation ends there, after
    its read and before any write. *)
Theorem null_list_raises (fuel : nat) (R : list string) (action : string)
    (st st1 : state) (rv : pyval) (d : list (string * pyval)) :
  is_fail rv = false ->
  (_get_blocklist fuel st = (Return (rv, VDict d), st1) ->
   dict_get d "blacklistUrls" = Some VNone ->
   _amend_blocklist fuel R action st = (Throw TypeError, st1))
  /\ (_get_allowlist fuel st = (Return (rv, VDict d), st1) ->
      dict_get d "whitelistUrls" = Some VNone ->
      _amend_allowlist fuel R action st = (Throw TypeError, set_allowlist VNone st1))
  /\ (forall category,
        _get_category fuel category st = (Return (rv, VDict d), st1) ->
        dict_get d "dbCategorizedUrls" = Some VNone ->
        _amend_category fuel R category action st
        = (Throw TypeError, set_category (VDict d) st1)).
Proof.
  intros Hok. split; [|split].
  - intros Hget Hfield.
    unfold _amend_blocklist, _check_blocklist, bind at 1 2. rewrite Hget, Hok.
    unfold bind at 1. cbn [py_get]. rewrite Hfield. msimpl.
    by rewrite (filter_endpoints_raises _ _ _ _ TypeError).
  - intros Hget Hfield.
    unfold _amend_allowlist, _check_allowlist, bind at 1 2. rewrite Hget, Hok.
    unfold bind at 1. cbn [py_get]. rewrite Hfield. msimpl.
    by rewrite (filter_endpoints_raises _ _ _ _ TypeError).
  - intros category Hget Hfield.
    unfold _amend_category, _check_category, bind at 1 2. rewrite Hget, Hok.
    msimpl. unfold bind at 1. cbn [py_get]. rewrite Hfield. msimpl.
    by rewrite (filter_endpoints_raises _ _ _ _ TypeError).
Qed.

Lemma null_list_raises_witness :
  let st := start "block_url"
              (constant_gateway
                 (Responded (json_response 200 (VDict [("blacklistUrls", VNone)])))) in
  (_amend_blocklist 1 ["a.com"] "ADD_TO_LIST" st).1 = Throw TypeError.
Proof.
  intros st.
  destruct (null_list_raises 1 ["a.com"] "ADD_TO_LIST" st (_get_blocklist 1 st).2
              APP_SUCCESS [("blacklistUrls", VNone)]) as (Hblock & _); [reflexivity|].
  rewrite Hblock; [reflexivity|vm_compute; reflexivity|reflexivity].
Defined.

(** *** Against a gateway that applies the writes *)

Lemma filter_not_in_nil (l : list string) : filter (fun e => e ∉ []) l = l.
Proof.
  induction l as [|x l IH]; [done|]. rewrite filter_cons_True; [by rewrite IH|].
  apply not_elem_of_nil.
Qed.

(** A mutation of the block list against that gateway succeeds, and the
    gateway then holds the list with the delta added or taken away. *)
Lemma amend_blocklist_applied E0 fuel R action st :
  gateway st = blocklist_gateway E0 ->
  let current := blocklist_after E0 (trace st) in
  let f := elements (delta action (list_to_set R) (list_to_set current)) in
  let run := _amend_blocklist (S fuel) R action st in
  run.1 = Return APP_SUCCESS
  /\ gateway run.2 = blocklist_gateway E0
  /\ blocklist_after E0 (trace run.2)
     = if String.eqb action "REMOVE_FROM_LIST"
       then filter (fun e => e ∉ f) current else current ++ f.
Proof.
  intros Hgw current f run.
  destruct (get_blocklist_served E0 fuel st Hgw) as (ar & Hget).
  fold current in Hget.
  set (st1 := answered (request_of st "/api/v1/security/advanced" [] [] VNone "get")
                (json_response 200 (VDict [("blacklistUrls", str_list current)]))
                ar st) in *.
  assert (_check_blocklist (S fuel) R action st
          = _filter_endpoints R (str_list current) action "Blocklist" st1) as Hcheck.
  { unfold _check_blocklist, bind at 1. rewrite Hget.
    change (is_fail APP_SUCCESS) with false. cbn iota.
    unfold bind at 1.
    cbn [py_get dict_get String.eqb Ascii.eqb Bool.eqb from_option id lift].
    reflexivity. }
  rewrite (filter_endpoints_eq _ _ _ _ (list_to_set current) _ (py_set_str_list current))
    in Hcheck. fold f in Hcheck.
  destruct f as [|x f'] eqn:Hf.
  - assert (run = (Return APP_SUCCESS, short_circuited "Blocklist" action R st1)) as ->.
    { unfold run, _amend_blocklist, bind at 1. by rewrite Hcheck. }
    split; [done|]. split; [done|].
    unfold short_circuited, st1, answered, request_of. msimpl.
    cbn [blocklist_after method]. change (String.eqb "get" "post") with false.
    cbn iota. fold current.
    destruct (String.eqb action "REMOVE_FROM_LIST");
      [by rewrite filter_not_in_nil|by rewrite app_nil_r].
  - destruct (post_blocklist_no_content E0 fuel [("action", action)]
                (VDict [("blacklistUrls", str_list (x :: f'))]) st1 Hgw)
      as (ar' & Hpost).
    assert (run = (Return APP_SUCCESS,
                   reported R (x :: f')
                     (answered (request_of st1 "/api/v1/security/advanced/blacklistUrls"
                                  [] [("action", action)]
                                  (VDict [("blacklistUrls", str_list (x :: f'))]) "post")
                        no_content ar' st1))) as ->.
    { unfold run, _amend_blocklist, bind at 1. rewrite Hcheck.
      change (is_fail APP_SUCCESS) with false. cbn iota.
      unfold bind at 1. rewrite Hpost.
      change (is_fail APP_ERROR) with true. unfold answered at 1 2. msimpl.
      change (status_code no_content =? 204)%Z with true. cbn [negb].
      by rewrite report_summary_eq. }
    split; [done|]. split; [done|].
    unfold reported, answered, st1, request_of, str_list. msimpl.
    cbn [blocklist_after method body params dict_get].
    change (String.eqb "post" "post") with true.
    change (String.eqb "get" "post") with false.
    change (String.eqb "action" "action") with true.
    change (String.eqb "blacklistUrls" "blacklistUrls") with true.
    cbn iota. fold current. rewrite strings_of_str_list.
    destruct (String.eqb_spec action "REMOVE_FROM_LIST") as [->|Hne].
    + by rewrite bool_decide_eq_true_2.
    + rewrite bool_decide_eq_false_2; [done|]. congruence.
Qed.

(** X22.  Blocking and unblocking take effect.  Against a gateway that
    serves its block list and applies every write it receives, an addition
    of [R] succeeds and leaves on the gateway the former list together
    with [R]; a removal of [R] succeeds and leaves the former list without
    [R]; and an addition followed by a removal of the same endpoints leaves
    the former list without them.  The lists are compared as sets. *)
Theorem block_and_unblock_take_effect (E0 R : list string) (fuel : nat) (st : state) :
  gateway st = blocklist_gateway E0 ->
  let held := fun st' : state =>
    (list_to_set (blocklist_after E0 (trace st')) : gset string) in
  let blocked := _amend_blocklist (S fuel) R "ADD_TO_LIST" st in
  let unblocked := _amend_blocklist (S fuel) R "REMOVE_FROM_LIST" st in
  let restored := _amend_blocklist (S fuel) R "REMOVE_FROM_LIST" blocked.2 in
  (blocked.1 = Return APP_SUCCESS /\ held blocked.2 = held st ∪ list_to_set R)
  /\ (unblocked.1 = Return APP_SUCCESS /\ held unblocked.2 = held st ∖ list_to_set R)
  /\ (restored.1 = Return APP_SUCCESS /\ held restored.2 = held st ∖ list_to_set R).
Proof.
  intros Hgw held blocked unblocked restored.
  assert (forall st0,
            gateway st0 = blocklist_gateway E0 ->
            (_amend_blocklist (S fuel) R "ADD_TO_LIST" st0).1 = Return APP_SUCCESS
            /\ gateway (_amend_blocklist (S fuel) R "ADD_TO_LIST" st0).2
               = blocklist_gateway E0
            /\ held (_amend_blocklist (S fuel) R "ADD_TO_LIST" st0).2
               = held st0 ∪ list_to_set R) as Hadd.
  { intros st0 Hgw0.
    destruct (amend_blocklist_applied E0 fuel R "ADD_TO_LIST" st0 Hgw0)
      as (Hok & Hgw1 & Hafter).
    split; [done|]. split; [done|]. unfold held. rewrite Hafter.
    change (String.eqb "ADD_TO_LIST" "REMOVE_FROM_LIST") with false. cbn iota.
    change (delta "ADD_TO_LIST" (list_to_set R)
              (list_to_set (blocklist_after E0 (trace st0))))
      with (list_to_set R ∖ list_to_set (blocklist_after E0 (trace st0)) : gset string).
    rewrite list_to_set_app_L, list_to_set_elements_L.
    apply set_eq. intros x. rewrite !elem_of_union, elem_of_difference.
    destruct (decide (x ∈ (list_to_set (blocklist_after E0 (trace st0)) : gset string)));
      tauto. }
  assert (forall st0,
            gateway st0 = blocklist_gateway E0 ->
            (_amend_blocklist (S fuel) R "REMOVE_FROM_LIST" st0).1 = Return APP_SUCCESS
            /\ held (_amend_blocklist (S fuel) R "REMOVE_FROM_LIST" st0).2
               = held st0 ∖ list_to_set R) as Hremove.
  { intros st0 Hgw0.
    destruct (amend_blocklist_applied E0 fuel R "REMOVE_FROM_LIST" st0 Hgw0)
      as (Hok & _ & Hafter).
    split; [done|]. unfold held. rewrite Hafter.
    change (String.eqb "REMOVE_FROM_LIST" "REMOVE_FROM_LIST") with true. cbn iota.
    change (delta "REMOVE_FROM_LIST" (list_to_set R)
              (list_to_set (blocklist_after E0 (trace st0))))
      with (list_to_set R ∩ list_to_set (blocklist_after E0 (trace st0)) : gset string).
    apply set_eq. intros x.
    rewrite elem_of_list_to_set, list_elem_of_filter, elem_of_elements,
      elem_of_intersection, elem_of_difference, !elem_of_list_to_set.
    tauto. }
  destruct (Hadd st Hgw) as (Hok1 & Hgw1 & Hheld1).
  split; [done|]. split; [by apply Hremove|].
  destruct (Hremove blocked.2 Hgw1) as (Hok2 & Hheld2).
  split; [done|]. fold restored in Hheld2. rewrite Hheld2.
  fold blocked in Hheld1. rewrite Hheld1.
  apply set_eq. intros x. rewrite !elem_of_difference, elem_of_union. tauto.
Qed.

Lemma block_and_unblock_take_effect_witness :
  let st := start "block_url" (blocklist_gateway ["b.com"; "c.com"]) in
  let held := fun st' : state =>
    (list_to_set (blocklist_after ["b.com"; "c.com"] (trace st')) : gset string) in
  let blocked := _amend_blocklist 1 ["a.com"; "b.com"] "ADD_TO_LIST" st in
  let restored := _amend_blocklist 1 ["a.com"; "b.com"] "REMOVE_FROM_LIST" blocked.2 in
  held blocked.2 = held st ∪ list_to_set ["a.com"; "b.com"]
  /\ restored.1 = Return APP_SUCCESS
  /\ held restored.2 = held st ∖ list_to_set ["a.com"; "b.com"].
Proof.
  intros st held blocked restored.
  destruct (block_and_unblock_take_effect ["b.com"; "c.com"] ["a.com"; "b.com"] 0 st)
    as ((_ & Hblocked) & _ & (Hok & Hrestored)); [reflexivity|].
  split; [exact Hblocked|]. split; [exact Hok|exact Hrestored].
Defined.

End Writes.

(** ** Lookup, report and dispatch *)

Section Actions.
Local Open Scope Z_scope.

Lemma helper_answers fuel endpoint params sent verb st r v :
  verb ∈ request_functions ->
  gateway st (trace st) (request_of st endpoint [] params sent verb) = Responded r ->
  json_success r v ->
  exists ar,
    _make_rest_call_helper (S fuel) endpoint [] params sent verb st
    = (Return (APP_SUCCESS, v), answered (request_of st endpoint [] params sent verb) r ar st)
    /\ status ar = status (action_result st)
    /\ message ar = message (action_result st)
    /\ summary ar = summary (action_result st)
    /\ data ar = data (action_result st).
Proof. intros Hm Hgw (Hct & Hjson & Hcode). by apply helper_json_success. Qed.

Lemma contains_str_list (e : string) (bl : list string) :
  py_contains e (str_list bl) = Ok (bool_decide (e ∈ bl)).
Proof.
  unfold py_contains, str_list. f_equal.
  induction bl as [|x bl IH]; [done|]. cbn [fmap list_fmap existsb py_eq_str].
  rewrite IH. destruct (String.eqb_spec x e) as [->|Hne].
  - by rewrite (bool_decide_eq_true_2 (e ∈ e :: bl)) by apply list_elem_of_here.
  - simpl. apply bool_decide_ext. rewrite elem_of_cons.
    split; [by right|]. intros [Heq|Hin]; [congruence|done].
Qed.

Lemma mark_items_map (items : list pyval) (e : string) (b : bool) :
  Forall has_url items -> mark_items items e b = Ok (mark_one e b <$> items).
Proof.
  induction 1 as [|item items Hitem _ IH]; [done|].
  cbn [mark_items]. destruct item as [| | | | |d]; try done.
  destruct Hitem as [u Hu]. cbn [py_subscript rbind]. rewrite Hu. cbn [rbind].
  rewrite IH. cbn [rbind fmap list_fmap mark_one]. by rewrite Hu.
Qed.

Lemma has_url_mark_one e b item : has_url item -> has_url (mark_one e b item).
Proof.
  destruct item as [| | | | |d]; try done. intros [u Hu]. simpl. rewrite Hu.
  destruct (py_eq_str u e); simpl; [|by rewrite Hu].
  rewrite dict_get_set_ne by done. by rewrite Hu.
Qed.

Lemma dict_set_twice {V} (d : list (string * V)) k v v' :
  dict_set (dict_set d k v) k v' = dict_set d k v'.
Proof.
  induction d as [|[k0 v0] d IH]; simpl.
  - by rewrite String.eqb_refl.
  - destruct (String.eqb k0 k) eqn:Hk; simpl; rewrite Hk; [done|]. by rewrite IH.
Qed.

Lemma mark_item_cons e rest bl item :
  mark_item rest bl (mark_one e (bool_decide (e ∈ bl)) item)
  = mark_item (e :: rest) bl item.
Proof.
  destruct item as [| | | | |d]; try done. simpl.
  destruct (dict_get d "url") as [u|] eqn:Hu; simpl; [|by rewrite Hu].
  destruct u as [| | |u| |]; simpl; try by rewrite Hu.
  destruct (String.eqb_spec u e) as [->|Hne].
  - simpl. rewrite dict_get_set_ne, Hu by done.
    rewrite (bool_decide_eq_true_2 (e ∈ e :: rest)) by apply list_elem_of_here.
    destruct (bool_decide (e ∈ rest)); [by rewrite dict_set_twice|done].
  - simpl. rewrite Hu.
    assert (bool_decide (u ∈ e :: rest) = bool_decide (u ∈ rest)) as ->; [|done].
    apply bool_decide_ext. rewrite elem_of_cons.
    split; [intros [Heq|Hin]; [congruence|done]|by right].
Qed.

Lemma mark_item_nil bl (items : list pyval) : mark_item [] bl <$> items = items.
Proof.
  induction items as [|item items IH]; [done|]. cbn [fmap list_fmap]. f_equal; [|done].
  destruct item as [| | | | |d]; try done. simpl.
  destruct (dict_get d "url") as [[| | |u| |]|]; done.
Qed.

(** The marking loop as a whole. *)
Lemma mark_endpoints_map endpoints fetched bl items :
  py_get fetched "blacklistUrls" (VList []) = Ok (str_list bl) ->
  Forall has_url items ->
  mark_endpoints endpoints fetched (VList items)
  = Ok (VList (mark_item endpoints bl <$> items)).
Proof.
  intros Hbl. revert items.
  induction endpoints as [|e rest IH]; intros items Hitems.
  - simpl. by rewrite mark_item_nil.
  - cbn [mark_endpoints]. rewrite Hbl. cbn [rbind]. rewrite contains_str_list.
    cbn [rbind mark_blocklisted]. rewrite (mark_items_map _ _ _ Hitems).
    cbn [rbind]. rewrite IH.
    + rewrite <- list_fmap_compose. do 2 f_equal.
      apply list_fmap_ext. intros i item _. apply mark_item_cons.
    + apply Forall_fmap. apply (Forall_impl _ _ _ Hitems).
      intros item. apply has_url_mark_one.
Qed.

(** X23.  What a lookup reports.  When the gateway answers the lookup POST
    with a list of objects that each have a [url], and the GET that
    follows with the settings object, the action succeeds after those two
    requests and adds one data item per object of the answer, in the order
    of the answer.  An object whose [url] is one of the endpoints looked
    up carries [blocklisted], true exactly when that URL is in the fetched
    block list (none, if the settings lack [blacklistUrls]); every other
    object and every other field is passed on as it came. *)
Theorem lookup_marks_blocklisted (fuel : nat) (e : string) (es bl : list string)
    (st : state) (r1 r2 : response) (items : list pyval) (fetched : pyval) :
  let endpoints := e :: es in
  let rq1 := request_of st "/api/v1/urlLookup" [] [] (str_list endpoints) "post" in
  let rq2 := request_of st "/api/v1/security/advanced" [] [] (str_list endpoints) "get" in
  gateway st (trace st) rq1 = Responded r1 ->
  json_success r1 (VList items) ->
  gateway st (Call rq1 :: trace st) rq2 = Responded r2 ->
  json_success r2 fetched ->
  py_get fetched "blacklistUrls" (VList []) = Ok (str_list bl) ->
  Forall has_url items ->
  exists st',
    _lookup_endpoint (S fuel) endpoints st = (Return APP_SUCCESS, st')
    /\ data (action_result st')
       = data (action_result st) ++ (mark_item endpoints bl <$> items)
    /\ status (action_result st') = true
    /\ message (action_result st') = VStr "Successfully completed lookup"
    /\ trace st' = Call rq2 :: Call rq1 :: trace st.
Proof.
  intros endpoints rq1 rq2 Hgw1 Hr1 Hgw2 Hr2 Hbl Hitems.
  destruct (helper_answers fuel "/api/v1/urlLookup" [] (str_list endpoints) "post"
              st r1 (VList items)) as (ar1 & Hrun1 & _ & _ & _ & Hdata1);
    [repeat constructor|exact Hgw1|exact Hr1|].
  fold rq1 in Hrun1. set (st1 := answered rq1 r1 ar1 st) in *.
  destruct (helper_answers fuel "/api/v1/security/advanced" [] (str_list endpoints)
              "get" st1 r2 fetched) as (ar2 & Hrun2 & _ & _ & _ & Hdata2);
    [repeat constructor|exact Hgw2|exact Hr2|].
  change (request_of st1) with (request_of st) in Hrun2. fold rq2 in Hrun2.
  unfold _lookup_endpoint, endpoints. cbn [bind ret]. fold endpoints.
  unfold bind at 1. rewrite Hrun1. change (is_fail APP_SUCCESS) with false. cbn iota.
  unfold bind at 1. rewrite Hrun2. change (is_fail APP_SUCCESS) with false. cbn iota.
  rewrite (mark_endpoints_map endpoints fetched bl items Hbl Hitems).
  unfold answered. msimpl. cbn [py_iter]. msimpl.
  eexists. split; [reflexivity|]. msimpl.
  split; [|done]. f_equal. rewrite Hdata2. unfold st1, answered. msimpl. exact Hdata1.
Qed.

Lemma lookup_marks_blocklisted_witness :
  let items := [VDict [("url", VStr "a.com"); ("urlClassifications", str_list ["NEWS"])];
                VDict [("url", VStr "b.com"); ("urlClassifications", str_list [])]] in
  let gw := read_write_gateway
              (Responded (json_response 200 (VDict [("blacklistUrls", str_list ["b.com"])])))
              (Responded (json_response 200 (VList items))) in
  exists st',
    _lookup_endpoint 1 ["a.com"; "b.com"] (start "lookup_url" gw)
    = (Return APP_SUCCESS, st')
    /\ data (action_result st')
       = [VDict [("url", VStr "a.com"); ("urlClassifications", str_list ["NEWS"]);
                 ("blocklisted", VBool false)];
          VDict [("url", VStr "b.com"); ("urlClassifications", str_list []);
                 ("blocklisted", VBool true)]].
Proof.
  intros items gw.
  destruct (lookup_marks_blocklisted 0 "a.com" ["b.com"] ["b.com"]
              (start "lookup_url" gw)
              (json_response 200 (VList items))
              (json_response 200 (VDict [("blacklistUrls", str_list ["b.com"])]))
              items (VDict [("blacklistUrls", str_list ["b.com"])]))
    as (st' & Hrun & Hdata & _).
  - reflexivity.
  - split; [reflexivity|]. split; [reflexivity|simpl; lia].
  - reflexivity.
  - split; [reflexivity|]. split; [reflexivity|simpl; lia].
  - reflexivity.
  - repeat constructor; by eexists.
  - exists st'. split; [exact Hrun|]. rewrite Hdata. reflexivity.
Defined.

(** X24.  The sandbox report.  When the gateway answers the GET of
    ".../sandbox/report/<hash>?details=full" with a JSON object, the action
    fails exactly when that object has under the "full details" key a
    non-empty text in which the "MD5 unknown" text occurs: the message of
    the action result is then that text, and no data is added.  When the
    key is missing, or holds a text without that passage, the action
    succeeds, and the object is the one data item of the action result. *)
Theorem get_report_outcome (fuel : nat) (param : gmap string string) (st : state)
    (file_hash : string) (r : response) (report : list (string * pyval)) :
  param !! "file_hash" = Some file_hash ->
  gateway st (trace st)
    (request_of st ("/api/v1/sandbox/report/" +:+ file_hash +:+ "?details=full")
       [] [] VNone "get")
  = Responded r ->
  json_success r (VDict report) ->
  let key := ZSCALER_JSON_FULL_DETAILS (consts st) in
  let unknown := ZSCLAER_ERR_MD5_UNKNOWN_MSG (consts st) in
  (forall s,
     dict_get report key = Some (VStr s) -> s <> "" -> Py.contains unknown s = true ->
     exists st',
       _handle_get_report (S fuel) param st = (Return APP_ERROR, st')
       /\ status (action_result st') = false
       /\ message (action_result st') = VStr s
       /\ data (action_result st') = [])
  /\ (dict_get report key = None
      \/ (exists s, dict_get report key = Some (VStr s) /\ Py.contains unknown s = false) ->
      exists st',
        _handle_get_report (S fuel) param st = (Return APP_SUCCESS, st')
        /\ status (action_result st') = true
        /\ message (action_result st')
           = VStr (ZSCALER_SANDBOX_GET_REPORT_MSG (consts st))
        /\ data (action_result st') = [VDict report]).
Proof.
  intros Hparam Hgw Hr key unknown.
  set (st0 := with_action_result (fun _ => new_action_result) st).
  destruct (helper_answers fuel
              ("/api/v1/sandbox/report/" +:+ file_hash +:+ "?details=full")
              [] VNone "get" st0 r (VDict report))
    as (ar & Hrun & _ & _ & _ & Hdata); [repeat constructor|exact Hgw|exact Hr|].
  assert (forall details,
            dict_get report key = details ->
            _handle_get_report (S fuel) param st
            = (let* unknown_md5 :=
                 if truthy (default VNone details)
                 then lift (py_contains unknown (default VNone details))
                 else ret false in
               if unknown_md5 then set_status false (default VNone details)
               else let* _ := add_data (VDict report) in
                    set_status true (VStr (ZSCALER_SANDBOX_GET_REPORT_MSG (consts st))))
                (answered
                   (request_of st0
                      ("/api/v1/sandbox/report/" +:+ file_hash +:+ "?details=full")
                      [] [] VNone "get") r ar st0)) as Heq.
  { intros details Hdetails.
    unfold _handle_get_report, bind at 1, add_action_result, modify at 1. fold st0.
    unfold bind at 1, param_item. rewrite Hparam. cbn [ret].
    unfold bind at 1. rewrite Hrun. change (is_fail APP_SUCCESS) with false. cbn iota.
    unfold answered. unfold bind at 1, gets at 1.
    cbn [consts with_action_result set_response log_event].
    change (consts st0) with (consts st). fold key unknown.
    unfold bind at 1. cbn [py_get lift ret]. rewrite Hdetails. reflexivity. }
  split.
  - intros s Hs Hne Hunknown. rewrite (Heq _ Hs). cbn [from_option id truthy].
    apply String.eqb_neq in Hne. rewrite Hne. cbn [negb py_contains].
    rewrite Hunknown. unfold answered. msimpl.
    eexists. split; [reflexivity|]. msimpl. by repeat split.
  - intros [Hnone|(s & Hs & Hknown)].
    + rewrite (Heq _ Hnone). cbn [from_option id truthy]. unfold answered. msimpl.
      eexists. split; [reflexivity|]. msimpl. split; [done|]. split; [done|].
      by rewrite Hdata.
    + rewrite (Heq _ Hs). cbn [from_option id truthy py_contains].
      rewrite Hknown. destruct (negb (s =? "")%string); unfold answered; msimpl;
        (eexists; split; [reflexivity|]; msimpl; split; [done|]; split; [done|];
         by rewrite Hdata).
Qed.

Lemma get_report_outcome_witness :
  let report := [("Summary", VDict [("Status", VStr "COMPLETED")]);
                 ("Full Details",
                  VStr "The md5 is unknown or analysis has yet not been completed")] in
  exists st',
    _handle_get_report 1 {[ "file_hash" := "8350dED6D39DF158E51D6CFBE36FB012" ]}
      (start "get_report" (constant_gateway (Responded (json_response 200 (VDict report)))))
    = (Return APP_ERROR, st')
    /\ message (action_result st')
       = VStr "The md5 is unknown or analysis has yet not been completed"
    /\ data (action_result st') = [].
Proof.
  intros report.
  destruct (get_report_outcome 0 {[ "file_hash" := "8350dED6D39DF158E51D6CFBE36FB012" ]}
              (start "get_report"
                 (constant_gateway (Responded (json_response 200 (VDict report)))))
              "8350dED6D39DF158E51D6CFBE36FB012" (json_response 200 (VDict report)) report)
    as (Hunknown & _).
  - reflexivity.
  - reflexivity.
  - split; [reflexivity|]. split; [reflexivity|simpl; lia].
  - destruct (Hunknown "The md5 is unknown or analysis has yet not been completed")
      as (st' & Hrun & _ & Hmsg & Hdata); [reflexivity|done|reflexivity|].
    exists st'. split; [exact Hrun|]. split; [exact Hmsg|exact Hdata].
Defined.

(** X25.  The category listing.  When the gateway answers the GET of
    ".../urlCategories" with a list, the action succeeds, its data are the
    records of that list in their order, and the summary gives under
    [total_url_categories] their number.  When the gateway answers with an
    error (a status code outside 200..398 that is neither 409 nor 429) the
    action returns the error status and no data is added. *)
Theorem list_url_categories_total (fuel : nat) (st : state) (r : response) :
  gateway st (trace st) (request_of st "/api/v1/urlCategories" [] [] VNone "get")
  = Responded r ->
  (forall cats,
     json_success r (VList cats) ->
     exists st',
       _handle_list_url_categories (S fuel) st = (Return APP_SUCCESS, st')
       /\ status (action_result st') = true
       /\ data (action_result st') = cats
       /\ summary (action_result st') !! "total_url_categories"
          = Some (VInt (Z.of_nat (length cats))))
  /\ (status_code r <> 409 -> status_code r <> 429 ->
      status_code r < 200 \/ 399 <= status_code r ->
      exists st',
        _handle_list_url_categories (S fuel) st = (Return APP_ERROR, st')
        /\ data (action_result st') = []
        /\ summary (action_result st') = ∅).
Proof.
  intros Hgw.
  set (st0 := with_action_result (fun _ => new_action_result) st).
  split.
  - intros cats Hr.
    destruct (helper_answers fuel "/api/v1/urlCategories" [] VNone "get" st0 r
                (VList cats))
      as (ar & Hrun & _ & _ & Hsum & Hdata); [repeat constructor|exact Hgw|exact Hr|].
    unfold _handle_list_url_categories, bind at 1, add_action_result, modify at 1.
    fold st0. unfold bind at 1. rewrite Hrun.
    change (is_fail APP_SUCCESS) with false. cbn iota.
    unfold answered. msimpl. cbn [py_iter]. msimpl.
    eexists. split; [reflexivity|]. msimpl. rewrite Hdata. cbn [app].
    split; [done|]. split; [done|]. by rewrite lookup_insert_eq.
  - intros H409 H429 Hcode.
    destruct (helper_failure fuel "/api/v1/urlCategories" [] [] VNone "get" st0 r)
      as (ar & Hrun & Hst & Hsum & Hdata); [repeat constructor|exact Hgw|done..|].
    unfold _handle_list_url_categories, bind at 1, add_action_result, modify at 1.
    fold st0. unfold bind at 1. rewrite Hrun.
    change (is_fail APP_ERROR) with true. cbn iota.
    unfold answered, get_status, gets. msimpl. rewrite Hst.
    eexists. split; [reflexivity|]. msimpl. by rewrite Hdata, Hsum.
Qed.

Lemma list_url_categories_total_witness :
  exists st',
    _handle_list_url_categories 1 (start "list_url_categories" category_gateway)
    = (Return APP_SUCCESS, st')
    /\ data (action_result st') = sample_categories
    /\ summary (action_result st') !! "total_url_categories" = Some (VInt 3).
Proof.
  destruct (list_url_categories_total 0 (start "list_url_categories" category_gateway)
              (json_response 200 (VList sample_categories))) as (Hlist & _);
    [reflexivity|].
  destruct (Hlist sample_categories) as (st' & Hrun & _ & Hdata & Htotal).
  - split; [reflexivity|]. split; [reflexivity|simpl; lia].
  - exists st'. split; [exact Hrun|]. split; [exact Hdata|exact Htotal].
Defined.

(** X26.  An action identifier that [handle_action] does not know is not
    an error: it returns success at once, and the state, the action result
    included, is exactly what it was. *)
Theorem unknown_action_is_success (fuel : nat) (param : gmap string string)
    (st : state) :
  action_identifier st ∉ known_actions ->
  handle_action fuel param st = (Return APP_SUCCESS, st).
Proof.
  intros Hid. unfold handle_action, get_action_identifier. msimpl.
  unfold known_actions in Hid.
  repeat match goal with
    | |- context [String.eqb (action_identifier st) ?a] =>
        destruct (String.eqb_spec (action_identifier st) a) as [Heq|_];
          [exfalso; apply Hid; rewrite Heq; clear;
           repeat first [apply list_elem_of_here | apply list_elem_of_further]|]
    end.
  reflexivity.
Qed.

Lemma unknown_action_is_success_witness :
  handle_action 1 {[ "ip" := "1.2.3.4" ]}
    (start "quarantine_ip" (constant_gateway (Failed [])))
  = (Return APP_SUCCESS, start "quarantine_ip" (constant_gateway (Failed []))).
Proof.
  apply (unknown_action_is_success 1 {[ "ip" := "1.2.3.4" ]}
           (start "quarantine_ip" (constant_gateway (Failed [])))).
  apply (bool_decide_eq_true_1 _). vm_compute. reflexivity.
Defined.

(** X27.  A missing parameter.  The block, unblock, allow, unallow and
    lookup actions need [ip] or [url], the report action [file_hash]; when
    that parameter is absent the action raises [KeyError] and sends
    nothing, the action result having just been replaced by a new one. *)
Theorem missing_parameter_raises (fuel : nat) (param : gmap string string)
    (st : state) :
  action_identifier st ∈ "get_report" :: endpoint_actions ->
  param !! required_parameter (action_identifier st) = None ->
  handle_action fuel param st
  = (Throw KeyError, with_action_result (fun _ => new_action_result) st).
Proof.
  intros Hin. unfold endpoint_actions in Hin.
  remember (action_identifier st) as action_id eqn:Hid. symmetry in Hid.
  repeat (apply elem_of_cons in Hin as [->|Hin]); [..|by apply elem_of_nil in Hin];
    intros Hparam;
    match type of Hparam with
    | context [required_parameter ?a] =>
        let k := eval vm_compute in (required_parameter a) in
        change (required_parameter a) with k in Hparam
    end;
    unfold handle_action, get_action_identifier, bind at 1, gets at 1;
    rewrite Hid; eval_closed; cbn iota;
    unfold _handle_get_report, _handle_block_ip, _handle_block_url, _handle_unblock_ip,
      _handle_unblock_url, _handle_allow_ip, _handle_allow_url,
      _handle_unallow_ip, _handle_unallow_url, _handle_lookup_ip, _handle_lookup_url;
    unfold param_item; rewrite Hparam; reflexivity.
Qed.

Lemma missing_parameter_raises_witness :
  handle_action 1 {[ "ip" := "1.2.3.4" ]}
    (start "block_url" (constant_gateway (Failed [])))
  = (Throw KeyError,
     with_action_result (fun _ => new_action_result)
       (start "block_url" (constant_gateway (Failed [])))).
Proof.
  apply (missing_parameter_raises 1 {[ "ip" := "1.2.3.4" ]}
           (start "block_url" (constant_gateway (Failed [])))).
  - apply (bool_decide_eq_true_1 _). vm_compute. reflexivity.
  - reflexivity.
Defined.

End Actions.

(** ** The endpoint list *)

Section Endpoints.

Lemma contains_occurs (c : ascii) (s : string) :
  Py.contains (String c "") s = occurs c s.
Proof.
  induction s as [|a s IH]; [done|]. cbn [Py.contains occurs String.prefix].
  rewrite IH. destruct (ascii_dec c a) as [->|Hne].
  - rewrite Ascii.eqb_refl. by destruct s.
  - apply not_eq_sym, Ascii.eqb_neq in Hne. by rewrite Hne.
Qed.

Lemma split_on_no_sep (sep : ascii) (s x : string) :
  x ∈ Py.split_on sep s -> occurs sep x = false.
Proof.
  revert x. induction s as [|a s IH]; intros x.
  - simpl. by intros ->%list_elem_of_singleton.
  - cbn [Py.split_on]. destruct (Ascii.eqb a sep) eqn:Ha.
    + intros [->|Hin]%elem_of_cons; [done|]. by apply IH.
    + destruct (Py.split_on sep s) as [|w ws].
      * intros ->%list_elem_of_singleton. simpl. by rewrite Ha.
      * intros [->|Hin]%elem_of_cons.
        -- simpl. rewrite Ha. apply IH, list_elem_of_here.
        -- by apply IH, list_elem_of_further.
Qed.

Lemma occurs_lstrip c s : occurs c (Py.lstrip s) = true -> occurs c s = true.
Proof.
  induction s as [|a s IH]; [done|]. cbn [Py.lstrip].
  destruct (Py.isspace a); [|done]. intros H. simpl. rewrite (IH H).
  apply orb_true_r.
Qed.

Lemma occurs_rstrip c s : occurs c (Py.rstrip s) = true -> occurs c s = true.
Proof.
  induction s as [|a s IH]; [done|]. cbn [Py.rstrip].
  destruct (Py.rstrip s) as [|b t].
  - destruct (Py.isspace a); [done|]. simpl. rewrite orb_false_r. intros ->. done.
  - cbn [occurs] in *. intros [->|H]%orb_true_iff; [done|].
    rewrite (IH H). apply orb_true_r.
Qed.

Lemma lstrip_head s c t : Py.lstrip s = String c t -> Py.isspace c = false.
Proof.
  induction s as [|a s IH]; [done|]. cbn [Py.lstrip].
  destruct (Py.isspace a) eqn:Ha; [done|]. by intros [= <- _].
Qed.

Lemma rstrip_head c t :
  Py.isspace c = false -> exists t', Py.rstrip (String c t) = String c t'.
Proof.
  intros Hc. cbn [Py.rstrip]. destruct (Py.rstrip t); rewrite ?Hc; by eexists.
Qed.

Lemma rstrip_idempotent s : Py.rstrip (Py.rstrip s) = Py.rstrip s.
Proof.
  induction s as [|a s IH]; [done|]. cbn [Py.rstrip].
  destruct (Py.rstrip s) as [|b t] eqn:Hr.
  - destruct (Py.isspace a) eqn:Ha; [done|]. simpl. by rewrite Ha.
  - cbn [Py.rstrip]. cbn [Py.rstrip] in IH. by rewrite IH.
Qed.

Lemma strip_idempotent s : Py.strip (Py.strip s) = Py.strip s.
Proof.
  unfold Py.strip. destruct (Py.lstrip s) as [|c t] eqn:Hl; [done|].
  pose proof (lstrip_head s c t Hl) as Hc.
  destruct (rstrip_head c t Hc) as [t' Ht']. rewrite Ht'.
  cbn [Py.lstrip]. rewrite Hc, <- Ht'. apply rstrip_idempotent.
Qed.

Lemma split_endpoints_entries_nonempty (raw : string) :
  "" ∈ split_endpoints raw -> False.
Proof.
  unfold split_endpoints. by intros [Hne _]%list_elem_of_filter.
Qed.

(** X28.  Every endpoint the actions work on is clean: whatever the raw
    text of the parameter, an entry of the list obtained by splitting,
    trimming and dropping the empty entries is not empty, has no blank at
    either end (trimming it again changes nothing) and contains no
    comma. *)
Theorem split_endpoints_entries (raw e : string) :
  e ∈ split_endpoints raw ->
  e <> "" /\ Py.strip e = e /\ Py.contains "," e = false.
Proof.
  unfold split_endpoints, _handle_py_ver_compat_for_input_str.
  intros [Hne (x & -> & Hx)%list_elem_of_fmap]%list_elem_of_filter.
  split; [exact Hne|]. split; [apply strip_idempotent|].
  rewrite contains_occurs. apply not_true_is_false. intros Hocc.
  unfold Py.strip in Hocc. apply occurs_rstrip, occurs_lstrip in Hocc.
  by rewrite (split_on_no_sep _ _ _ Hx) in Hocc.
Qed.

Lemma split_endpoints_entries_witness :
  "b.com/x y" <> "" /\ Py.strip "b.com/x y" = "b.com/x y"
  /\ Py.contains "," "b.com/x y" = false.
Proof.
  apply (split_endpoints_entries " a.com ,, b.com/x y ,").
  apply (bool_decide_eq_true_1 _). vm_compute. reflexivity.
Defined.

Lemma prefix_drop (p e : string) :
  String.prefix p e = true -> e = p +:+ Py.drop (String.length p) e.
Proof.
  revert e. induction p as [|c p IH]; intros e; [by destruct e|].
  destruct e as [|a e]; [done|]. simpl.
  destruct (ascii_dec c a) as [->|]; [|done]. intros Hp.
  rewrite append_cons. f_equal. by apply IH.
Qed.

Lemma strip_scheme_empty (e : string) :
  strip_scheme e = "" <-> e = "" \/ e = "http://" \/ e = "https://".
Proof.
  split.
  - unfold strip_scheme, Py.startswith.
    destruct (String.prefix "http://" e) eqn:Hhttp.
    { intros Hdrop. apply prefix_drop in Hhttp.
      change (String.length "http://") with 7%nat in Hhttp.
      rewrite Hdrop in Hhttp. right. by left. }
    destruct (String.prefix "https://" e) eqn:Hhttps.
    { intros Hdrop. apply prefix_drop in Hhttps.
      change (String.length "https://") with 8%nat in Hhttps.
      rewrite Hdrop in Hhttps. right. by right. }
    by left.
  - by intros [->|[->| ->]].
Qed.

(** X29.  An entry that is nothing but a scheme.  Stripping the scheme
    keeps the number of entries, and it happens after the empty entries
    were dropped: the list handed to the mutation or to the lookup
    contains the empty text exactly when an entry of the raw parameter is
    "http://" or "https://" and nothing more. *)
Theorem scheme_only_entry_becomes_empty (raw : string) :
  let endpoints := _truncate_protocol (split_endpoints raw) in
  length endpoints = length (split_endpoints raw)
  /\ ("" ∈ endpoints
      <-> "http://" ∈ split_endpoints raw \/ "https://" ∈ split_endpoints raw).
Proof.
  intros endpoints. subst endpoints. rewrite truncate_protocol_map.
  split; [apply length_fmap|]. rewrite list_elem_of_fmap. split.
  - intros (e & He & Hin). symmetry in He.
    apply strip_scheme_empty in He as [->|[->| ->]]; [|by left|by right].
    by destruct (split_endpoints_entries_nonempty raw Hin).
  - intros [Hin|Hin]; eexists; (split; [|exact Hin]); reflexivity.
Qed.

End Endpoints.

(** ** Where the mutations go *)

Section Routing.

Lemma helper_sent_to base h (Q : string -> Prop) fuel endpoint headers params sent verb :
  Q endpoint ->
  within base h (sent_to base Q)
    (_make_rest_call_helper fuel endpoint headers params sent verb).
Proof.
  intros HQ.
  refine (within_mono base h _ _ _ _
            (helper_within base h fuel endpoint headers params sent verb)).
  intros [rq|n] Hev; [|done]. simpl in Hev. subst rq. by exists endpoint.
Qed.

Lemma amend_blocklist_sent base h fuel endpoints action :
  within base h (sent_to base blocklist_path) (_amend_blocklist fuel endpoints action).
Proof.
  pose proof (helper_sent_to base h blocklist_path fuel "/api/v1/security/advanced"
                [] [] VNone "get" (or_introl eq_refl)).
  pose proof (fun params sent =>
                helper_sent_to base h blocklist_path fuel
                  "/api/v1/security/advanced/blacklistUrls" [] params sent "post"
                  (or_intror eq_refl)).
  unfold _amend_blocklist, _check_blocklist, _get_blocklist.
  within_auto; eauto using filter_endpoints_within, report_summary_within.
Qed.

Lemma amend_allowlist_sent base h fuel endpoints action :
  within base h (sent_to base allowlist_path) (_amend_allowlist fuel endpoints action).
Proof.
  pose proof (fun sent verb =>
                helper_sent_to base h allowlist_path fuel "/api/v1/security"
                  [] [] sent verb eq_refl).
  unfold _amend_allowlist, _check_allowlist, _get_allowlist, add_data.
  within_auto; eauto using filter_endpoints_within, report_summary_within.
Qed.

Lemma amend_category_sent base h fuel endpoints category action :
  within base h (sent_to base category_path)
    (_amend_category fuel endpoints category action).
Proof.
  pose proof (helper_sent_to base h category_path fuel "/api/v1/urlCategories"
                [] [] VNone "get" (or_introl eq_refl)).
  pose proof (fun id sent =>
                helper_sent_to base h category_path fuel
                  ("/api/v1/urlCategories/" +:+ id) [] [] sent "put"
                  (or_intror (ex_intro _ id eq_refl))).
  unfold _amend_category, _check_category, _get_category, add_data.
  within_auto; eauto using filter_endpoints_within, report_summary_within.
Qed.

#[local] Hint Resolve amend_blocklist_sent amend_allowlist_sent amend_category_sent
  : within_db.

Lemma endpoint_mutations_sent base h fuel endpoints category :
  within base h (sent_to base (paths_for category blocklist_path))
    (_block_endpoint fuel endpoints category)
  /\ within base h (sent_to base (paths_for category blocklist_path))
       (_unblock_endpoint fuel endpoints category)
  /\ within base h (sent_to base (paths_for category allowlist_path))
       (_allowlist_endpoint fuel endpoints category)
  /\ within base h (sent_to base (paths_for category allowlist_path))
       (_unallow_endpoint fuel endpoints category).
Proof.
  unfold _block_endpoint, _unblock_endpoint, _allowlist_endpoint, _unallow_endpoint,
    get_action_identifier.
  destruct category as [category|]; cbn [paths_for];
    (split; [|split; [|split]]); within_auto.
Qed.

(** X30.  Where a mutation goes.  A block, unblock, allow or unallow
    action that names a URL category sends its requests to
    ".../urlCategories" and ".../urlCategories/<id>" only, and leaves the
    global lists alone; without a category, block and unblock go to
    ".../security/advanced" and ".../security/advanced/blacklistUrls" only,
    allow and unallow to ".../security" only.  This holds for every
    parameter text and whatever the gateway answers. *)
Theorem mutation_routing (fuel : nat) (param : gmap string string) (st : state) :
  action_identifier st ∈ mutation_actions ->
  let list_path :=
    if bool_decide (action_identifier st
                    ∈ ["block_ip"; "block_url"; "unblock_ip"; "unblock_url"])
    then blocklist_path else allowlist_path in
  exists evs,
    trace (handle_action fuel param st).2 = evs ++ trace st
    /\ Forall (sent_to (_base_url st) (paths_for (param !! "url_category") list_path))
         evs.
Proof.
  intros Hin. unfold mutation_actions in Hin.
  remember (action_identifier st) as action_id eqn:Hid. symmetry in Hid.
  assert (forall key (run : string -> M pyval) Q,
            (forall endpoints, within (_base_url st) (_headers st)
                                 (sent_to (_base_url st) Q) (run endpoints)) ->
            exists evs,
              trace ((let* _ := add_action_result in
                      let* endpoints := param_item param key in
                      run endpoints) st).2 = evs ++ trace st
              /\ Forall (sent_to (_base_url st) Q) evs) as Hhandler.
  { intros key run Q Hrun.
    assert (within (_base_url st) (_headers st) (sent_to (_base_url st) Q)
              (let* _ := add_action_result in
               let* endpoints := param_item param key in
               run endpoints)) as Hwithin.
    { unfold add_action_result, param_item. within_auto. }
    by destruct (Hwithin st eq_refl eq_refl) as [_ Hevs]. }
  repeat (apply elem_of_cons in Hin as [->|Hin]); [..|by apply elem_of_nil in Hin];
    intros list_path; subst list_path; eval_closed; cbn iota;
    unfold handle_action, get_action_identifier, bind at 1, gets at 1;
    rewrite Hid; eval_closed; cbn iota;
    unfold _handle_block_ip, _handle_block_url, _handle_unblock_ip,
      _handle_unblock_url, _handle_allow_ip, _handle_allow_url,
      _handle_unallow_ip, _handle_unallow_url;
    apply Hhandler; intros endpoints;
    apply (endpoint_mutations_sent (_base_url st) (_headers st) fuel endpoints
             (param !! "url_category")).
Qed.

Lemma mutation_routing_witness :
  let st := start "block_url" category_gateway in
  exists evs,
    trace (handle_action 1 {[ "url" := "worse.example"; "url_category" := "Phishing" ]} st).2
    = evs ++ trace st
    /\ Forall (sent_to (_base_url st) category_path) evs.
Proof.
  intros st.
  assert (action_identifier st ∈ mutation_actions) as Hin.
  { apply (bool_decide_eq_true_1 _). vm_compute. reflexivity. }
  pose proof (mutation_routing 1
                {[ "url" := "worse.example"; "url_category" := "Phishing" ]} st Hin)
    as Hrouting.
  cbv zeta in Hrouting.
  assert (({[ "url" := "worse.example"; "url_category" := "Phishing" ]}
           : gmap string string) !! "url_category" = Some "Phishing") as Hcategory
    by reflexivity.
  rewrite Hcategory in Hrouting. exact Hrouting.
Defined.

End Routing.
